(** * Car-rental booking engine: shallow embedding and verified properties

    The development follows the layout of the Django project:
    - [Py]          the pieces of the Python runtime the booking code leans on
                    (binary64 floats and their [str], [Decimal], [timedelta],
                    [random.choice]);
    - [Models]      [bookings/models.py] (and the two columns of
                    [vehicles/models.py] that bookings read);
    - [Serializers] [bookings/serializers.py];
    - [Views]       [bookings/views.py];
    followed by the properties of the booking engine. *)

From Stdlib Require Import ZArith List String Ascii Bool Lia SpecFloat.
From stdpp Require Import gmap strings list fin_maps.

Local Open Scope Z_scope.

(* ===================================================================== *)
(** * Python runtime                                                      *)
(* ===================================================================== *)

Module Py.

(** ** Exceptions and outcomes

    A call either returns, raises, or (for the one [while] loop of the
    code base) has not finished when its fuel is spent. *)

Inductive exn : Type :=
| TypeError                           (* e.g. comparing [None] with a datetime *)
| DoesNotExist                        (* [Model.objects.get] found no row *)
| Http404                             (* [get_object] found no row *)
| ValidationError (msgs : list string).

Inductive result (A : Type) : Type :=
| Ok (a : A)
| Raise (e : exn)
| OutOfFuel.
Arguments Ok {A} a.
Arguments Raise {A} e.
Arguments OutOfFuel {A}.

Definition bind {A B} (r : result A) (k : A -> result B) : result B :=
  match r with
  | Ok a => k a
  | Raise e => Raise e
  | OutOfFuel => OutOfFuel
  end.

Notation "'do' x <- c ; k" := (bind c (fun x => k))
  (at level 10, x name, c at level 100, k at level 200).

(** ** [decimal.Decimal]

    A finite decimal is a coefficient and a power of ten.  Products are
    exact: the context precision is 28 digits, and the code multiplies a
    rate of at most 10 digits by a day count of at most 17 and by [0.2]. *)

Record Decimal : Type := mkDecimal { coef : Z; dexp : Z }.

(** The coefficient of [d] once rewritten with the (smaller) exponent [e]. *)
Definition Dscaled (d : Decimal) (e : Z) : Z := coef d * 10 ^ (dexp d - e).

(** [==] on decimals compares values, not representations. *)
Definition Deq (a b : Decimal) : Prop :=
  Dscaled a (Z.min (dexp a) (dexp b)) = Dscaled b (Z.min (dexp a) (dexp b)).

Definition Dmul (a b : Decimal) : Decimal :=
  mkDecimal (coef a * coef b) (dexp a + dexp b).

(** Truth value of a decimal: zero is falsy. *)
Definition Dtruthy (d : Decimal) : bool := negb (coef d =? 0).

Definition Dis_zero (d : Decimal) : Prop := coef d = 0.
Definition Dis_negative (d : Decimal) : Prop := coef d < 0.

(** Integer nearest to [n / d] ([d > 0]), ties to the even neighbour:
    [ROUND_HALF_EVEN], the rounding of the default context. *)
Definition round_half_even (n d : Z) : Z :=
  let q := n / d in
  match (2 * (n mod d)) ?= d with
  | Lt => q
  | Gt => q + 1
  | Eq => if Z.even q then q else q + 1
  end.

(** [d.quantize(Decimal(1).scaleb(-places))]: [d] written with [places]
    decimal places, rounded half-even when digits are dropped. *)
Definition quantize (places : Z) (d : Decimal) : Decimal :=
  mkDecimal (if (- places) <=? dexp d
             then coef d * 10 ^ (dexp d + places)
             else round_half_even (coef d) (10 ^ (- places - dexp d)))
            (- places).

(** ** binary64 floats *)

Definition float : Type := spec_float.

Definition float_of_int (n : Z) : float := binary_normalize 53 1024 n 0 false.
Definition float_add : float -> float -> float := SFadd 53 1024.

(** [a / b] on ints (true division), for [b <> 0]. *)
Definition int_truediv (a b : Z) : float :=
  SFdiv 53 1024 (float_of_int a) (float_of_int b).

(** The float nearest to the decimal [c * 10^k], [c > 0]. *)
Definition float_of_decimal (c k : Z) : float :=
  if 0 <=? k then float_of_int (c * 10 ^ k)
  else SFdiv 53 1024 (S754_finite false (Z.to_pos c) 0)
                     (S754_finite false (Z.to_pos (10 ^ (- k))) 0).

Definition float_same (x y : float) : bool :=
  match x, y with
  | S754_finite sx mx ex, S754_finite sy my ey =>
      Bool.eqb sx sy && (Pos.eqb mx my) && (ex =? ey)
  | _, _ => false
  end.

(** [repr] of a positive finite float [m * 2^e]: the shortest digit string
    that reads back as the same float, and among those the closest one.
    The search tries the exponents [k], [k-1], ... and at each the two
    integers around [m * 2^e / 10^k]. *)
(** An exponent [k] with [m * 2^e < 10^k], where the search starts. *)
Definition repr_start (m : positive) (e : Z) : Z :=
  (Zpos (digits2_pos m) + e) * 30103 / 100000 + 2.

Fixpoint repr_digits (fuel : nat) (m : positive) (e k : Z) : Z * Z :=
  match fuel with
  | O => (0, 0)
  | S fuel' =>
      let num := Zpos m * 2 ^ (Z.max e 0) * 10 ^ (Z.max (- k) 0) in
      let den := 2 ^ (Z.max (- e) 0) * 10 ^ (Z.max k 0) in
      let lo := num / den in
      let hi := lo + 1 in
      let ok c := (0 <? c) && float_same (float_of_decimal c k) (S754_finite false m e) in
      let lo_first := match (2 * (num mod den)) ?= den with
                      | Lt => true
                      | Gt => false
                      | Eq => Z.even lo
                      end in
      let c1 := if lo_first then lo else hi in
      let c2 := if lo_first then hi else lo in
      if ok c1 then (c1, k)
      else if ok c2 then (c2, k)
      else repr_digits fuel' m e (k - 1)
  end.

(** [Decimal(str(x))].  [str] prints the digits in positional notation
    (with [.0] after an integral value) up to 16 integer digits and in
    scientific notation otherwise; [Decimal] keeps the digits written. *)
Definition Decimal_of_str_float (x : float) : Decimal :=
  match x with
  | S754_finite s m e =>
      let '(c, k) := repr_digits 40 m e (repr_start m e) in
      let sgn := if s then -1 else 1 in
      if (0 <=? k) && (c * 10 ^ k <? 10 ^ 16)
      then mkDecimal (sgn * c * 10 ^ (k + 1)) (-1)
      else mkDecimal (sgn * c) k
  | S754_zero _ => mkDecimal 0 (-1)
  | _ => mkDecimal 0 0   (* inf, nan: not reachable from a timedelta *)
  end.

(** ** [random]

    The generator is a sequence of raw draws and a cursor into it;
    [random.choice(seq)] is [seq[randbelow(len(seq))]]. *)

Record Random : Type := mkRandom { draws : nat -> nat; cursor : nat }.

Definition random_choice (seq : list ascii) (g : Random) : ascii * Random :=
  (nth (draws g (cursor g) mod length seq)%nat seq "000"%char,
   mkRandom (draws g) (S (cursor g))).

(** [''.join(random.choice(seq) for _ in range(n))] *)
Fixpoint random_string (n : nat) (seq : list ascii) (g : Random) : string * Random :=
  match n with
  | O => (EmptyString, g)
  | S n' =>
      let '(c, g1) := random_choice seq g in
      let '(s, g2) := random_string n' seq g1 in
      (String c s, g2)
  end.

Definition ascii_uppercase : list ascii :=
  list_ascii_of_string "ABCDEFGHIJKLMNOPQRSTUVWXYZ".
Definition digits : list ascii := list_ascii_of_string "0123456789".

(** ** [datetime] and [timedelta] *)

(** An aware datetime, as microseconds since the epoch. *)
Definition datetime : Type := Z.

Record timedelta : Type := mkTimedelta { days : Z; seconds : Z; microseconds : Z }.

(** [e - s], normalised: [0 <= seconds < 86400], [0 <= microseconds < 10^6];
    a negative difference has negative [days]. *)
Definition datetime_sub (e s : datetime) : timedelta :=
  let us := e - s in
  mkTimedelta (us / 86400000000)
              ((us mod 86400000000) / 1000000)
              (us mod 1000000).

End Py.

Import Py.

(* ===================================================================== *)
(** * bookings/models.py                                                  *)
(* ===================================================================== *)

Module Models.

(** [Booking.STATUS_CHOICES] *)
Inductive Status : Type :=
| pending | confirmed | active | completed | cancelled | no_show.

(** [Booking.PAYMENT_STATUS_CHOICES] *)
Inductive PaymentStatus : Type :=
| payment_pending | partial | paid | refunded | failed.

(** [Vehicle.STATUS_CHOICES] *)
Inductive VehicleStatus : Type :=
| available | rented | maintenance | out_of_service.

#[global] Instance Status_eq_dec : EqDecision Status.
Proof. solve_decision. Defined.
#[global] Instance PaymentStatus_eq_dec : EqDecision PaymentStatus.
Proof. solve_decision. Defined.
#[global] Instance VehicleStatus_eq_dec : EqDecision VehicleStatus.
Proof. solve_decision. Defined.

(** The columns of [Vehicle] that bookings read. *)
Record Vehicle : Type := mkVehicle {
  vehicle_status : VehicleStatus;
  vehicle_daily_rate : Decimal
}.

(** [Vehicle.is_available] *)
Definition is_available (v : Vehicle) : bool :=
  bool_decide (vehicle_status v = available).

(** A [Booking] instance.  Primary keys are the positive integers the
    database hands out; [id] is [None] until the first save.  An attribute
    that can be [None] on an instance is an [option]. *)
Record Booking : Type := mkBooking {
  id : option positive;
  booking_number : string;
  customer : positive;
  vehicle : positive;
  start_date : option datetime;
  end_date : option datetime;
  pickup_location : option string;
  return_location : option string;
  daily_rate : option Decimal;
  total_amount : option Decimal;
  deposit_amount : Decimal;
  status : Status;
  payment_status : PaymentStatus;
  notes : option string;
  cancellation_reason : option string;
  created_at : option datetime;
  updated_at : option datetime
}.

(** Attribute assignment, one setter per attribute the code assigns. *)
Definition set_id x b :=
  mkBooking x (booking_number b) (customer b) (vehicle b) (start_date b) (end_date b)
    (pickup_location b) (return_location b) (daily_rate b) (total_amount b)
    (deposit_amount b) (status b) (payment_status b) (notes b)
    (cancellation_reason b) (created_at b) (updated_at b).
Definition set_booking_number x b :=
  mkBooking (id b) x (customer b) (vehicle b) (start_date b) (end_date b)
    (pickup_location b) (return_location b) (daily_rate b) (total_amount b)
    (deposit_amount b) (status b) (payment_status b) (notes b)
    (cancellation_reason b) (created_at b) (updated_at b).
Definition set_start_date x b :=
  mkBooking (id b) (booking_number b) (customer b) (vehicle b) x (end_date b)
    (pickup_location b) (return_location b) (daily_rate b) (total_amount b)
    (deposit_amount b) (status b) (payment_status b) (notes b)
    (cancellation_reason b) (created_at b) (updated_at b).
Definition set_end_date x b :=
  mkBooking (id b) (booking_number b) (customer b) (vehicle b) (start_date b) x
    (pickup_location b) (return_location b) (daily_rate b) (total_amount b)
    (deposit_amount b) (status b) (payment_status b) (notes b)
    (cancellation_reason b) (created_at b) (updated_at b).
Definition set_pickup_location x b :=
  mkBooking (id b) (booking_number b) (customer b) (vehicle b) (start_date b) (end_date b)
    x (return_location b) (daily_rate b) (total_amount b)
    (deposit_amount b) (status b) (payment_status b) (notes b)
    (cancellation_reason b) (created_at b) (updated_at b).
Definition set_return_location x b :=
  mkBooking (id b) (booking_number b) (customer b) (vehicle b) (start_date b) (end_date b)
    (pickup_location b) x (daily_rate b) (total_amount b)
    (deposit_amount b) (status b) (payment_status b) (notes b)
    (cancellation_reason b) (created_at b) (updated_at b).
Definition set_daily_rate x b :=
  mkBooking (id b) (booking_number b) (customer b) (vehicle b) (start_date b) (end_date b)
    (pickup_location b) (return_location b) x (total_amount b)
    (deposit_amount b) (status b) (payment_status b) (notes b)
    (cancellation_reason b) (created_at b) (updated_at b).
Definition set_total_amount x b :=
  mkBooking (id b) (booking_number b) (customer b) (vehicle b) (start_date b) (end_date b)
    (pickup_location b) (return_location b) (daily_rate b) x
    (deposit_amount b) (status b) (payment_status b) (notes b)
    (cancellation_reason b) (created_at b) (updated_at b).
Definition set_deposit_amount x b :=
  mkBooking (id b) (booking_number b) (customer b) (vehicle b) (start_date b) (end_date b)
    (pickup_location b) (return_location b) (daily_rate b) (total_amount b)
    x (status b) (payment_status b) (notes b)
    (cancellation_reason b) (created_at b) (updated_at b).
Definition set_status x b :=
  mkBooking (id b) (booking_number b) (customer b) (vehicle b) (start_date b) (end_date b)
    (pickup_location b) (return_location b) (daily_rate b) (total_amount b)
    (deposit_amount b) x (payment_status b) (notes b)
    (cancellation_reason b) (created_at b) (updated_at b).
Definition set_notes x b :=
  mkBooking (id b) (booking_number b) (customer b) (vehicle b) (start_date b) (end_date b)
    (pickup_location b) (return_location b) (daily_rate b) (total_amount b)
    (deposit_amount b) (status b) (payment_status b) x
    (cancellation_reason b) (created_at b) (updated_at b).
Definition set_cancellation_reason x b :=
  mkBooking (id b) (booking_number b) (customer b) (vehicle b) (start_date b) (end_date b)
    (pickup_location b) (return_location b) (daily_rate b) (total_amount b)
    (deposit_amount b) (status b) (payment_status b) (notes b)
    x (created_at b) (updated_at b).
Definition set_created_at x b :=
  mkBooking (id b) (booking_number b) (customer b) (vehicle b) (start_date b) (end_date b)
    (pickup_location b) (return_location b) (daily_rate b) (total_amount b)
    (deposit_amount b) (status b) (payment_status b) (notes b)
    (cancellation_reason b) x (updated_at b).
Definition set_updated_at x b :=
  mkBooking (id b) (booking_number b) (customer b) (vehicle b) (start_date b) (end_date b)
    (pickup_location b) (return_location b) (daily_rate b) (total_amount b)
    (deposit_amount b) (status b) (payment_status b) (notes b)
    (cancellation_reason b) (created_at b) x.

(** The database (tables [vehicles] and [bookings], keyed by primary key)
    together with the state of the random generator. *)
Record World : Type := mkWorld {
  vehicles : gmap positive Vehicle;
  bookings : gmap positive Booking;
  random : Random
}.

Definition set_bookings (m : gmap positive Booking) (w : World) : World :=
  mkWorld (vehicles w) m (random w).
Definition set_random (g : Random) (w : World) : World :=
  mkWorld (vehicles w) (bookings w) g.

(** Ordering comparisons of a nullable attribute [a] with a datetime:
    [None] on either side of [<], [>] or [<=] is a [TypeError]. *)
Definition attr_gt (a : option datetime) (t : datetime) : result bool :=
  match a with Some x => Ok (t <? x) | None => Raise TypeError end.
Definition attr_le (a : option datetime) (t : datetime) : result bool :=
  match a with Some x => Ok (x <=? t) | None => Raise TypeError end.
Definition attr_ge (a : option datetime) (t : datetime) : result bool :=
  match a with Some x => Ok (t <=? x) | None => Raise TypeError end.

(** [Booking.objects.filter(booking_number=...).exists()] *)
Definition booking_number_exists (w : World) (number : string) : bool :=
  bool_decide (map_Exists (λ (_ : positive) (b : Booking), booking_number b = number) (bookings w)).

(** [string.ascii_uppercase + string.digits] *)
Definition chars : list ascii := ascii_uppercase ++ digits.

(** The [while ... exists()] loop of [generate_booking_number]: one unit of
    fuel per regeneration. *)
Fixpoint regenerate_while_exists (fuel : nat) (w : World) (number : string) (g : Random)
  : result (string * Random) :=
  if booking_number_exists w number then
    match fuel with
    | O => OutOfFuel
    | S fuel' =>
        let '(number', g') := random_string 8 chars g in
        regenerate_while_exists fuel' w number' g'
    end
  else Ok (number, g).

(** [Booking.generate_booking_number] *)
Definition generate_booking_number (fuel : nat) (w : World) : result (string * Random) :=
  let '(number, g) := random_string 8 chars (random w) in
  regenerate_while_exists fuel w number g.

(** [duration.days + (duration.seconds / 86400)] *)
Definition days_float (duration : timedelta) : float :=
  float_add (float_of_int (days duration)) (int_truediv (seconds duration) 86400).

(** [Booking.calculate_total_amount].  A datetime is always truthy, so the
    guard tests that the bounds are set and that the rate is set and not
    zero. *)
Definition calculate_total_amount (b : Booking) : Decimal :=
  match start_date b, end_date b, daily_rate b with
  | Some s, Some e, Some rate =>
      if Dtruthy rate then
        let duration := datetime_sub e s in
        let days := days_float duration in
        Dmul rate (Decimal_of_str_float days)
      else mkDecimal 0 (-2)
  | _, _, _ => mkDecimal 0 (-2)
  end.

(** [Booking.duration_days] *)
Definition duration_days (b : Booking) : float :=
  match start_date b, end_date b with
  | Some s, Some e => days_float (datetime_sub e s)
  | _, _ => float_of_int 0
  end.

(** [Booking.is_active] *)
Definition is_active (b : Booking) (now : datetime) : result bool :=
  if bool_decide (status b = active) then
    do lo <- attr_le (start_date b) now;
    if lo then attr_ge (end_date b) now else Ok false
  else Ok false.

(** [Booking.is_upcoming] *)
Definition is_upcoming (b : Booking) (now : datetime) : result bool :=
  if bool_decide (status b ∈ [pending; confirmed]) then attr_gt (start_date b) now
  else Ok false.

(** [Booking.is_completed], [Booking.is_cancelled] *)
Definition is_completed (b : Booking) : bool := bool_decide (status b = completed).
Definition is_cancelled (b : Booking) : bool := bool_decide (status b = cancelled).

(** [Booking.can_cancel] *)
Definition can_cancel (b : Booking) (now : datetime) : result bool :=
  if bool_decide (status b ∈ [pending; confirmed]) then attr_gt (start_date b) now
  else Ok false.

(** Truth value of the [total_amount] attribute: [None] and zero are falsy. *)
Definition amount_truthy (a : option Decimal) : bool :=
  match a with Some d => Dtruthy d | None => false end.

(** What [DecimalField(max_digits=10, decimal_places=2)] writes: the value
    to two places.  Django prepares it with [quantize] under a context of
    ten digits, which signals [decimal.InvalidOperation] when the two-place
    form has more than ten digits ([column_fits] is that test); the error
    itself is not raised by [super_save], so [to_column] is what is written
    when the test passes, and a statement that asserts the write of an
    amount no row held before assumes [column_fits] of it. *)
Definition to_column (d : Decimal) : Decimal := quantize 2 d.

(** The [max_digits=10] test on the value prepared for the column. *)
Definition column_fits (d : Decimal) : bool :=
  Z.abs (coef (quantize 2 d)) <? 10 ^ 10.

(** The row written for an instance. *)
Definition to_row (b : Booking) : Booking :=
  set_daily_rate (to_column <$> daily_rate b)
    (set_total_amount (to_column <$> total_amount b)
       (set_deposit_amount (to_column (deposit_amount b)) b)).

(** [Model.save]: [auto_now]/[auto_now_add] timestamps, a fresh primary key
    on first save, and the row written.  Constraint violations (NOT NULL,
    UNIQUE) are not modelled as errors; uniqueness of booking numbers is a
    property proved of the store below. *)
Definition super_save (now : datetime) (b : Booking) (w : World) : Booking * World :=
  let b1 := set_updated_at (Some now) b in
  match id b1 with
  | Some pk => (b1, set_bookings (<[pk := to_row b1]> (bookings w)) w)
  | None =>
      let pk := fresh (dom (bookings w)) in
      let b2 := set_id (Some pk) (set_created_at (Some now) b1) in
      (b2, set_bookings (<[pk := to_row b2]> (bookings w)) w)
  end.

(** [Booking.save] *)
Definition save (fuel : nat) (now : datetime) (b : Booking) (w : World)
  : result (Booking * World) :=
  do numbered <-
     (if negb (bool_decide (booking_number b = EmptyString)) then Ok (b, w)
      else do generated <- generate_booking_number fuel w;
           let '(number, g) := generated in
           Ok (set_booking_number number b, set_random g w));
  let '(b1, w1) := numbered in
  let b2 := if amount_truthy (total_amount b1) then b1
            else set_total_amount (Some (calculate_total_amount b1)) b1 in
  Ok (super_save now b2 w1).

(** [Booking.cancel_booking] *)
Definition cancel_booking (fuel : nat) (now : datetime) (reason : option string)
  (b : Booking) (w : World) : result (bool * Booking * World) :=
  do ok <- can_cancel b now;
  if ok then
    let b1 := set_cancellation_reason reason (set_status cancelled b) in
    do saved <- save fuel now b1 w;
    let '(b2, w2) := saved in
    Ok (true, b2, w2)
  else Ok (false, b, w).

End Models.

Import Models.

(* ===================================================================== *)
(** * bookings/serializers.py                                             *)
(* ===================================================================== *)

Module Serializers.

(** What [validate_end_date] finds under [initial_data['start_date']]: no
    (or an empty) value; a value on which parsing or the comparison with
    the end date raises [ValueError]/[TypeError]; or a datetime that
    compares with the end date. *)
Inductive InitialStart : Type :=
| initial_missing
| initial_unusable
| initial_datetime (t : datetime).

Definition errors_of {A} (r : result A) : list string :=
  match r with
  | Raise (ValidationError msgs) => msgs
  | _ => []
  end.

(** A column compared with a bound inside a query: a NULL never matches. *)
Definition column_lt (c : option datetime) (t : datetime) : bool :=
  match c with Some x => x <? t | None => false end.
Definition column_gt (c : option datetime) (t : datetime) : bool :=
  match c with Some x => t <? x | None => false end.

(** The filter of the overlap query:
    [vehicle_id=..., status__in=['pending','confirmed','active'],
     start_date__lt=end_date, end_date__gt=start_date]. *)
Definition overlap_filter (vehicle_id : Z) (start_date end_date : datetime)
  (b : Booking) : bool :=
  bool_decide (Zpos (vehicle b) = vehicle_id)
  && bool_decide (status b ∈ [pending; confirmed; active])
  && column_lt (Models.start_date b) end_date
  && column_gt (Models.end_date b) start_date.

(** [overlapping_bookings.exists()] *)
Definition overlapping_bookings_exist (w : World) (vehicle_id : Z)
  (start_date end_date : datetime) : bool :=
  bool_decide (map_Exists
    (λ (_ : positive) (b : Booking), overlap_filter vehicle_id start_date end_date b)
    (bookings w)).

(** [Vehicle.objects.get(id=value)]: primary keys are positive. *)
Definition get_vehicle (w : World) (value : Z) : option Vehicle :=
  match value with
  | Zpos pk => vehicles w !! pk
  | _ => None
  end.

(** ** BookingCreateSerializer *)

(** The parsed fields of a create request, with what [initial_data] holds
    for the start date. *)
Record CreateData : Type := mkCreateData {
  c_vehicle_id : Z;
  c_start_date : datetime;
  c_end_date : datetime;
  c_initial_start_date : InitialStart;
  c_pickup_location : option string;
  c_return_location : option string;
  c_notes : option string
}.

Definition validate_vehicle_id (w : World) (value : Z) : result Z :=
  match get_vehicle w value with
  | Some v =>
      if negb (is_available v)
      then Raise (ValidationError ["This vehicle is not available for booking."%string])
      else Ok value
  | None => Raise (ValidationError ["Vehicle not found."%string])
  end.

Definition validate_start_date (now : datetime) (value : datetime) : result datetime :=
  if value <=? now
  then Raise (ValidationError ["Start date must be in the future."%string])
  else Ok value.

Definition validate_end_date (initial : InitialStart) (value : datetime) : result datetime :=
  match initial with
  | initial_datetime start_date =>
      if value <=? start_date
      then Raise (ValidationError ["End date must be after start date."%string])
      else Ok value
  | initial_unusable => Ok value       (* except (ValueError, TypeError): pass *)
  | initial_missing => Ok value
  end.

(** [BookingCreateSerializer.validate].  Datetimes are truthy; an integer
    is truthy when it is not zero. *)
Definition validate (w : World) (attrs : CreateData) : result CreateData :=
  if negb (c_vehicle_id attrs =? 0) then
    if overlapping_bookings_exist w (c_vehicle_id attrs) (c_start_date attrs) (c_end_date attrs)
    then Raise (ValidationError
                  ["This vehicle is already booked for the selected dates."%string])
    else Ok attrs
  else Ok attrs.

(** [is_valid(raise_exception=True)]: the field validators run first and
    their errors are collected; [validate] runs when there are none. *)
Definition create_is_valid (w : World) (now : datetime) (d : CreateData)
  : result CreateData :=
  match errors_of (validate_vehicle_id w (c_vehicle_id d))
        ++ errors_of (validate_start_date now (c_start_date d))
        ++ errors_of (validate_end_date (c_initial_start_date d) (c_end_date d)) with
  | [] => validate w d
  | errs => Raise (ValidationError errs)
  end.

(** [BookingCreateSerializer.create], ending in [Booking.objects.create]. *)
Definition create (fuel : nat) (now : datetime) (user : positive)
  (validated_data : CreateData) (w : World) : result (Booking * World) :=
  match c_vehicle_id validated_data, get_vehicle w (c_vehicle_id validated_data) with
  | Zpos vehicle_pk, Some vehicle =>
      let duration := datetime_sub (c_end_date validated_data) (c_start_date validated_data) in
      let days := days_float duration in
      let total_amount := Dmul (vehicle_daily_rate vehicle) (Decimal_of_str_float days) in
      let instance :=
        mkBooking None EmptyString user vehicle_pk
          (Some (c_start_date validated_data)) (Some (c_end_date validated_data))
          (c_pickup_location validated_data) (c_return_location validated_data)
          (Some (vehicle_daily_rate vehicle)) None
          (Dmul total_amount (mkDecimal 2 (-1)))
          pending payment_pending (c_notes validated_data) None None None in
      save fuel now instance w
  | _, _ => Raise DoesNotExist
  end.

(** ** BookingUpdateSerializer *)

(** The fields an update request supplies; [None] is a field left out. *)
Record UpdateData : Type := mkUpdateData {
  u_start_date : option datetime;
  u_end_date : option datetime;
  u_initial_start_date : InitialStart;
  u_pickup_location : option (option string);
  u_return_location : option (option string);
  u_notes : option (option string);
  u_status : option Status
}.

(** [BookingUpdateSerializer.validate_status] *)
Definition validate_status (instance : Booking) (value : Status) : result Status :=
  if bool_decide (status instance ∈ [completed; cancelled])
  then Raise (ValidationError ["Cannot modify completed or cancelled bookings."%string])
  else Ok value.

(** A field validator runs only for a supplied field; [start_date] and
    [end_date] are required unless the update is partial. *)
Definition supplied {A} (required : bool) (field : option A) (check : A -> result A)
  : list string :=
  match field with
  | Some value => errors_of (check value)
  | None => if required then ["This field is required."%string] else []
  end.

Definition update_is_valid (now : datetime) (partial : bool) (instance : Booking)
  (d : UpdateData) : result UpdateData :=
  match supplied (negb partial) (u_start_date d) (validate_start_date now)
        ++ supplied (negb partial) (u_end_date d) (validate_end_date (u_initial_start_date d))
        ++ supplied false (u_status d) (validate_status instance) with
  | [] => Ok d
  | errs => Raise (ValidationError errs)
  end.

Definition assign {A} (field : option A) (set : A -> Booking -> Booking) (b : Booking)
  : Booking :=
  match field with Some value => set value b | None => b end.

(** [ModelSerializer.update]: every supplied field is assigned, then
    [instance.save()]. *)
Definition update (fuel : nat) (now : datetime) (instance : Booking)
  (validated_data : UpdateData) (w : World) : result (Booking * World) :=
  let b1 := assign (u_start_date validated_data) (λ t, set_start_date (Some t)) instance in
  let b2 := assign (u_end_date validated_data) (λ t, set_end_date (Some t)) b1 in
  let b3 := assign (u_pickup_location validated_data) set_pickup_location b2 in
  let b4 := assign (u_return_location validated_data) set_return_location b3 in
  let b5 := assign (u_notes validated_data) set_notes b4 in
  let b6 := assign (u_status validated_data) set_status b5 in
  save fuel now b6 w.

(** ** BookingCancelSerializer *)

(** [cancellation_reason]: optional, not blank, at most 500 characters. *)
Definition validate_cancellation_reason (reason : option string) : list string :=
  match reason with
  | None => []
  | Some r =>
      if bool_decide (r = EmptyString) then ["This field may not be blank."%string]
      else if (500 <? String.length r)%nat
           then ["Ensure this field has no more than 500 characters."%string]
           else []
  end.

(** [BookingCancelSerializer.validate] *)
Definition cancel_validate (now : datetime) (booking : Booking) : result unit :=
  do ok <- can_cancel booking now;
  if negb ok then Raise (ValidationError ["This booking cannot be cancelled."%string])
  else Ok tt.

Definition cancel_is_valid (now : datetime) (booking : Booking) (reason : option string)
  : result (option string) :=
  match validate_cancellation_reason reason with
  | [] => do _ <- cancel_validate now booking; Ok reason
  | errs => Raise (ValidationError errs)
  end.

End Serializers.

Import Serializers.

(* ===================================================================== *)
(** * bookings/views.py                                                   *)
(* ===================================================================== *)

Module Views.

(** The envelope every endpoint returns. *)
Record Response : Type := mkResponse {
  status_code : Z;
  success : bool;
  message : string;
  data : option Booking
}.

(** [Booking.objects.get(id=pk, customer=request.user)] *)
Definition get_booking (w : World) (user pk : positive) : option Booking :=
  match bookings w !! pk with
  | Some b => if bool_decide (customer b = user) then Some b else None
  | None => None
  end.

(** [BookingListView.create] *)
Definition BookingListView_create (fuel : nat) (now : datetime) (user : positive)
  (request_data : CreateData) (w : World) : result (Response * World) :=
  do validated <- create_is_valid w now request_data;
  do created <- create fuel now user validated w;
  let '(booking, w') := created in
  Ok (mkResponse 201 true "Booking created successfully" (Some booking), w').

(** [BookingDetailView.update]; [get_object] looks the booking up among
    the caller's own and raises [Http404] otherwise. *)
Definition BookingDetailView_update (fuel : nat) (now : datetime) (user pk : positive)
  (partial : bool) (request_data : UpdateData) (w : World) : result (Response * World) :=
  match get_booking w user pk with
  | None => Raise Http404
  | Some instance =>
      do validated <- update_is_valid now partial instance request_data;
      do updated <- update fuel now instance validated w;
      let '(booking, w') := updated in
      Ok (mkResponse 200 true "Booking updated successfully" (Some booking), w')
  end.

(** [BookingCancelView.post].  The clock is read when the serializer
    validates ([now]) and again inside [cancel_booking] ([now']). *)
Definition BookingCancelView_post (fuel : nat) (now now' : datetime) (user pk : positive)
  (reason : option string) (w : World) : result (Response * World) :=
  match get_booking w user pk with
  | None => Ok (mkResponse 404 false "Booking not found" None, w)
  | Some booking =>
      do reason <- cancel_is_valid now booking reason;
      do cancelled <- cancel_booking fuel now' reason booking w;
      let '(ok, booking', w') := cancelled in
      if (ok : bool)
      then Ok (mkResponse 200 true "Booking cancelled successfully" (Some booking'), w')
      else Ok (mkResponse 400 false "Cannot cancel this booking" None, w')
  end.

(** [BookingConfirmView.post] *)
Definition BookingConfirmView_post (fuel : nat) (now : datetime) (user pk : positive)
  (w : World) : result (Response * World) :=
  match get_booking w user pk with
  | None => Ok (mkResponse 404 false "Booking not found" None, w)
  | Some booking =>
      if bool_decide (status booking = pending) then
        do saved <- save fuel now (set_status confirmed booking) w;
        let '(booking', w') := saved in
        Ok (mkResponse 200 true "Booking confirmed successfully" (Some booking'), w')
      else Ok (mkResponse 400 false "Booking cannot be confirmed" None, w)
  end.

End Views.

Import Views.

(* ===================================================================== *)
(** * The rest of the booking code                                        *)
(* ===================================================================== *)

(** ** bookings/models.py: [Booking.clean] *)

Module Cleaning.

(** [Booking.clean]: the error dictionary it raises (field, message), or
    [None] when the instance passes.  [Model.clean] itself checks nothing. *)
Definition clean (b : Booking) (now : datetime) : option (string * string) :=
  match start_date b, end_date b with
  | Some s, Some e =>
      if e <=? s
      then Some ("end_date"%string, "End date must be after start date."%string)
      else if s <? now
           then Some ("start_date"%string, "Start date cannot be in the past."%string)
           else None
  | _, _ => None
  end.

End Cleaning.

Import Cleaning.

(** ** bookings/views.py: permission and querysets *)

Module Access.

Inductive Method : Type := GET | HEAD | OPTIONS | POST | PUT | PATCH | DELETE.

#[global] Instance Method_eq_dec : EqDecision Method.
Proof. solve_decision. Defined.

(** [permissions.SAFE_METHODS] *)
Definition SAFE_METHODS : list Method := [GET; HEAD; OPTIONS].

(** [IsOwnerOrReadOnly.has_object_permission] *)
Definition has_object_permission (method : Method) (user : positive) (obj : Booking)
  : bool :=
  if bool_decide (method ∈ SAFE_METHODS) then true
  else bool_decide (customer obj = user).

(** [get_queryset] of the list and detail views:
    [Booking.objects.filter(customer=self.request.user)]. *)
Definition get_queryset (w : World) (user : positive) : gmap positive Booking :=
  filter (λ kb : positive * Booking, customer kb.2 = user) (bookings w).

(** A [from]/[to] query parameter: left out (or empty); a string on which
    [strptime(..., '%Y-%m-%d')] raises [ValueError]; or a date, read as
    midnight UTC. *)
Inductive DateParam : Type :=
| param_missing
| param_invalid
| param_date (t : datetime).

(** A column compared with a bound inside a query: a NULL never matches. *)
Definition column_gte (c : option datetime) (t : datetime) : bool :=
  match c with Some x => t <=? x | None => false end.
Definition column_lte (c : option datetime) (t : datetime) : bool :=
  match c with Some x => x <=? t | None => false end.

(** [BookingSearchView.get_queryset] *)
Definition search_queryset (w : World) (user : positive) (from_date to_date : DateParam)
  : gmap positive Booking :=
  let queryset := filter (λ kb : positive * Booking, customer kb.2 = user) (bookings w) in
  let queryset :=
    match from_date with
    | param_date t =>
        filter (λ kb : positive * Booking, column_gte (start_date kb.2) t) queryset
    | param_invalid => queryset          (* except ValueError: pass *)
    | param_missing => queryset
    end in
  match to_date with
  | param_date t =>
      filter (λ kb : positive * Booking, column_lte (end_date kb.2) t) queryset
  | param_invalid => queryset
  | param_missing => queryset
  end.

End Access.

Import Access.

(** ** vehicles/views.py: [VehicleDetailView.destroy] *)

Module Fleet.

(** The store with the [owner] column of the vehicles beside it. *)
Record Garage : Type := mkGarage {
  world : World;
  owners : gmap positive positive
}.

(** [get_object] over [Vehicle.objects.filter(owner=self.request.user)] *)
Definition get_vehicle_object (g : Garage) (user pk : positive) : option Vehicle :=
  match vehicles (world g) !! pk, owners g !! pk with
  | Some v, Some owner => if bool_decide (owner = user) then Some v else None
  | _, _ => None
  end.

(** [instance.bookings.filter(status__in=['pending', 'confirmed', 'active']).exists()] *)
Definition has_active_bookings (w : World) (vehicle_pk : positive) : bool :=
  bool_decide (map_Exists
    (λ (_ : positive) (b : Booking),
       vehicle b = vehicle_pk /\ status b ∈ [pending; confirmed; active])
    (bookings w)).

(** [instance.delete()]: the vehicle row goes, and with it (the foreign
    key [Booking.vehicle] is [on_delete=CASCADE]) every booking of the
    vehicle. *)
Definition delete_vehicle (g : Garage) (vehicle_pk : positive) : Garage :=
  mkGarage
    (mkWorld (delete vehicle_pk (vehicles (world g)))
             (filter (λ kb : positive * Booking, vehicle kb.2 <> vehicle_pk)
                     (bookings (world g)))
             (random (world g)))
    (delete vehicle_pk (owners g)).

(** [VehicleDetailView.destroy] *)
Definition VehicleDetailView_destroy (user pk : positive) (g : Garage)
  : result (Response * Garage) :=
  match get_vehicle_object g user pk with
  | None => Raise Http404
  | Some _ =>
      if has_active_bookings (world g) pk
      then Ok (mkResponse 400 false "Cannot delete vehicle with active bookings" None, g)
      else Ok (mkResponse 204 true "Vehicle deleted successfully" None,
               delete_vehicle g pk)
  end.

End Fleet.

Import Fleet.

(** ** payment_processing/models.py *)

Module Payments.

(** [Payment.PAYMENT_TYPE_CHOICES] *)
Inductive PaymentType : Type := deposit | full_payment | refund.

(** [Payment.STATUS_CHOICES] *)
Inductive Status : Type :=
| pending | processing | completed | failed | cancelled | refunded.

(** [Payment.PAYMENT_METHOD_CHOICES] *)
Inductive PaymentMethod : Type := stripe | cash | bank_transfer.

#[global] Instance PayStatus_eq_dec : EqDecision Status.
Proof. solve_decision. Defined.

(** A [Payment] instance; [booking] and [customer] are foreign keys. *)
Record Payment : Type := mkPayment {
  id : option positive;
  payment_id : string;
  booking : positive;
  customer : positive;
  amount : Decimal;
  currency : string;
  payment_type : PaymentType;
  payment_method : PaymentMethod;
  status : Status;
  stripe_payment_intent_id : option string;
  stripe_charge_id : option string;
  description : option string;
  failure_reason : option string;
  created_at : option datetime;
  updated_at : option datetime;
  processed_at : option datetime
}.

(** The table [payments] and the state of the random generator. *)
Record Ledger : Type := mkLedger {
  payments : gmap positive Payment;
  random : Random
}.

(** [random.random()]: a multiple of [2^-53] in [[0, 1)], as a float. *)
Definition random_random (g : Random) : float * Random :=
  (binary_normalize 53 1024 (Z.of_nat (draws g (cursor g)) mod 2 ^ 53) (-53) false,
   mkRandom (draws g) (S (cursor g))).

(** [x < y] on floats. *)
Definition float_lt (x y : float) : bool := SFltb x y.

(** [str.lower] on ASCII text. *)
Definition lower_char (c : ascii) : ascii :=
  if ((65 <=? nat_of_ascii c) && (nat_of_ascii c <=? 90))%nat
  then ascii_of_nat (nat_of_ascii c + 32)
  else c.

Fixpoint lower (s : string) : string :=
  match s with
  | EmptyString => EmptyString
  | String c rest => String (lower_char c) (lower rest)
  end.

(** [Payment.objects.filter(payment_id=...).exists()] *)
Definition payment_id_exists (l : Ledger) (code : string) : bool :=
  bool_decide (map_Exists (λ (_ : positive) (p : Payment), payment_id p = code)
                 (payments l)).

(** The [while ... exists()] loop of [generate_payment_id]. *)
Fixpoint regenerate_while_exists (fuel : nat) (l : Ledger) (code : string) (g : Random)
  : result (string * Random) :=
  if payment_id_exists l code then
    match fuel with
    | O => OutOfFuel
    | S fuel' =>
        let '(code', g') := random_string 12 (ascii_uppercase ++ digits) g in
        regenerate_while_exists fuel' l code' g'
    end
  else Ok (code, g).

(** [Payment.generate_payment_id] *)
Definition generate_payment_id (fuel : nat) (l : Ledger) : result (string * Random) :=
  let '(code, g) := random_string 12 (ascii_uppercase ++ digits) (random l) in
  regenerate_while_exists fuel l code g.

(** The row written for an instance: [amount] is a
    [DecimalField(max_digits=10, decimal_places=2)], written with
    [to_column] (an amount that fails [column_fits] is refused by Django
    with [decimal.InvalidOperation], which [super_save] does not raise). *)
Definition to_row (p : Payment) : Payment :=
  mkPayment (id p) (payment_id p) (booking p) (customer p) (to_column (amount p))
    (currency p) (payment_type p) (payment_method p) (status p)
    (stripe_payment_intent_id p) (stripe_charge_id p) (description p)
    (failure_reason p) (created_at p) (updated_at p) (processed_at p).

(** [Model.save]: timestamps, a fresh primary key on first save, the row
    written. *)
Definition super_save (now : datetime) (p : Payment) (l : Ledger) : Payment * Ledger :=
  match id p with
  | Some pk =>
      let p1 := mkPayment (Some pk) (payment_id p) (booking p) (customer p) (amount p)
                  (currency p) (payment_type p) (payment_method p) (status p)
                  (stripe_payment_intent_id p) (stripe_charge_id p) (description p)
                  (failure_reason p) (created_at p) (Some now) (processed_at p) in
      (p1, mkLedger (<[pk := to_row p1]> (payments l)) (random l))
  | None =>
      let pk := fresh (dom (payments l)) in
      let p1 := mkPayment (Some pk) (payment_id p) (booking p) (customer p) (amount p)
                  (currency p) (payment_type p) (payment_method p) (status p)
                  (stripe_payment_intent_id p) (stripe_charge_id p) (description p)
                  (failure_reason p) (Some now) (Some now) (processed_at p) in
      (p1, mkLedger (<[pk := to_row p1]> (payments l)) (random l))
  end.

(** [Payment.save] *)
Definition save (fuel : nat) (now : datetime) (p : Payment) (l : Ledger)
  : result (Payment * Ledger) :=
  if negb (bool_decide (payment_id p = EmptyString)) then Ok (super_save now p l)
  else
    do generated <- generate_payment_id fuel l;
    let '(code, g) := generated in
    Ok (super_save now
          (mkPayment (id p) code (booking p) (customer p) (amount p)
             (currency p) (payment_type p) (payment_method p) (status p)
             (stripe_payment_intent_id p) (stripe_charge_id p) (description p)
             (failure_reason p) (created_at p) (updated_at p) (processed_at p))
          (mkLedger (payments l) g)).

(** [Payment.is_completed], [Payment.is_pending], [Payment.is_failed] *)
Definition is_completed (p : Payment) : bool := bool_decide (status p = completed).
Definition is_pending (p : Payment) : bool := bool_decide (status p = pending).
Definition is_failed (p : Payment) : bool := bool_decide (status p = failed).

(** The two outcomes [process_payment] assigns before saving. *)
Definition succeeded (now : datetime) (p : Payment) : Payment :=
  mkPayment (id p) (payment_id p) (booking p) (customer p) (amount p)
    (currency p) (payment_type p) (payment_method p) completed
    (Some ("pi_" ++ lower (payment_id p))%string)
    (Some ("ch_" ++ lower (payment_id p))%string)
    (description p) (failure_reason p) (created_at p) (updated_at p) (Some now).

Definition declined (p : Payment) : Payment :=
  mkPayment (id p) (payment_id p) (booking p) (customer p) (amount p)
    (currency p) (payment_type p) (payment_method p) failed
    (stripe_payment_intent_id p) (stripe_charge_id p)
    (description p) (Some "Mock payment failed for testing purposes"%string)
    (created_at p) (updated_at p) (processed_at p).

(** [Payment.process_payment] (the pause of [time.sleep] left out) *)
Definition process_payment (fuel : nat) (now : datetime) (p : Payment) (l : Ledger)
  : result (bool * Payment * Ledger) :=
  if bool_decide (status p = pending) then
    let '(x, g) := random_random (random l) in
    let p1 := if float_lt x (float_of_decimal 95 (-2)) then succeeded now p
              else declined p in
    do saved <- save fuel now p1 (mkLedger (payments l) g);
    let '(p2, l2) := saved in
    Ok (bool_decide (status p2 = completed), p2, l2)
  else Ok (false, p, l).

(** [Payment.refund_payment]; [amount or self.amount] takes the payment's
    amount when none is given and when the one given is zero. *)
Definition refund_payment (fuel : nat) (now : datetime) (requested : option Decimal)
  (p : Payment) (l : Ledger) : result (option Payment * Ledger) :=
  if bool_decide (status p = completed) then
    let refund_amount :=
      match requested with
      | Some a => if Dtruthy a then a else amount p
      | None => amount p
      end in
    do saved <-
       save fuel now
         (mkPayment None EmptyString (booking p) (customer p) refund_amount
            (currency p) refund (payment_method p) completed None None
            (Some ("Refund for payment " ++ payment_id p)%string) None
            None None (Some now)) l;
    let '(created, l') := saved in
    Ok (Some created, l')
  else Ok (None, l).

End Payments.



(* ===================================================================== *)
(** * Sample data                                                         *)
(* ===================================================================== *)

Module Sample.

Definition day : Z := 86400000000.
Definition hour : Z := 3600000000.

(** A vehicle at 50.00 a day. *)
Definition car : Vehicle := mkVehicle available (mkDecimal 5000 (-2)).

Definition generator : Random := mkRandom (λ i, (7 * i + 30)%nat) 0.

(** One vehicle (key 1), no booking. *)
Definition fleet : World := mkWorld {[ 1%positive := car ]} ∅ generator.

(** A stored booking of vehicle 1 by customer 7 over [[start, end)]. *)
Definition row (pk : positive) (number : string) (s e : datetime) (st : Status)
  : Booking :=
  mkBooking (Some pk) number 7 1 (Some s) (Some e) None None
    (Some (mkDecimal 5000 (-2))) (Some (mkDecimal 10000 (-2))) (mkDecimal 2000 (-2))
    st payment_pending None None (Some 0) (Some 0).

(** Vehicle 1 booked over days [10, 12). *)
Definition booked (st : Status) : World :=
  mkWorld {[ 1%positive := car ]}
          {[ 1%positive := row 1 "4BIPW3AH" (10 * day) (12 * day) st ]}
          generator.

(** Vehicle 1 booked over days [10, 12) and over days [12, 14). *)
Definition booked_twice : World :=
  mkWorld {[ 1%positive := car ]}
          (<[ 2%positive := row 2 "ZZZZ9999" (12 * day) (14 * day) pending ]>
             {[ 1%positive := row 1 "4BIPW3AH" (10 * day) (12 * day) pending ]})
          generator.

(** An instance whose end lies one day before its start. *)
Definition reversed : Booking :=
  mkBooking None EmptyString 7 1 (Some (2 * day)) (Some day) None None
    (Some (mkDecimal 5000 (-2))) None (mkDecimal 0 0)
    pending payment_pending None None None None.

(** What the store holds under keys 1 and 2 (start, end, status, vehicle)
    after two create requests for vehicle 1, over days [10, 12) and then
    over days [12, 14). *)
Definition summary (b : Booking) : option (datetime * datetime * Status * positive) :=
  match start_date b, end_date b with
  | Some s, Some e => Some (s, e, status b, vehicle b)
  | _, _ => None
  end.

Definition touching_run
  : option (option (datetime * datetime * Status * positive)
            * option (datetime * datetime * Status * positive)) :=
  match BookingListView_create 1 day 7
          (mkCreateData 1 (10 * day) (12 * day) initial_unusable None None None) fleet with
  | Ok (_, w1) =>
      match BookingListView_create 1 day 7
              (mkCreateData 1 (12 * day) (14 * day) initial_unusable None None None) w1 with
      | Ok (_, w2) =>
          Some (bookings w2 !! 1%positive ≫= summary, bookings w2 !! 2%positive ≫= summary)
      | _ => None
      end
  | _ => None
  end.

(** The price of the interval a row holds, as [calculate_total_amount]
    computes it from the row's rate and bounds. *)
Definition price_of_interval (b : Booking) : Decimal :=
  calculate_total_amount (set_total_amount None b).

(** A booking of vehicle 1 over a day and a half (36 hours from day 10 on)
    is created, then its end is moved 30 hours later by a partial update,
    to two days and three quarters: the row's bounds, its total, and the
    price of the interval it now holds. *)
Definition stretched_run
  : option (option datetime * option datetime * option Decimal * Decimal) :=
  match BookingListView_create 1 day 7
          (mkCreateData 1 (10 * day) (10 * day + 36 * hour) initial_unusable None None None)
          fleet with
  | Ok (_, w1) =>
      match BookingDetailView_update 1 day 7 1 true
              (mkUpdateData None (Some (10 * day + 66 * hour)) initial_missing
                 None None None None) w1 with
      | Ok (_, w2) =>
          bookings w2 !! 1%positive ≫=
            λ b, Some (start_date b, end_date b, total_amount b, price_of_interval b)
      | _ => None
      end
  | _ => None
  end.

(** With days [10, 12) and [12, 14) booked, the start of the second
    booking is moved to day 11 by a partial update: the status code of the
    response and what the store then holds under keys 1 and 2. *)
Definition moved_run
  : option (Z * option (datetime * datetime * Status * positive)
              * option (datetime * datetime * Status * positive)) :=
  match BookingDetailView_update 1 day 7 2 true
          (mkUpdateData (Some (11 * day)) None (initial_datetime (11 * day))
             None None None None) booked_twice with
  | Ok (r, w2) =>
      Some (status_code r,
            bookings w2 !! 1%positive ≫= summary, bookings w2 !! 2%positive ≫= summary)
  | _ => None
  end.

(** A partial update that only carries notes, sent for a booking in status
    [st]: the status code of the response and the status and notes of the
    row afterwards. *)
Definition annotated_run (st : Status) : option (Z * Status * option string) :=
  match BookingDetailView_update 1 day 7 1 true
          (mkUpdateData None None initial_missing None None
             (Some (Some "late change"%string)) None) (booked st) with
  | Ok (r, w2) =>
      bookings w2 !! 1%positive ≫= λ b, Some (status_code r, status b, notes b)
  | _ => None
  end.

End Sample.

(* ===================================================================== *)
(** * Vocabulary of the statements                                        *)
(* ===================================================================== *)

(** What [save] writes for an instance that already has its number. *)
Definition with_total (b : Booking) : Booking :=
  if amount_truthy (total_amount b) then b
  else set_total_amount (Some (calculate_total_amount b)) b.

(** The generator [n] draws further on. *)
Definition advance (g : Random) (n : nat) : Random :=
  mkRandom (draws g) (cursor g + n).

(** The [k]-th eight-character code the generator yields from [g] on. *)
Definition candidate (g : Random) (k : nat) : string :=
  fst (random_string 8 chars (advance g (8 * k))).

(** The [k]-th twelve-character code the generator yields from [g] on. *)
Definition payment_candidate (g : Random) (k : nat) : string :=
  fst (random_string 12 (ascii_uppercase ++ digits) (advance g (12 * k))).

(** No two rows carry the same booking number. *)
Definition numbers_unique (w : World) : Prop :=
  forall p q b c, bookings w !! p = Some b -> bookings w !! q = Some c ->
                  booking_number b = booking_number c -> p = q.

(** The instance the create endpoint returns for request [d] on vehicle
    [v] (key [vehicle_pk]), once numbered [number] and stored under [pk]. *)
Definition created_instance (now : datetime) (user vehicle_pk : positive) (v : Vehicle)
  (number : string) (pk : positive) (d : CreateData) : Booking :=
  let days := Decimal_of_str_float
                (days_float (datetime_sub (c_end_date d) (c_start_date d))) in
  mkBooking (Some pk) number user vehicle_pk
    (Some (c_start_date d)) (Some (c_end_date d))
    (c_pickup_location d) (c_return_location d)
    (Some (vehicle_daily_rate v))
    (Some (if Dtruthy (vehicle_daily_rate v) then Dmul (vehicle_daily_rate v) days
           else mkDecimal 0 (-2)))
    (Dmul (Dmul (vehicle_daily_rate v) days) (mkDecimal 2 (-1)))
    pending payment_pending (c_notes d) None (Some now) (Some now).

(** The three amounts of an instance pass the test of their columns. *)
Definition amounts_fit (b : Booking) : bool :=
  match daily_rate b, total_amount b with
  | Some rate, Some total =>
      column_fits rate && column_fits total && column_fits (deposit_amount b)
  | _, _ => false
  end.

(** The decimal [d] is within [10^-14] of the fraction [n / m] ([m > 0]). *)
Definition Dnear (d : Decimal) (n m : Z) : Prop :=
  dexp d <= 0
  /\ Z.abs (coef d * m - n * 10 ^ (- dexp d)) * 10 ^ 14 <= m * 10 ^ (- dexp d).

(** [Dnear] of the day count of [h] whole hours and the fraction [h / 24],
    as a test. *)
Definition near_hours (h : Z) : bool :=
  let us := h * 3600000000 in
  let d := Decimal_of_str_float
             (float_add (float_of_int (us / 86400000000))
                        (int_truediv ((us mod 86400000000) / 1000000) 86400)) in
  (dexp d <=? 0)
  && (Z.abs (coef d * 24 - h * 10 ^ (- dexp d)) * 10 ^ 14 <=? 24 * 10 ^ (- dexp d)).

(** A row as the endpoints leave it under key [pk]: it carries its key and
    a number, its bounds, rate and total are set, and its amounts have two
    decimal places. *)
Definition row_ok (pk : positive) (b : Booking) : Prop :=
  id b = Some pk /\ booking_number b <> EmptyString
  /\ is_Some (start_date b) /\ is_Some (end_date b)
  /\ is_Some (daily_rate b) /\ is_Some (total_amount b)
  /\ to_row b = b.

Definition store_ok (w : World) : Prop :=
  forall pk b, bookings w !! pk = Some b -> row_ok pk b.

(** From [w] to [w'] the vehicles are untouched and at most the booking
    under [pk] is written, with a well-formed row. *)
Definition writes_row (w w' : World) (pk : positive) : Prop :=
  vehicles w' = vehicles w
  /\ (bookings w' = bookings w
      \/ exists row, row_ok pk row /\ bookings w' = <[pk := row]> (bookings w)).

(** The instance an update leaves: the supplied fields assigned, the
    timestamp set. *)
Definition updated_instance (now : datetime) (u : UpdateData) (b : Booking) : Booking :=
  set_updated_at (Some now)
    (with_total
       (assign (u_status u) set_status
          (assign (u_notes u) set_notes
             (assign (u_return_location u) set_return_location
                (assign (u_pickup_location u) set_pickup_location
                   (assign (u_end_date u) (λ t, set_end_date (Some t))
                      (assign (u_start_date u) (λ t, set_start_date (Some t)) b))))))).

(** Sample data for the endpoints. *)
Module Fixture.

(** Vehicle 1 booked by customer 7 over days [10, 12) (key 1, status [st])
    and vehicle 2 booked by customer 8 over days [10, 12) (key 2, pending). *)
Definition two_customers (st : Status) : World :=
  mkWorld (<[ 2%positive := Sample.car ]> {[ 1%positive := Sample.car ]})
          (<[ 2%positive :=
                mkBooking (Some 2%positive) "ZZZZ9999" 8 2
                  (Some (10 * Sample.day)) (Some (12 * Sample.day)) None None
                  (Some (mkDecimal 5000 (-2))) (Some (mkDecimal 10000 (-2)))
                  (mkDecimal 2000 (-2)) pending payment_pending None None
                  (Some 0) (Some 0) ]>
             {[ 1%positive :=
                  Sample.row 1 "4BIPW3AH" (10 * Sample.day) (12 * Sample.day) st ]})
          Sample.generator.

(** A request for vehicle 1 over days [20, 22), its raw start usable. *)
Definition request : CreateData :=
  mkCreateData 1 (20 * Sample.day) (22 * Sample.day)
    (initial_datetime (20 * Sample.day)) None None None.

(** A request for a vehicle that does not exist, starting in the past. *)
Definition bad_request : CreateData :=
  mkCreateData 9 0 (22 * Sample.day) initial_missing None None None.

(** A request whose end lies before its start, its raw start unusable. *)
Definition backwards_request : CreateData :=
  mkCreateData 1 (22 * Sample.day) (20 * Sample.day) initial_unusable None None None.

(** A request for vehicle 1 over a day and a half, from day 10 on. *)
Definition short_request : CreateData :=
  mkCreateData 1 (10 * Sample.day) (10 * Sample.day + 36 * Sample.hour)
    initial_unusable None None None.

(** The store once [short_request] is served on [Sample.fleet]. *)
Definition short_booked : World :=
  set_bookings
    {[ 1%positive :=
         to_row (created_instance Sample.day 7 1 Sample.car "4BIPW3AH" 1 short_request) ]}
    (set_random (advance Sample.generator 8) Sample.fleet).

(** The garage of [two_customers]: user 3 owns vehicle 1, user 4 vehicle 2. *)
Definition garage (st : Status) : Fleet.Garage :=
  Fleet.mkGarage (two_customers st) (<[ 2%positive := 4%positive ]> {[ 1%positive := 3%positive ]}).

End Fixture.

(** A booking that holds its vehicle. *)
Definition holding (b : Booking) : Prop :=
  status b = pending \/ status b = confirmed \/ status b = active.

(** No two holding bookings of one vehicle overlap. *)
Definition no_double_booking (w : World) : Prop :=
  forall p q a b sa ea sb eb,
    p <> q -> bookings w !! p = Some a -> bookings w !! q = Some b ->
    vehicle a = vehicle b -> holding a -> holding b ->
    start_date a = Some sa -> end_date a = Some ea ->
    start_date b = Some sb -> end_date b = Some eb ->
    ea <= sb \/ eb <= sa.

(** Sample payments. *)
Module PaymentFixture.

(** A stored deposit of 20.00 for booking 1 by customer 7, in status [st]. *)
Definition deposit_of (st : Payments.Status) : Payments.Payment :=
  Payments.mkPayment (Some 1%positive) "PAY000000001" 1 7 (mkDecimal 2000 (-2)) "USD"
    Payments.deposit Payments.stripe st None None None None (Some 0) (Some 0) None.

Definition ledger (st : Payments.Status) : Payments.Ledger :=
  Payments.mkLedger {[ 1%positive := deposit_of st ]} Sample.generator.

(** A stored deposit whose payment id is the first twelve-character code
    the sample generator yields, and the ledger that holds it. *)
Definition taken_deposit : Payments.Payment :=
  Payments.mkPayment (Some 1%positive) "4BIPW3AHOV29" 1 7 (mkDecimal 2000 (-2)) "USD"
    Payments.deposit Payments.stripe Payments.completed None None None None
    (Some 0) (Some 0) None.

Definition taken_ledger : Payments.Ledger :=
  Payments.mkLedger {[ 1%positive := taken_deposit ]} Sample.generator.

End PaymentFixture.


(* ===================================================================== *)
(** * Properties                                                          *)
(* ===================================================================== *)

(** ** Status tests *)

Lemma in_pending_confirmed (s : Status) :
  bool_decide (s ∈ [pending; confirmed]) = true <-> s = pending \/ s = confirmed.
Proof.
  rewrite bool_decide_eq_true. rewrite !elem_of_cons, elem_of_nil. tauto.
Qed.

Lemma in_completed_cancelled (s : Status) :
  bool_decide (s ∈ [completed; cancelled]) = true <-> s = completed \/ s = cancelled.
Proof.
  rewrite bool_decide_eq_true. rewrite !elem_of_cons, elem_of_nil. tauto.
Qed.

Lemma in_holding (s : Status) :
  bool_decide (s ∈ [pending; confirmed; active]) = true
  <-> s = pending \/ s = confirmed \/ s = active.
Proof.
  rewrite bool_decide_eq_true. rewrite !elem_of_cons, elem_of_nil. tauto.
Qed.

(** ** [can_cancel] and [is_upcoming] *)

Lemma can_cancel_true (b : Booking) (now : datetime) :
  can_cancel b now = Ok true
  <-> (status b = pending \/ status b = confirmed)
      /\ exists s, start_date b = Some s /\ now < s.
Proof.
  unfold can_cancel, attr_gt. rewrite <- in_pending_confirmed.
  destruct (bool_decide (status b ∈ [pending; confirmed])).
  - destruct (start_date b) as [s|].
    + split.
      * intros H. injection H as H. apply Z.ltb_lt in H. eauto.
      * intros [_ (s' & Hs & Hlt)]. injection Hs as ->.
        f_equal. now apply Z.ltb_lt.
    + split; [discriminate | intros [_ (s' & Hs & _)]; discriminate].
  - split; [discriminate | intros [H _]; discriminate].
Qed.

Lemma can_cancel_false (b : Booking) (now s : datetime) :
  start_date b = Some s ->
  ~ ((status b = pending \/ status b = confirmed) /\ now < s) ->
  can_cancel b now = Ok false.
Proof.
  intros Hs Hn. unfold can_cancel, attr_gt. rewrite Hs.
  destruct (bool_decide (status b ∈ [pending; confirmed])) eqn:E; [|reflexivity].
  apply in_pending_confirmed in E. f_equal.
  destruct (Z.ltb_spec now s) as [Hlt|Hge]; [|reflexivity].
  exfalso. apply Hn. split; assumption.
Qed.

(** C10.  [is_upcoming] and [can_cancel] are the same function of the
    booking and the current instant, and each holds exactly when the status
    is pending or confirmed and the start instant is strictly later than
    the current instant: a booking is cancellable iff it is upcoming. *)
Theorem is_upcoming_iff_can_cancel (b : Booking) (now : datetime) :
  is_upcoming b now = can_cancel b now
  /\ (is_upcoming b now = Ok true
      <-> (status b = pending \/ status b = confirmed)
          /\ exists s, start_date b = Some s /\ now < s)
  /\ (can_cancel b now = Ok true
      <-> (status b = pending \/ status b = confirmed)
          /\ exists s, start_date b = Some s /\ now < s)
  /\ (can_cancel b now = Ok true <-> is_upcoming b now = Ok true).
Proof.
  assert (E : is_upcoming b now = can_cancel b now) by reflexivity.
  split; [exact E|]. rewrite E.
  split; [apply can_cancel_true|]. split; [apply can_cancel_true|]. tauto.
Qed.

(** ** [save] *)

Lemma save_numbered (fuel : nat) (now : datetime) (b : Booking) (w : World) :
  booking_number b <> EmptyString ->
  save fuel now b w = Ok (super_save now (with_total b) w).
Proof.
  intros H. unfold save. rewrite bool_decide_eq_false_2 by exact H. reflexivity.
Qed.

Lemma super_save_existing (now : datetime) (b : Booking) (w : World) (pk : positive) :
  id b = Some pk ->
  super_save now b w
  = (set_updated_at (Some now) b,
     set_bookings (<[pk := to_row (set_updated_at (Some now) b)]> (bookings w)) w).
Proof. intros H. unfold super_save. simpl. rewrite H. reflexivity. Qed.

Lemma with_total_fields (b : Booking) :
  id (with_total b) = id b /\ status (with_total b) = status b
  /\ cancellation_reason (with_total b) = cancellation_reason b
  /\ booking_number (with_total b) = booking_number b
  /\ start_date (with_total b) = start_date b
  /\ end_date (with_total b) = end_date b
  /\ vehicle (with_total b) = vehicle b
  /\ customer (with_total b) = customer b
  /\ notes (with_total b) = notes b.
Proof. unfold with_total. destruct (amount_truthy _); repeat split. Qed.

(** ** Cancel *)

Lemma cancel_booking_refused (fuel : nat) (now s : datetime) (reason : option string)
  (b : Booking) (w : World) :
  start_date b = Some s ->
  ~ ((status b = pending \/ status b = confirmed) /\ now < s) ->
  cancel_booking fuel now reason b w = Ok (false, b, w).
Proof.
  intros Hs Hn. unfold cancel_booking. rewrite (can_cancel_false b now s Hs Hn).
  reflexivity.
Qed.

Lemma cancel_booking_done (fuel : nat) (now : datetime) (reason : option string)
  (b : Booking) (w : World) (pk : positive) :
  can_cancel b now = Ok true ->
  id b = Some pk -> booking_number b <> EmptyString ->
  exists b', cancel_booking fuel now reason b w
             = Ok (true, b', set_bookings (<[pk := to_row b']> (bookings w)) w)
    /\ status b' = cancelled /\ cancellation_reason b' = reason
    /\ id b' = Some pk /\ booking_number b' = booking_number b
    /\ start_date b' = start_date b /\ end_date b' = end_date b.
Proof.
  intros Hc Hid Hnum. unfold cancel_booking. rewrite Hc. simpl.
  rewrite save_numbered by exact Hnum.
  set (b1 := set_cancellation_reason reason (set_status cancelled b)).
  destruct (with_total_fields b1) as (Ei & Es & Er & En & Est & Een & _).
  rewrite (super_save_existing now (with_total b1) w pk) by (rewrite Ei; exact Hid).
  simpl. eexists. split; [reflexivity|]. simpl.
  rewrite Es, Er, Ei, En, Est, Een. repeat split; assumption.
Qed.

(** The cancel endpoint.  The clock is read at validation ([early]) and
    again in [cancel_booking] ([now]); it does not run backwards. *)
Lemma BookingCancelView_post_done (fuel : nat) (early now s : datetime)
  (user pk : positive) (reason : option string) (b : Booking) (w : World) :
  get_booking w user pk = Some b -> validate_cancellation_reason reason = [] ->
  id b = Some pk -> booking_number b <> EmptyString -> start_date b = Some s ->
  early <= now ->
  (status b = pending \/ status b = confirmed) /\ now < s ->
  exists b', BookingCancelView_post fuel early now user pk reason w
             = Ok (mkResponse 200 true "Booking cancelled successfully" (Some b'),
                   set_bookings (<[pk := to_row b']> (bookings w)) w)
    /\ status b' = cancelled /\ cancellation_reason b' = reason.
Proof.
  intros Hg Hr Hid Hnum Hs Hle [Hst Hlt].
  assert (C1 : can_cancel b early = Ok true).
  { apply can_cancel_true. split; [exact Hst|]. exists s. split; [exact Hs | lia]. }
  assert (C2 : can_cancel b now = Ok true).
  { apply can_cancel_true. split; [exact Hst|]. exists s. split; [exact Hs | lia]. }
  destruct (cancel_booking_done fuel now reason b w pk C2 Hid Hnum)
    as (b' & E & S1 & S2 & _).
  exists b'. split; [|split; assumption].
  unfold BookingCancelView_post. rewrite Hg. unfold cancel_is_valid, cancel_validate.
  rewrite Hr, C1. cbn [bind negb]. rewrite E. reflexivity.
Qed.

Lemma BookingCancelView_post_refused (fuel : nat) (early now s : datetime)
  (user pk : positive) (reason : option string) (b : Booking) (w : World) :
  get_booking w user pk = Some b -> validate_cancellation_reason reason = [] ->
  start_date b = Some s ->
  ~ ((status b = pending \/ status b = confirmed) /\ now < s) ->
  BookingCancelView_post fuel early now user pk reason w
  = Raise (ValidationError ["This booking cannot be cancelled."%string])
  \/ BookingCancelView_post fuel early now user pk reason w
     = Ok (mkResponse 400 false "Cannot cancel this booking" None, w).
Proof.
  intros Hg Hr Hs Hn. unfold BookingCancelView_post. rewrite Hg.
  unfold cancel_is_valid, cancel_validate. rewrite Hr.
  destruct (decide ((status b = pending \/ status b = confirmed) /\ early < s)) as [Y|N].
  - right. destruct Y as [Hst Hlt].
    rewrite (proj2 (can_cancel_true b early)) by (split; [exact Hst | eauto]).
    cbn [bind negb]. rewrite (cancel_booking_refused fuel now s reason b w Hs Hn).
    reflexivity.
  - left. rewrite (can_cancel_false b early s Hs N). reflexivity.
Qed.

(** C2.  For a stored booking (it has its key, its number and a start
    instant), [cancel_booking] succeeds iff the status is pending or
    confirmed and the start instant is strictly after the instant of the
    call; a success sets the status to cancelled and records the reason, and
    in every other case the call returns [False] with the booking and the
    whole store as they were.  The cancel endpoint behaves alike: it
    answers 200 in the first case, and in every other case it answers with
    the error "This booking cannot be cancelled." or with the failure
    "Cannot cancel this booking", the store unchanged. *)
Theorem cancel_succeeds_iff (fuel : nat) (now s : datetime) (reason : option string)
  (b : Booking) (w : World) (pk : positive) :
  id b = Some pk -> booking_number b <> EmptyString -> start_date b = Some s ->
  ((exists b' w', cancel_booking fuel now reason b w = Ok (true, b', w'))
   <-> (status b = pending \/ status b = confirmed) /\ now < s)
  /\ ((status b = pending \/ status b = confirmed) /\ now < s ->
      exists b', cancel_booking fuel now reason b w
                 = Ok (true, b', set_bookings (<[pk := to_row b']> (bookings w)) w)
        /\ status b' = cancelled /\ cancellation_reason b' = reason)
  /\ (~ ((status b = pending \/ status b = confirmed) /\ now < s) ->
      cancel_booking fuel now reason b w = Ok (false, b, w))
  /\ (forall (user : positive) (early : datetime),
        get_booking w user pk = Some b -> validate_cancellation_reason reason = [] ->
        early <= now ->
        ((status b = pending \/ status b = confirmed) /\ now < s ->
         exists b', BookingCancelView_post fuel early now user pk reason w
                    = Ok (mkResponse 200 true "Booking cancelled successfully" (Some b'),
                          set_bookings (<[pk := to_row b']> (bookings w)) w)
           /\ status b' = cancelled /\ cancellation_reason b' = reason)
        /\ (~ ((status b = pending \/ status b = confirmed) /\ now < s) ->
            BookingCancelView_post fuel early now user pk reason w
            = Raise (ValidationError ["This booking cannot be cancelled."%string])
            \/ BookingCancelView_post fuel early now user pk reason w
               = Ok (mkResponse 400 false "Cannot cancel this booking" None, w))).
Proof.
  intros Hid Hnum Hs.
  assert (Hyes : (status b = pending \/ status b = confirmed) /\ now < s ->
                 can_cancel b now = Ok true).
  { intros [Hst Hlt]. apply can_cancel_true. split; [exact Hst | eauto]. }
  split; [split|split; [|split]].
  - intros (b' & w' & H).
    destruct (decide ((status b = pending \/ status b = confirmed) /\ now < s)) as [Y|N];
      [exact Y|].
    rewrite (cancel_booking_refused fuel now s reason b w Hs N) in H. discriminate.
  - intros Y.
    destruct (cancel_booking_done fuel now reason b w pk (Hyes Y) Hid Hnum)
      as (b' & E & _). eauto.
  - intros Y.
    destruct (cancel_booking_done fuel now reason b w pk (Hyes Y) Hid Hnum)
      as (b' & E & S1 & S2 & _). eauto.
  - apply cancel_booking_refused. exact Hs.
  - intros user early Hg Hr Hle. split.
    + now apply BookingCancelView_post_done.
    + now apply BookingCancelView_post_refused.
Qed.

Lemma cancel_succeeds_iff_witness :
  exists b', cancel_booking 0 Sample.day (Some "change of plans"%string)
               (Sample.row 1 "4BIPW3AH" (10 * Sample.day) (12 * Sample.day) confirmed)
               (Sample.booked confirmed)
             = Ok (true, b',
                   set_bookings (<[1%positive := to_row b']> (bookings (Sample.booked confirmed)))
                     (Sample.booked confirmed))
    /\ status b' = cancelled
    /\ cancellation_reason b' = Some "change of plans"%string.
Proof.
  apply (proj1 (proj2 (cancel_succeeds_iff 0 Sample.day (10 * Sample.day)
           (Some "change of plans"%string)
           (Sample.row 1 "4BIPW3AH" (10 * Sample.day) (12 * Sample.day) confirmed)
           (Sample.booked confirmed) 1%positive
           eq_refl ltac:(discriminate) eq_refl))).
  split; [right; reflexivity | reflexivity].
Defined.

(** ** Confirm *)

(** C3.  For a stored booking of the caller, the confirm endpoint succeeds
    iff the status is pending, and then the status is confirmed in the
    returned booking and in the row written; for any other status the
    response is the failure "Booking cannot be confirmed" and the store is
    unchanged. *)
Theorem confirm_succeeds_iff (fuel : nat) (now : datetime) (user pk : positive)
  (b : Booking) (w : World) :
  get_booking w user pk = Some b -> id b = Some pk -> booking_number b <> EmptyString ->
  (status b = pending ->
     exists b', BookingConfirmView_post fuel now user pk w
                = Ok (mkResponse 200 true "Booking confirmed successfully" (Some b'),
                      set_bookings (<[pk := to_row b']> (bookings w)) w)
       /\ status b' = confirmed)
  /\ (status b <> pending ->
        BookingConfirmView_post fuel now user pk w
        = Ok (mkResponse 400 false "Booking cannot be confirmed" None, w))
  /\ ((exists r w', BookingConfirmView_post fuel now user pk w = Ok (r, w')
                    /\ success r = true)
      <-> status b = pending).
Proof.
  intros Hg Hid Hnum.
  assert (Yes : status b = pending ->
     exists b', BookingConfirmView_post fuel now user pk w
                = Ok (mkResponse 200 true "Booking confirmed successfully" (Some b'),
                      set_bookings (<[pk := to_row b']> (bookings w)) w)
       /\ status b' = confirmed).
  { intros Hp. unfold BookingConfirmView_post. rewrite Hg.
    rewrite bool_decide_eq_true_2 by exact Hp.
    rewrite save_numbered by exact Hnum.
    set (b1 := set_status confirmed b).
    destruct (with_total_fields b1) as (Ei & Es & _).
    rewrite (super_save_existing now (with_total b1) w pk) by (rewrite Ei; exact Hid).
    simpl. eexists. split; [reflexivity|]. simpl. rewrite Es. reflexivity. }
  assert (No : status b <> pending ->
        BookingConfirmView_post fuel now user pk w
        = Ok (mkResponse 400 false "Booking cannot be confirmed" None, w)).
  { intros Hp. unfold BookingConfirmView_post. rewrite Hg.
    rewrite bool_decide_eq_false_2 by exact Hp. reflexivity. }
  split; [exact Yes|]. split; [exact No|]. split.
  - intros (r & w' & E & Hr).
    destruct (decide (status b = pending)) as [Y|N]; [exact Y|].
    rewrite (No N) in E. injection E as <- _. discriminate.
  - intros Hp. destruct (Yes Hp) as (b' & E & _). eauto.
Qed.

Lemma confirm_succeeds_iff_witness :
  exists b', BookingConfirmView_post 0 Sample.day 7 1 (Sample.booked pending)
             = Ok (mkResponse 200 true "Booking confirmed successfully" (Some b'),
                   set_bookings (<[1%positive := to_row b']> (bookings (Sample.booked pending)))
                     (Sample.booked pending))
    /\ status b' = confirmed.
Proof.
  apply (proj1 (confirm_succeeds_iff 0 Sample.day 7 1
           (Sample.row 1 "4BIPW3AH" (10 * Sample.day) (12 * Sample.day) pending)
           (Sample.booked pending)
           eq_refl eq_refl ltac:(discriminate))).
  reflexivity.
Defined.

(** Spec scenario: confirming a confirmed booking fails and changes nothing. *)
Example confirm_twice_fails :
  BookingConfirmView_post 0 Sample.day 7 1 (Sample.booked confirmed)
  = Ok (mkResponse 400 false "Booking cannot be confirmed" None, Sample.booked confirmed).
Proof. reflexivity. Qed.

(** ** The pricing calculation *)

Lemma days_float_zero : Decimal_of_str_float (days_float (datetime_sub 0 0)) = mkDecimal 0 (-1).
Proof. reflexivity. Qed.

(** C9 (as the code has it).  [calculate_total_amount] is a total function
    and returns zero when the rate is missing or zero, when a bound is
    missing, and when the interval is empty (end = start). *)
Theorem calculate_total_amount_degenerate (b : Booking) :
  daily_rate b = None
  \/ (exists rate, daily_rate b = Some rate /\ Dis_zero rate)
  \/ start_date b = None
  \/ end_date b = None
  \/ (exists t, start_date b = Some t /\ end_date b = Some t) ->
  Dis_zero (calculate_total_amount b).
Proof.
  unfold calculate_total_amount, Dis_zero, Dtruthy.
  intros [H | [(rate & H & Hz) | [H | [H | (t & Hs & He)]]]].
  - rewrite H. destruct (start_date b), (end_date b); reflexivity.
  - rewrite H, Hz. destruct (start_date b), (end_date b); reflexivity.
  - rewrite H. reflexivity.
  - rewrite H. destruct (start_date b); reflexivity.
  - rewrite Hs, He. destruct (daily_rate b) as [rate|]; [|reflexivity].
    destruct (negb (coef rate =? 0)); [|reflexivity].
    unfold datetime_sub. rewrite Z.sub_diag.
    change (coef (Dmul rate (Decimal_of_str_float (days_float (datetime_sub 0 0)))) = 0).
    rewrite days_float_zero. simpl. lia.
Qed.

Lemma calculate_total_amount_degenerate_witness :
  Dis_zero (calculate_total_amount
              (Sample.row 1 "4BIPW3AH" (10 * Sample.day) (10 * Sample.day) pending)).
Proof.
  apply calculate_total_amount_degenerate.
  right. right. right. right. exists (10 * Sample.day). split; reflexivity.
Defined.

(** C9 as stated fails when the end lies before the start: the formula is
    applied as it is and the amount is negative. *)
Lemma calculate_total_amount_reversed_negative :
  end_date Sample.reversed = Some Sample.day
  /\ start_date Sample.reversed = Some (2 * Sample.day)
  /\ Sample.day <= 2 * Sample.day
  /\ calculate_total_amount Sample.reversed = mkDecimal (-50000) (-3)
  /\ Dis_negative (calculate_total_amount Sample.reversed)
  /\ ~ Dis_zero (calculate_total_amount Sample.reversed).
Proof.
  assert (E : calculate_total_amount Sample.reversed = mkDecimal (-50000) (-3))
    by (vm_compute; reflexivity).
  rewrite E. unfold Dis_negative, Dis_zero. simpl.
  repeat split; try reflexivity; try discriminate.
Qed.

(** ** The overlap check at creation *)

Lemma overlap_filter_spec (vehicle_id : Z) (s e : datetime) (b : Booking) :
  overlap_filter vehicle_id s e b = true
  <-> Zpos (vehicle b) = vehicle_id
      /\ (status b = pending \/ status b = confirmed \/ status b = active)
      /\ exists bs be, start_date b = Some bs /\ end_date b = Some be
                       /\ bs < e /\ s < be.
Proof.
  unfold overlap_filter, column_lt, column_gt.
  rewrite !andb_true_iff, bool_decide_eq_true, in_holding.
  destruct (start_date b) as [bs|], (end_date b) as [be|].
  - rewrite !Z.ltb_lt. split.
    + intros [[[Hv Hst] H1] H2]. eauto 10.
    + intros (Hv & Hst & bs' & be' & E1 & E2 & H1 & H2).
      injection E1 as <-. injection E2 as <-. tauto.
  - split; [intros [_ H]; discriminate | intros (_ & _ & ? & ? & _ & H & _); discriminate].
  - split; [intros [[_ H] _]; discriminate | intros (_ & _ & ? & ? & H & _); discriminate].
  - split; [intros [_ H]; discriminate | intros (_ & _ & ? & ? & H & _); discriminate].
Qed.

Lemma overlapping_bookings_exist_spec (w : World) (vehicle_id : Z) (s e : datetime) :
  overlapping_bookings_exist w vehicle_id s e = true
  <-> exists pk b, bookings w !! pk = Some b /\ overlap_filter vehicle_id s e b = true.
Proof.
  unfold overlapping_bookings_exist.
  rewrite bool_decide_eq_true, map_Exists_lookup.
  split; intros (pk & b & H1 & H2); exists pk, b; split; auto;
    now apply Is_true_true.
Qed.

(** C1.  (1) Whenever a stored booking of the same vehicle in a holding
    status (pending, confirmed, active) starts before the new end and ends
    after the new start, the create endpoint fails with a validation error
    and stores nothing; when the field checks pass, the error is the
    conflict "This vehicle is already booked for the selected dates.".
    (2) When every such booking ends at or before the new start or starts
    at or after the new end (touching allowed), the overlap check accepts
    the request.  (3) Two bookings of one vehicle over touching intervals
    [[10,12)] and [[12,14)] are both created. *)
Theorem create_rejects_overlap_only :
  (forall (fuel : nat) (now : datetime) (user : positive) (d : CreateData) (w : World)
          (pk : positive) (b : Booking) (bs be : datetime),
      bookings w !! pk = Some b ->
      Zpos (vehicle b) = c_vehicle_id d ->
      status b = pending \/ status b = confirmed \/ status b = active ->
      start_date b = Some bs -> end_date b = Some be ->
      bs < c_end_date d -> be > c_start_date d ->
      (exists msgs, msgs <> []
         /\ BookingListView_create fuel now user d w = Raise (ValidationError msgs))
      /\ (validate_vehicle_id w (c_vehicle_id d) = Ok (c_vehicle_id d) ->
          validate_start_date now (c_start_date d) = Ok (c_start_date d) ->
          validate_end_date (c_initial_start_date d) (c_end_date d) = Ok (c_end_date d) ->
          BookingListView_create fuel now user d w
          = Raise (ValidationError
                     ["This vehicle is already booked for the selected dates."%string])))
  /\ (forall (d : CreateData) (w : World),
        (forall pk b bs be,
            bookings w !! pk = Some b ->
            Zpos (vehicle b) = c_vehicle_id d ->
            status b = pending \/ status b = confirmed \/ status b = active ->
            start_date b = Some bs -> end_date b = Some be ->
            be <= c_start_date d \/ c_end_date d <= bs) ->
        validate w d = Ok d)
  /\ Sample.touching_run
     = Some (Some (Sample.day * 10, Sample.day * 12, pending, 1%positive),
             Some (Sample.day * 12, Sample.day * 14, pending, 1%positive)).
Proof.
  split; [|split].
  - intros fuel now user d w pk b bs be Hb Hv Hst Hs He H1 H2.
    assert (Hex : overlapping_bookings_exist w (c_vehicle_id d) (c_start_date d) (c_end_date d)
                  = true).
    { apply overlapping_bookings_exist_spec. exists pk, b. split; [exact Hb|].
      apply overlap_filter_spec. split; [exact Hv|]. split; [exact Hst|].
      exists bs, be. repeat split; auto. lia. }
    assert (Hval : validate w d
                   = Raise (ValidationError
                       ["This vehicle is already booked for the selected dates."%string])).
    { unfold validate. rewrite Hex. rewrite <- Hv. reflexivity. }
    unfold BookingListView_create, create_is_valid. split.
    + destruct (errors_of _ ++ errors_of _ ++ errors_of _) as [|m ms].
      * rewrite Hval. simpl. eexists. split; [|reflexivity]. discriminate.
      * simpl. eexists. split; [|reflexivity]. discriminate.
    + intros E1 E2 E3. rewrite E1, E2, E3. simpl. rewrite Hval. reflexivity.
  - intros d w Hfree. unfold validate.
    destruct (negb (c_vehicle_id d =? 0)); [|reflexivity].
    destruct (overlapping_bookings_exist w (c_vehicle_id d) (c_start_date d) (c_end_date d))
      eqn:Hex; [|reflexivity].
    exfalso. apply overlapping_bookings_exist_spec in Hex as (pk & b & Hb & Hf).
    apply overlap_filter_spec in Hf as (Hv & Hst & bs & be & Hs & He & H1 & H2).
    specialize (Hfree pk b bs be Hb Hv Hst Hs He). lia.
  - vm_compute. reflexivity.
Qed.

Lemma create_rejects_overlap_only_witness :
  exists msgs, msgs <> []
    /\ BookingListView_create 1 Sample.day 7
         (mkCreateData 1 (11 * Sample.day) (13 * Sample.day) initial_unusable None None None)
         (Sample.booked confirmed)
       = Raise (ValidationError msgs).
Proof.
  apply (proj1 (proj1 create_rejects_overlap_only 1%nat Sample.day 7%positive
           (mkCreateData 1 (11 * Sample.day) (13 * Sample.day) initial_unusable None None None)
           (Sample.booked confirmed) 1%positive
           (Sample.row 1 "4BIPW3AH" (10 * Sample.day) (12 * Sample.day) confirmed)
           (10 * Sample.day) (12 * Sample.day)
           eq_refl eq_refl (or_intror (or_introl eq_refl)) eq_refl eq_refl
           eq_refl eq_refl)).
Defined.

(** ** Booking numbers *)

Lemma random_string_length (n : nat) (seq : list ascii) (g : Random) :
  String.length (fst (random_string n seq g)) = n.
Proof.
  revert g. induction n as [|n IH]; intros g; simpl; [reflexivity|].
  specialize (IH (mkRandom (draws g) (S (cursor g)))).
  destruct (random_string n seq _) as [s g2]. simpl in *. now rewrite IH.
Qed.

Lemma random_string_alphabet (n : nat) (seq : list ascii) (g : Random) :
  seq <> [] ->
  Forall (fun c => In c seq) (list_ascii_of_string (fst (random_string n seq g))).
Proof.
  intros Hne. revert g. induction n as [|n IH]; intros g; simpl; [constructor|].
  specialize (IH (mkRandom (draws g) (S (cursor g)))).
  destruct (random_string n seq _) as [s g2]. simpl in *. constructor; [|exact IH].
  apply nth_In. apply Nat.mod_upper_bound. destruct seq; [congruence | simpl; lia].
Qed.

Lemma random_string_advance (n : nat) (seq : list ascii) (g : Random) :
  snd (random_string n seq g) = advance g n.
Proof.
  revert g. induction n as [|n IH]; intros g; simpl.
  - unfold advance. destruct g; simpl. f_equal. lia.
  - specialize (IH (mkRandom (draws g) (S (cursor g)))).
    destruct (random_string n seq _) as [s g2]. simpl in *. rewrite IH.
    unfold advance. simpl. f_equal. lia.
Qed.

Lemma random_string_eq (n : nat) (seq : list ascii) (g : Random) :
  random_string n seq g = (fst (random_string n seq g), advance g n).
Proof. rewrite <- (random_string_advance n seq g). now destruct (random_string n seq g). Qed.

Lemma advance_0 (g : Random) : advance g 0 = g.
Proof. unfold advance. destruct g; simpl. f_equal. lia. Qed.

Lemma advance_advance (g : Random) (n m : nat) :
  advance (advance g n) m = advance g (n + m).
Proof. unfold advance. simpl. f_equal. lia. Qed.

Lemma candidate_shift (g : Random) (k : nat) :
  candidate (advance g 8) k = candidate g (S k).
Proof.
  unfold candidate. rewrite advance_advance. do 3 f_equal. lia.
Qed.

Lemma booking_number_exists_false (w : World) (number : string) :
  booking_number_exists w number = false
  <-> forall pk b, bookings w !! pk = Some b -> booking_number b <> number.
Proof.
  unfold booking_number_exists. rewrite bool_decide_eq_false, map_Exists_lookup.
  split.
  - intros H pk b Hb E. apply H. eauto.
  - intros H (pk & b & Hb & E). exact (H pk b Hb E).
Qed.

Lemma regenerate_fresh (fuel : nat) (w : World) (number number' : string) (g g' : Random) :
  regenerate_while_exists fuel w number g = Ok (number', g') ->
  booking_number_exists w number' = false.
Proof.
  revert number g. induction fuel as [|fuel IH]; intros number g; cbn [regenerate_while_exists].
  - destruct (booking_number_exists w number) eqn:E; [discriminate|].
    intros H. injection H as <- _. exact E.
  - destruct (booking_number_exists w number) eqn:E.
    + destruct (random_string 8 chars g) as [n1 g1]. apply IH.
    + intros H. injection H as <- _. exact E.
Qed.

Lemma regenerate_shape (fuel : nat) (w : World) (number number' : string) (g g' : Random) :
  String.length number = 8%nat ->
  Forall (fun c => In c chars) (list_ascii_of_string number) ->
  regenerate_while_exists fuel w number g = Ok (number', g') ->
  String.length number' = 8%nat
  /\ Forall (fun c => In c chars) (list_ascii_of_string number').
Proof.
  revert number g. induction fuel as [|fuel IH]; intros number g Hl Ha; cbn [regenerate_while_exists].
  - destruct (booking_number_exists w number); [discriminate|].
    intros H. injection H as <- _. auto.
  - destruct (booking_number_exists w number).
    + pose proof (random_string_length 8 chars g) as L.
      pose proof (random_string_alphabet 8 chars g ltac:(discriminate)) as A.
      destruct (random_string 8 chars g) as [n1 g1]. apply IH; [exact L | exact A].
    + intros H. injection H as <- _. auto.
Qed.

Lemma regenerate_first_fresh (w : World) (k : nat) :
  forall (fuel : nat) (g : Random),
    (k <= fuel)%nat ->
    (forall i, (i < k)%nat -> booking_number_exists w (candidate g i) = true) ->
    booking_number_exists w (candidate g k) = false ->
    regenerate_while_exists fuel w (candidate g 0) (advance g 8)
    = Ok (candidate g k, advance g (8 * (k + 1))).
Proof.
  induction k as [|k IH]; intros fuel g Hk Hbusy Hfree.
  - destruct fuel; cbn [regenerate_while_exists]; rewrite Hfree; reflexivity.
  - destruct fuel as [|fuel]; [lia|]. cbn [regenerate_while_exists].
    rewrite (Hbusy 0%nat) by lia.
    rewrite (random_string_eq 8 chars (advance g 8)).
    assert (E0 : fst (random_string 8 chars (advance g 8)) = candidate (advance g 8) 0).
    { unfold candidate. now rewrite advance_advance. }
    rewrite E0.
    rewrite (IH fuel (advance g 8)).
    + rewrite candidate_shift, advance_advance. do 3 f_equal. lia.
    + lia.
    + intros i Hi. rewrite candidate_shift. apply Hbusy. lia.
    + rewrite candidate_shift. exact Hfree.
Qed.

Lemma regenerate_all_busy (w : World) (fuel : nat) :
  forall (g : Random),
    (forall i, (i <= fuel)%nat -> booking_number_exists w (candidate g i) = true) ->
    regenerate_while_exists fuel w (candidate g 0) (advance g 8) = OutOfFuel.
Proof.
  induction fuel as [|fuel IH]; intros g Hbusy; cbn [regenerate_while_exists]; rewrite (Hbusy 0%nat) by lia.
  - reflexivity.
  - rewrite (random_string_eq 8 chars (advance g 8)).
    assert (E0 : fst (random_string 8 chars (advance g 8)) = candidate (advance g 8) 0).
    { unfold candidate. now rewrite advance_advance. }
    rewrite E0. apply IH. intros i Hi. rewrite candidate_shift. apply Hbusy. lia.
Qed.

Lemma generate_unfold (fuel : nat) (w : World) :
  generate_booking_number fuel w
  = regenerate_while_exists fuel w (candidate (random w) 0) (advance (random w) 8).
Proof.
  unfold generate_booking_number, candidate. rewrite Nat.mul_0_r, advance_0.
  pose proof (random_string_advance 8 chars (random w)) as A.
  destruct (random_string 8 chars (random w)) as [number g]. cbn [fst snd] in *.
  now subst g.
Qed.

(** The first save of an instance: a number is generated, the total is
    computed, and the row goes under a key the table does not use. *)
Lemma save_new (fuel : nat) (now : datetime) (b b' : Booking) (w w' : World) :
  booking_number b = EmptyString -> id b = None ->
  save fuel now b w = Ok (b', w') ->
  exists number g,
    generate_booking_number fuel w = Ok (number, g)
    /\ b' = set_id (Some (fresh (dom (bookings w))))
              (set_created_at (Some now)
                 (set_updated_at (Some now) (with_total (set_booking_number number b))))
    /\ w' = set_bookings (<[fresh (dom (bookings w)) := to_row b']> (bookings w))
              (set_random g w).
Proof.
  intros Hnum Hid. unfold save. rewrite bool_decide_eq_true_2 by exact Hnum.
  cbn [negb bind].
  destruct (generate_booking_number fuel w) as [[number g]| |]; cbn [bind];
    try discriminate.
  change (if amount_truthy (total_amount (set_booking_number number b))
          then set_booking_number number b
          else set_total_amount
                 (Some (calculate_total_amount (set_booking_number number b)))
                 (set_booking_number number b))
    with (with_total (set_booking_number number b)).
  unfold super_save.
  assert (E : id (set_updated_at (Some now) (with_total (set_booking_number number b))) = None).
  { destruct (with_total_fields (set_booking_number number b)) as (Ei & _).
    cbn [id set_updated_at]. rewrite Ei. exact Hid. }
  rewrite E. intros H. injection H as <- <-. exists number, g. repeat split.
Qed.

Lemma fresh_key_unused (w : World) : bookings w !! fresh (dom (bookings w)) = None.
Proof. apply not_elem_of_dom. apply is_fresh. Qed.

Lemma create_is_valid_ok (w : World) (now : datetime) (d d' : CreateData) :
  create_is_valid w now d = Ok d' -> d' = d.
Proof.
  unfold create_is_valid, validate.
  destruct (errors_of _ ++ errors_of _ ++ errors_of _); [|discriminate].
  destruct (negb (c_vehicle_id d =? 0)); [|congruence].
  destruct (overlapping_bookings_exist _ _ _ _); [discriminate | congruence].
Qed.

(** What a successful create request does. *)
Lemma create_inversion (fuel : nat) (now : datetime) (user : positive) (d : CreateData)
  (w w' : World) (r : Response) :
  BookingListView_create fuel now user d w = Ok (r, w') ->
  exists vehicle_pk v number g b,
    c_vehicle_id d = Zpos vehicle_pk
    /\ vehicles w !! vehicle_pk = Some v
    /\ generate_booking_number fuel w = Ok (number, g)
    /\ b = created_instance now user vehicle_pk v number (fresh (dom (bookings w))) d
    /\ r = mkResponse 201 true "Booking created successfully" (Some b)
    /\ w' = set_bookings (<[fresh (dom (bookings w)) := to_row b]> (bookings w))
              (set_random g w).
Proof.
  unfold BookingListView_create.
  destruct (create_is_valid w now d) as [validated| |] eqn:V; cbn [bind]; try discriminate.
  apply create_is_valid_ok in V. subst validated.
  unfold create. unfold get_vehicle.
  destruct (c_vehicle_id d) as [|vehicle_pk|] eqn:Ev; cbn [bind]; try discriminate.
  destruct (vehicles w !! vehicle_pk) as [v|] eqn:Evh; cbn [bind]; try discriminate.
  match goal with |- context [save fuel now ?i w] => set (instance := i) end.
  destruct (save fuel now instance w) as [[b w1]| |] eqn:S; cbn [bind]; try discriminate.
  intros H. injection H as <- <-.
  apply save_new in S as (number & g & Hg & Eb & Ew); [|reflexivity|reflexivity].
  exists vehicle_pk, v, number, g, b.
  split; [reflexivity|]. split; [exact Evh|]. split; [exact Hg|].
  split; [rewrite Eb; reflexivity|]. split; [reflexivity | exact Ew].
Qed.

(** C8.  (1) A generated booking number has eight characters, each an
    uppercase letter or a digit, and no stored booking carries it.
    (2) The generator retries: the result is the first code of the random
    sequence that no stored booking carries, however many collisions come
    before it (given fuel for that many rounds); while codes keep colliding
    the loop keeps going.  (3) A booking created through the create
    endpoint gets such a number, is stored under an unused key, and booking
    numbers stay unique across the store. *)
Theorem booking_number_fresh_with_retry :
  (forall (fuel : nat) (w : World) (number : string) (g : Random),
      generate_booking_number fuel w = Ok (number, g) ->
      String.length number = 8%nat
      /\ Forall (fun c => In c (ascii_uppercase ++ digits)) (list_ascii_of_string number)
      /\ (forall pk b, bookings w !! pk = Some b -> booking_number b <> number))
  /\ (forall (fuel : nat) (w : World) (k : nat),
        (k <= fuel)%nat ->
        (forall i, (i < k)%nat -> booking_number_exists w (candidate (random w) i) = true) ->
        booking_number_exists w (candidate (random w) k) = false ->
        generate_booking_number fuel w
        = Ok (candidate (random w) k, advance (random w) (8 * (k + 1))))
  /\ (forall (fuel : nat) (w : World),
        (forall i, (i <= fuel)%nat ->
                   booking_number_exists w (candidate (random w) i) = true) ->
        generate_booking_number fuel w = OutOfFuel)
  /\ (forall (fuel : nat) (now : datetime) (user : positive) (d : CreateData)
             (w w' : World) (r : Response),
        BookingListView_create fuel now user d w = Ok (r, w') ->
        exists b pk,
          data r = Some b /\ id b = Some pk
          /\ bookings w !! pk = None
          /\ bookings w' = <[pk := to_row b]> (bookings w)
          /\ String.length (booking_number b) = 8%nat
          /\ Forall (fun c => In c (ascii_uppercase ++ digits))
                    (list_ascii_of_string (booking_number b))
          /\ (forall pk' b', bookings w !! pk' = Some b' ->
                             booking_number b' <> booking_number b)
          /\ (numbers_unique w -> numbers_unique w')).
Proof.
  assert (G : forall (fuel : nat) (w : World) (number : string) (g : Random),
      generate_booking_number fuel w = Ok (number, g) ->
      String.length number = 8%nat
      /\ Forall (fun c => In c chars) (list_ascii_of_string number)
      /\ (forall pk b, bookings w !! pk = Some b -> booking_number b <> number)).
  { intros fuel w number g H. rewrite generate_unfold in H.
    pose proof (regenerate_fresh _ _ _ _ _ _ H) as F.
    apply regenerate_shape in H as [L A].
    - split; [exact L|]. split; [exact A|]. now apply booking_number_exists_false.
    - apply random_string_length.
    - apply random_string_alphabet. discriminate. }
  split; [exact G|]. split; [|split].
  - intros fuel w k Hk Hbusy Hfree. rewrite generate_unfold.
    now apply regenerate_first_fresh.
  - intros fuel w Hbusy. rewrite generate_unfold. now apply regenerate_all_busy.
  - intros fuel now user d w w' r H.
    apply create_inversion in H as (vehicle_pk & v & number & g & b & _ & _ & Hg & Eb & -> & ->).
    destruct (G _ _ _ _ Hg) as (L & A & F).
    assert (En : booking_number b = number) by (rewrite Eb; reflexivity).
    exists b, (fresh (dom (bookings w))).
    split; [reflexivity|]. split; [rewrite Eb; reflexivity|].
    split; [apply fresh_key_unused|]. split; [reflexivity|].
    rewrite En. split; [exact L|]. split; [exact A|]. split; [exact F|].
    intros U p q x y Hp Hq E. cbn [bookings set_bookings set_random] in Hp, Hq.
    apply lookup_insert_Some in Hp as [[<- <-]|[Np Hp]];
      apply lookup_insert_Some in Hq as [[<- <-]|[Nq Hq]].
    + reflexivity.
    + exfalso. apply (F q y Hq). rewrite <- E. rewrite <- En. reflexivity.
    + exfalso. apply (F p x Hp). rewrite E. rewrite <- En. reflexivity.
    + exact (U p q x y Hp Hq E).
Qed.

(** ** Rounding to cents *)

Lemma round_half_even_split (q r d : Z) :
  0 <= r < d ->
  round_half_even (d * q + r) d
  = match (2 * r) ?= d with
    | Lt => q
    | Gt => q + 1
    | Eq => if Z.even q then q else q + 1
    end.
Proof.
  intros Hr. unfold round_half_even.
  replace ((d * q + r) / d) with q by (apply (Z.div_unique_pos _ _ q r); lia).
  replace ((d * q + r) mod d) with r by (apply (Z.mod_unique_pos _ _ q r); lia).
  reflexivity.
Qed.

Lemma round_half_even_exact (q d : Z) : 0 < d -> round_half_even (q * d) d = q.
Proof.
  intros Hd. replace (q * d) with (d * q + 0) by lia.
  rewrite round_half_even_split by lia. simpl.
  destruct d; first [lia | reflexivity].
Qed.

Lemma even_5m (m j : Z) : Z.even (5 * m + j) = Bool.eqb (Z.even m) (Z.even j).
Proof.
  rewrite Z.even_add, Z.even_mul. simpl. reflexivity.
Qed.

(** Rounding a fifth of [c / D] gives the same as rounding a fifth of the
    rounded [c / D]. *)
Lemma round_half_even_fifth (c D : Z) :
  0 < D ->
  round_half_even (2 * c) (10 * D) = round_half_even (2 * round_half_even c D) 10.
Proof.
  intros HD.
  pose proof (Z.div_mod c D ltac:(lia)) as Hc.
  pose proof (Z.mod_pos_bound c D HD) as Hr.
  set (n := c / D) in *. set (r := c mod D) in *. clearbody n r.
  pose proof (Z.div_mod n 5 ltac:(lia)) as Hn.
  pose proof (Z.mod_pos_bound n 5 ltac:(lia)) as Hj.
  set (m := n / 5) in *. set (j := n mod 5) in *. clearbody m j.
  subst c. subst n.
  replace (2 * (D * (5 * m + j) + r)) with (10 * D * m + 2 * (j * D + r)) by ring.
  rewrite (round_half_even_split m (2 * (j * D + r)) (10 * D)) by nia.
  rewrite (round_half_even_split (5 * m + j) r D) by lia.
  assert (Hcase : j = 0 \/ j = 1 \/ j = 2 \/ j = 3 \/ j = 4) by lia.
  destruct Hcase as [-> | [-> | [-> | [-> | ->]]]].
  - replace (2 * (2 * (0 * D + r)) ?= 10 * D) with Lt by (symmetry; apply Z.compare_lt_iff; lia).
    destruct (2 * r ?= D); [destruct (Z.even (5 * m + 0))| |];
      match goal with
      | |- _ = round_half_even (2 * (5 * m + 0)) 10 =>
          replace (2 * (5 * m + 0)) with (10 * m + 0) by ring
      | |- _ = round_half_even (2 * (5 * m + 0 + 1)) 10 =>
          replace (2 * (5 * m + 0 + 1)) with (10 * m + 2) by ring
      end; rewrite round_half_even_split by lia; reflexivity.
  - replace (2 * (2 * (1 * D + r)) ?= 10 * D) with Lt by (symmetry; apply Z.compare_lt_iff; lia).
    destruct (2 * r ?= D); [destruct (Z.even (5 * m + 1))| |];
      match goal with
      | |- _ = round_half_even (2 * (5 * m + 1)) 10 =>
          replace (2 * (5 * m + 1)) with (10 * m + 2) by ring
      | |- _ = round_half_even (2 * (5 * m + 1 + 1)) 10 =>
          replace (2 * (5 * m + 1 + 1)) with (10 * m + 4) by ring
      end; rewrite round_half_even_split by lia; reflexivity.
  - replace (2 * (2 * (2 * D + r)) ?= 10 * D) with (2 * r ?= D).
    2:{ destruct (Z.compare_spec (2 * r) D); symmetry;
        [apply Z.compare_eq_iff | apply Z.compare_lt_iff | apply Z.compare_gt_iff]; lia. }
    rewrite even_5m. change (Z.even 2) with true.
    destruct (2 * r ?= D); [destruct (Z.even m); cbn [Bool.eqb]| |];
      match goal with
      | |- _ = round_half_even (2 * (5 * m + 2)) 10 =>
          replace (2 * (5 * m + 2)) with (10 * m + 4) by ring
      | |- _ = round_half_even (2 * (5 * m + 2 + 1)) 10 =>
          replace (2 * (5 * m + 2 + 1)) with (10 * m + 6) by ring
      end; rewrite round_half_even_split by lia; reflexivity.
  - replace (2 * (2 * (3 * D + r)) ?= 10 * D) with Gt by (symmetry; apply Z.compare_gt_iff; lia).
    destruct (2 * r ?= D); [destruct (Z.even (5 * m + 3))| |];
      match goal with
      | |- _ = round_half_even (2 * (5 * m + 3)) 10 =>
          replace (2 * (5 * m + 3)) with (10 * m + 6) by ring
      | |- _ = round_half_even (2 * (5 * m + 3 + 1)) 10 =>
          replace (2 * (5 * m + 3 + 1)) with (10 * m + 8) by ring
      end; rewrite round_half_even_split by lia; reflexivity.
  - replace (2 * (2 * (4 * D + r)) ?= 10 * D) with Gt by (symmetry; apply Z.compare_gt_iff; lia).
    destruct (2 * r ?= D); [destruct (Z.even (5 * m + 4))| |];
      match goal with
      | |- _ = round_half_even (2 * (5 * m + 4)) 10 =>
          replace (2 * (5 * m + 4)) with (10 * m + 8) by ring
      | |- _ = round_half_even (2 * (5 * m + 4 + 1)) 10 =>
          replace (2 * (5 * m + 4 + 1)) with (10 * (m + 1) + 0) by ring
      end; rewrite round_half_even_split by lia; reflexivity.
Qed.

Lemma round_half_even_zero (d : Z) : 0 < d -> round_half_even 0 d = 0.
Proof. intros Hd. exact (round_half_even_exact 0 d Hd). Qed.

(** A fifth of an amount, to cents, is a fifth of the amount to cents, to
    cents. *)
Lemma quantize_fifth (t : Decimal) :
  quantize 2 (Dmul t (mkDecimal 2 (-1)))
  = quantize 2 (Dmul (quantize 2 t) (mkDecimal 2 (-1))).
Proof.
  destruct t as [c e]. unfold quantize, Dmul. simpl coef. simpl dexp. f_equal.
  change (- (2) <=? -2 + -1) with false. cbn iota.
  change (- (2) - (-2 + -1)) with 1. change (10 ^ 1) with 10.
  destruct (Z.leb_spec (- (2)) (e + -1)) as [H1|H1].
  - rewrite (proj2 (Z.leb_le (- (2)) e)) by lia.
    replace (e + 2) with (Z.succ (e + -1 + 2)) by lia.
    rewrite Z.pow_succ_r by lia.
    replace (c * (10 * 10 ^ (e + -1 + 2)) * 2) with (c * 2 * 10 ^ (e + -1 + 2) * 10) by ring.
    now rewrite round_half_even_exact by lia.
  - destruct (Z.leb_spec (- (2)) e) as [H2|H2].
    + assert (e = -2) by lia. subst e. simpl. f_equal. lia.
    + replace (- (2) - (e + -1)) with (Z.succ (- (2) - e)) by lia.
      rewrite Z.pow_succ_r by lia.
      replace (c * 2) with (2 * c) by ring.
      replace (round_half_even c (10 ^ (- (2) - e)) * 2)
        with (2 * round_half_even c (10 ^ (- (2) - e))) by ring.
      apply round_half_even_fifth. apply Z.pow_pos_nonneg; lia.
Qed.

Lemma booking_number_fresh_with_retry_witness :
  generate_booking_number 1 (Sample.booked pending)
  = Ok (candidate Sample.generator 1, advance Sample.generator (8 * (1 + 1))).
Proof.
  apply (proj1 (proj2 booking_number_fresh_with_retry) 1%nat (Sample.booked pending) 1%nat).
  - lia.
  - intros i Hi. destruct i; [vm_compute; reflexivity | lia].
  - vm_compute; reflexivity.
Defined.

(** ** Amounts at creation *)

Lemma quantize_zero (t : Decimal) : coef t = 0 -> quantize 2 t = mkDecimal 0 (-2).
Proof.
  intros H. unfold quantize. rewrite H. f_equal.
  destruct (Z.leb_spec (- (2)) (dexp t)); [reflexivity|].
  apply round_half_even_zero. apply Z.pow_pos_nonneg; lia.
Qed.

(** C5.  For every booking created through the create endpoint, the
    deposit stored (two decimal places) is 0.2 times the total, rounded to
    two decimal places: both for the total as computed and for the total as
    stored. *)
Theorem deposit_is_fifth_of_total (fuel : nat) (now : datetime) (user : positive)
  (d : CreateData) (w w' : World) (r : Response) :
  BookingListView_create fuel now user d w = Ok (r, w') ->
  exists b pk row t,
    data r = Some b /\ id b = Some pk /\ bookings w' !! pk = Some row
    /\ total_amount b = Some t
    /\ total_amount row = Some (quantize 2 t)
    /\ deposit_amount row = quantize 2 (Dmul t (mkDecimal 2 (-1)))
    /\ deposit_amount row = quantize 2 (Dmul (quantize 2 t) (mkDecimal 2 (-1))).
Proof.
  intros H.
  apply create_inversion in H as (vehicle_pk & v & number & g & b & _ & _ & _ & Eb & -> & ->).
  set (pk := fresh (dom (bookings w))) in *.
  assert (Et : exists t, total_amount b = Some t
                         /\ to_column (deposit_amount b) = quantize 2 (Dmul t (mkDecimal 2 (-1)))).
  { rewrite Eb. unfold created_instance. cbn [total_amount deposit_amount].
    eexists. split; [reflexivity|]. unfold to_column, Dtruthy.
    destruct (coef (vehicle_daily_rate v) =? 0) eqn:Z0; cbn [negb]; [|reflexivity].
    apply Z.eqb_eq in Z0. rewrite quantize_zero; [reflexivity|].
    unfold Dmul. cbn [coef]. rewrite Z0. reflexivity. }
  destruct Et as (t & Et & Ed).
  exists b, pk, (to_row b), t.
  split; [reflexivity|]. split; [rewrite Eb; reflexivity|].
  split; [apply lookup_insert_eq|]. split; [exact Et|].
  assert (Er : total_amount (to_row b) = Some (quantize 2 t)).
  { unfold to_row. cbn [total_amount set_daily_rate set_total_amount]. rewrite Et.
    reflexivity. }
  assert (Edr : deposit_amount (to_row b) = to_column (deposit_amount b)) by reflexivity.
  split; [exact Er|]. rewrite Edr, Ed. split; [reflexivity | apply quantize_fifth].
Qed.

Lemma deposit_is_fifth_of_total_witness :
  exists b pk row t,
    data (mkResponse 201 true "Booking created successfully"
            (Some (created_instance Sample.day 7 1 Sample.car "4BIPW3AH" 1
                     (mkCreateData 1 (10 * Sample.day) (12 * Sample.day)
                        initial_unusable None None None)))) = Some b
    /\ id b = Some pk
    /\ bookings (set_bookings
                   {[ 1%positive :=
                        to_row (created_instance Sample.day 7 1 Sample.car "4BIPW3AH" 1
                                  (mkCreateData 1 (10 * Sample.day) (12 * Sample.day)
                                     initial_unusable None None None)) ]}
                   (set_random (advance Sample.generator 8) Sample.fleet)) !! pk = Some row
    /\ total_amount b = Some t
    /\ total_amount row = Some (quantize 2 t)
    /\ deposit_amount row = quantize 2 (Dmul t (mkDecimal 2 (-1)))
    /\ deposit_amount row = quantize 2 (Dmul (quantize 2 t) (mkDecimal 2 (-1))).
Proof.
  apply (deposit_is_fifth_of_total 1 Sample.day 7
           (mkCreateData 1 (10 * Sample.day) (12 * Sample.day) initial_unusable None None None)
           Sample.fleet).
  vm_compute. reflexivity.
Defined.

(** Spec scenario: 50.00 a day over exactly two days gives a total of
    100.00 and a deposit of 20.00, in status pending. *)
Example two_days_at_50 :
  to_row (created_instance Sample.day 7 1 Sample.car "4BIPW3AH" 1
            (mkCreateData 1 (10 * Sample.day) (12 * Sample.day)
               initial_unusable None None None))
  = mkBooking (Some 1%positive) "4BIPW3AH" 7 1
      (Some (10 * Sample.day)) (Some (12 * Sample.day)) None None
      (Some (mkDecimal 5000 (-2))) (Some (mkDecimal 10000 (-2))) (mkDecimal 2000 (-2))
      pending payment_pending None None (Some Sample.day) (Some Sample.day).
Proof. vm_compute. reflexivity. Qed.

(** ** Updates *)

Lemma Deq_refl (a : Decimal) : Deq a a.
Proof. reflexivity. Qed.

Lemma Deq_zero (a b : Decimal) : coef a = 0 -> coef b = 0 -> Deq a b.
Proof. intros Ha Hb. unfold Deq, Dscaled. rewrite Ha, Hb. reflexivity. Qed.

(** [save] assigns the number, the total, the key and the timestamps, and
    nothing else; a total that is set and not zero is kept. *)
Lemma save_fields (fuel : nat) (now : datetime) (b b' : Booking) (w w' : World) :
  save fuel now b w = Ok (b', w') ->
  total_amount b' = total_amount (with_total b)
  /\ start_date b' = start_date b /\ end_date b' = end_date b
  /\ daily_rate b' = daily_rate b /\ deposit_amount b' = deposit_amount b
  /\ status b' = status b /\ notes b' = notes b
  /\ vehicle b' = vehicle b /\ customer b' = customer b
  /\ (forall pk, id b = Some pk ->
        id b' = Some pk /\ bookings w' = <[pk := to_row b']> (bookings w)).
Proof.
  unfold save.
  destruct (bool_decide (booking_number b = EmptyString)); cbn [negb bind].
  - destruct (generate_booking_number fuel w) as [[number g]| |]; cbn [bind];
      try discriminate.
    destruct b as [i n c v s e pl rl dr ta da st ps nt cr ca ua].
    unfold super_save, with_total.
    cbn [id set_updated_at total_amount set_booking_number set_total_amount].
    destruct (amount_truthy ta), i;
      intros H; cbv beta iota in H; injection H as <- <-;
      do 9 (split; [reflexivity|]); intros pk E; try discriminate;
      injection E as <-; split; reflexivity.
  - destruct b as [i n c v s e pl rl dr ta da st ps nt cr ca ua].
    unfold super_save, with_total.
    cbn [id set_updated_at total_amount set_booking_number set_total_amount].
    destruct (amount_truthy ta), i;
      intros H; cbv beta iota in H; injection H as <- <-;
      do 9 (split; [reflexivity|]); intros pk E; try discriminate;
      injection E as <-; split; reflexivity.
Qed.

Lemma update_is_valid_ok (now : datetime) (partial : bool) (instance : Booking)
  (d d' : UpdateData) :
  update_is_valid now partial instance d = Ok d' -> d' = d.
Proof.
  unfold update_is_valid.
  destruct (supplied _ _ _ ++ supplied _ _ _ ++ supplied _ _ _); [congruence|discriminate].
Qed.

Lemma assign_keeps {A B : Type} (proj : Booking -> B) (field : option A)
  (set : A -> Booking -> Booking) (b : Booking) :
  (forall x b, proj (set x b) = proj b) -> proj (assign field set b) = proj b.
Proof. intros H. destruct field; simpl; auto. Qed.

(** The instance [update] hands to [save]. *)
Lemma update_assigns (fuel : nat) (now : datetime) (instance b' : Booking)
  (u : UpdateData) (w w' : World) :
  update fuel now instance u w = Ok (b', w') ->
  total_amount b' = (if amount_truthy (total_amount instance) then total_amount instance
                     else total_amount b')
  /\ start_date b' = match u_start_date u with
                     | Some t => Some t
                     | None => start_date instance
                     end
  /\ end_date b' = match u_end_date u with
                   | Some t => Some t
                   | None => end_date instance
                   end
  /\ daily_rate b' = daily_rate instance
  /\ status b' = match u_status u with
                 | Some st => st
                 | None => status instance
                 end
  /\ (forall pk, id instance = Some pk ->
        id b' = Some pk /\ bookings w' = <[pk := to_row b']> (bookings w)).
Proof.
  unfold update. intros H. apply save_fields in H.
  destruct H as (Ht & Hs & He & Hr & _ & Hst & _ & _ & _ & Hid).
  rewrite !(assign_keeps start_date) in Hs by reflexivity.
  rewrite !(assign_keeps end_date) in He by reflexivity.
  rewrite !(assign_keeps daily_rate) in Hr by reflexivity.
  split; [|split; [|split; [|split; [|split]]]].
  - unfold with_total in Ht.
    match type of Ht with
    | context [amount_truthy (total_amount ?b6)] =>
        assert (T : total_amount b6 = total_amount instance)
          by (rewrite !(assign_keeps total_amount) by reflexivity; reflexivity);
        rewrite T in Ht
    end.
    destruct (amount_truthy (total_amount instance)); [|reflexivity].
    rewrite Ht. rewrite !(assign_keeps total_amount) by reflexivity. reflexivity.
  - rewrite Hs. unfold assign. destruct (u_start_date u); reflexivity.
  - rewrite He. unfold assign at 1. destruct (u_end_date u); [reflexivity|].
    apply (assign_keeps end_date). reflexivity.
  - rewrite Hr. reflexivity.
  - rewrite Hst. unfold assign at 1. destruct (u_status u); [reflexivity|].
    rewrite !(assign_keeps status) by reflexivity. reflexivity.
  - intros pk E. apply Hid. rewrite !(assign_keeps id) by reflexivity. exact E.
Qed.

Lemma update_inversion (fuel : nat) (now : datetime) (user pk : positive) (partial : bool)
  (u : UpdateData) (w w' : World) (r : Response) (b0 : Booking) :
  get_booking w user pk = Some b0 ->
  BookingDetailView_update fuel now user pk partial u w = Ok (r, w') ->
  exists b', update_is_valid now partial b0 u = Ok u
             /\ update fuel now b0 u w = Ok (b', w')
             /\ r = mkResponse 200 true "Booking updated successfully" (Some b').
Proof.
  intros Hg. unfold BookingDetailView_update. rewrite Hg.
  destruct (update_is_valid now partial b0 u) as [validated| |] eqn:V; cbn [bind];
    try discriminate.
  pose proof (update_is_valid_ok _ _ _ _ _ V) as ->.
  destruct (update fuel now b0 u w) as [[b' w1]| |]; cbn [bind]; try discriminate.
  intros H. injection H as <- <-. exists b'. repeat split.
Qed.

(** The day count of a whole number of hours, up to 31 days, is within
    [10^-14] of the number of hours over 24. *)
Lemma near_hours_all : forallb near_hours (map Z.of_nat (seq 0 744)) = true.
Proof. vm_compute. reflexivity. Qed.

Lemma near_hours_spec (h : Z) :
  0 <= h < 744 ->
  Dnear (Decimal_of_str_float
           (float_add (float_of_int (h * 3600000000 / 86400000000))
                      (int_truediv ((h * 3600000000 mod 86400000000) / 1000000) 86400)))
        h 24.
Proof.
  intros Hh. pose proof near_hours_all as A. rewrite forallb_forall in A.
  assert (I : In h (map Z.of_nat (seq 0 744))).
  { apply in_map_iff. exists (Z.to_nat h). split; [lia|]. apply in_seq. lia. }
  specialize (A h I). unfold near_hours in A. apply andb_true_iff in A as [A1 A2].
  split; [now apply Z.leb_le | now apply Z.leb_le].
Qed.

(** C4 (as the code has it).  (1) At creation the total is the daily rate
    times the day count, and the row holds that total to two decimal
    places.  The day count is the decimal reading [Decimal(str(.))] of the
    float sum of the whole days of the interval and of its remaining whole
    seconds divided by 86400: the fraction of a day is counted, and the
    microseconds are not.  (2) For a whole number of hours, up to 31 days,
    that day count is within [10^-14] of the number of hours over 24.
    (3) A total that is set and not zero is kept by every later update,
    whatever bounds the update assigns. *)
Theorem total_amount_fixed_at_creation :
  (forall (fuel : nat) (now : datetime) (user : positive) (d : CreateData)
          (w w' : World) (r : Response),
      BookingListView_create fuel now user d w = Ok (r, w') ->
      exists b pk row rate t,
        data r = Some b /\ id b = Some pk /\ bookings w' !! pk = Some row
        /\ daily_rate b = Some rate
        /\ total_amount b = Some t
        /\ Deq t (Dmul rate
                    (Decimal_of_str_float
                       (float_add
                          (float_of_int ((c_end_date d - c_start_date d) / 86400000000))
                          (int_truediv
                             (((c_end_date d - c_start_date d) mod 86400000000) / 1000000)
                             86400))))
        /\ total_amount row = Some (quantize 2 t))
  /\ (forall h : Z,
        0 <= h < 744 ->
        Dnear (Decimal_of_str_float
                 (float_add (float_of_int (h * 3600000000 / 86400000000))
                            (int_truediv ((h * 3600000000 mod 86400000000) / 1000000)
                                         86400)))
              h 24)
  /\ (forall (fuel : nat) (now : datetime) (user pk : positive) (partial : bool)
             (u : UpdateData) (w w' : World) (r : Response) (b0 : Booking) (t0 : Decimal),
        get_booking w user pk = Some b0 ->
        total_amount b0 = Some t0 -> Dtruthy t0 = true ->
        BookingDetailView_update fuel now user pk partial u w = Ok (r, w') ->
        exists b',
          data r = Some b'
          /\ total_amount b' = Some t0
          /\ start_date b' = match u_start_date u with
                             | Some t => Some t
                             | None => start_date b0
                             end
          /\ end_date b' = match u_end_date u with
                           | Some t => Some t
                           | None => end_date b0
                           end
          /\ daily_rate b' = daily_rate b0).
Proof.
  split; [|split].
  - intros fuel now user d w w' r H.
    apply create_inversion in H
        as (vehicle_pk & v & number & g & b & _ & _ & _ & Eb & -> & ->).
    exists b, (fresh (dom (bookings w))), (to_row b), (vehicle_daily_rate v).
    rewrite Eb. unfold created_instance. cbn [data id daily_rate total_amount].
    eexists. split; [reflexivity|]. split; [reflexivity|].
    split; [apply lookup_insert_eq|]. split; [reflexivity|]. split; [reflexivity|].
    split; [|reflexivity].
    unfold Dtruthy. destruct (coef (vehicle_daily_rate v) =? 0) eqn:Z0; cbn [negb].
    + apply Z.eqb_eq in Z0. apply Deq_zero; [reflexivity|].
      unfold Dmul. cbn [coef]. rewrite Z0. reflexivity.
    + apply Deq_refl.
  - exact near_hours_spec.
  - intros fuel now user pk partial u w w' r b0 t0 Hg Ht Htr H.
    apply (update_inversion _ _ _ _ _ _ _ _ _ _ Hg) in H as (b' & _ & Hu & ->).
    apply update_assigns in Hu as (E1 & E2 & E3 & E4 & _).
    exists b'. split; [reflexivity|].
    rewrite Ht in E1. cbn [amount_truthy] in E1. rewrite Htr in E1. auto.
Qed.

(** A day and a half at 50.00 is created with the total 75.000, stored as
    75.00 (a whole-day count would give 50.00); 36 hours count as a day
    count within [10^-14] of 36/24; and 75.00 is kept when the end is
    moved to two days and three quarters. *)
Lemma total_amount_fixed_at_creation_witness :
  (exists b pk row rate t,
      data (mkResponse 201 true "Booking created successfully"
              (Some (created_instance Sample.day 7 1 Sample.car "4BIPW3AH" 1
                       Fixture.short_request))) = Some b
      /\ id b = Some pk /\ bookings Fixture.short_booked !! pk = Some row
      /\ daily_rate b = Some rate
      /\ total_amount b = Some t
      /\ Deq t (Dmul rate
                  (Decimal_of_str_float
                     (float_add
                        (float_of_int
                           ((c_end_date Fixture.short_request
                             - c_start_date Fixture.short_request) / 86400000000))
                        (int_truediv
                           (((c_end_date Fixture.short_request
                              - c_start_date Fixture.short_request) mod 86400000000)
                            / 1000000)
                           86400))))
      /\ total_amount row = Some (quantize 2 t))
  /\ Dnear (Decimal_of_str_float
              (float_add (float_of_int (36 * 3600000000 / 86400000000))
                         (int_truediv ((36 * 3600000000 mod 86400000000) / 1000000)
                                      86400)))
           36 24
  /\ (exists b',
        data (mkResponse 200 true "Booking updated successfully"
                (Some (set_updated_at (Some (2 * Sample.day))
                         (set_end_date (Some (10 * Sample.day + 66 * Sample.hour))
                            (to_row (created_instance Sample.day 7 1 Sample.car
                                       "4BIPW3AH" 1 Fixture.short_request))))))
        = Some b'
        /\ total_amount b' = Some (mkDecimal 7500 (-2))
        /\ start_date b' = Some (10 * Sample.day)
        /\ end_date b' = Some (10 * Sample.day + 66 * Sample.hour)
        /\ daily_rate b' = Some (mkDecimal 5000 (-2))).
Proof.
  split; [|split].
  - apply (proj1 total_amount_fixed_at_creation 1%nat Sample.day 7%positive
             Fixture.short_request Sample.fleet).
    vm_compute. reflexivity.
  - apply (proj1 (proj2 total_amount_fixed_at_creation) 36). lia.
  - apply (proj2 (proj2 total_amount_fixed_at_creation) 1%nat (2 * Sample.day) 7%positive
             1%positive true
             (mkUpdateData None (Some (10 * Sample.day + 66 * Sample.hour)) initial_missing
                None None None None)
             Fixture.short_booked
             (set_bookings
                {[ 1%positive :=
                     to_row (set_updated_at (Some (2 * Sample.day))
                               (set_end_date (Some (10 * Sample.day + 66 * Sample.hour))
                                  (to_row (created_instance Sample.day 7 1 Sample.car
                                             "4BIPW3AH" 1 Fixture.short_request)))) ]}
                Fixture.short_booked)
             _
             (to_row (created_instance Sample.day 7 1 Sample.car "4BIPW3AH" 1
                        Fixture.short_request))
             (mkDecimal 7500 (-2))).
    + vm_compute. reflexivity.
    + vm_compute. reflexivity.
    + reflexivity.
    + vm_compute. reflexivity.
Defined.

(** C4 as stated fails on an update: a booking of a day and a half at 50.00
    is created (total 75.00), its end is moved to two days and three
    quarters, and the row still holds 75.00 while the rate times the new
    day count is 137.50. *)
Lemma total_amount_stale_after_update :
  Sample.stretched_run
  = Some (Some (10 * Sample.day), Some (10 * Sample.day + 66 * Sample.hour),
          Some (mkDecimal 7500 (-2)), mkDecimal 1375000 (-4))
  /\ ~ Deq (mkDecimal 7500 (-2)) (mkDecimal 1375000 (-4)).
Proof.
  split; [vm_compute; reflexivity|]. unfold Deq, Dscaled. simpl. discriminate.
Qed.

(** At creation the day count is a decimal reading of a float: eight hours
    count as 0.3333333333333333 of a day, not as a third. *)
Example eight_hours :
  Decimal_of_str_float (days_float (datetime_sub (8 * Sample.hour) 0))
  = mkDecimal 3333333333333333 (-16).
Proof. vm_compute. reflexivity. Qed.

Example one_second :
  Decimal_of_str_float (days_float (datetime_sub 1000000 0))
  = mkDecimal 11574074074074073 (-21).
Proof. vm_compute. reflexivity. Qed.

Example a_day_and_a_half :
  Decimal_of_str_float (days_float (datetime_sub (36 * Sample.hour) 0))
  = mkDecimal 15 (-1).
Proof. vm_compute. reflexivity. Qed.

(** C6: the update endpoint does not run the overlap check.  With days
    [10, 12) and [12, 14) of vehicle 1 booked (both pending), moving the
    start of the second booking to day 11 is accepted and the store then
    holds two overlapping holding bookings of the vehicle; the create
    endpoint rejects the same interval. *)
Theorem update_skips_overlap_check :
  Sample.moved_run
  = Some (200,
          Some (10 * Sample.day, 12 * Sample.day, pending, 1%positive),
          Some (11 * Sample.day, 14 * Sample.day, pending, 1%positive))
  /\ overlap_filter 1 (11 * Sample.day) (14 * Sample.day)
       (Sample.row 1 "4BIPW3AH" (10 * Sample.day) (12 * Sample.day) pending) = true
  /\ BookingListView_create 1 Sample.day 7
       (mkCreateData 1 (11 * Sample.day) (14 * Sample.day)
          (initial_datetime (11 * Sample.day)) None None None)
       (Sample.booked pending)
     = Raise (ValidationError
                ["This vehicle is already booked for the selected dates."%string]).
Proof. repeat split; vm_compute; reflexivity. Qed.

(** C7: the status check of the update serializer runs only for a request
    that carries [status].  (1) For a completed or cancelled booking such a
    request is rejected and nothing is stored.  (2) A request that only
    carries notes is accepted for a cancelled and for a completed booking,
    and the stored notes change. *)
Theorem update_of_closed_booking :
  (forall (fuel : nat) (now : datetime) (user pk : positive) (partial : bool)
          (u : UpdateData) (w : World) (b0 : Booking) (st : Status),
      get_booking w user pk = Some b0 ->
      status b0 = completed \/ status b0 = cancelled ->
      u_status u = Some st ->
      exists msgs, BookingDetailView_update fuel now user pk partial u w
                   = Raise (ValidationError msgs)
                   /\ In "Cannot modify completed or cancelled bookings."%string msgs)
  /\ Sample.annotated_run cancelled = Some (200, cancelled, Some "late change"%string)
  /\ Sample.annotated_run completed = Some (200, completed, Some "late change"%string)
  /\ notes (Sample.row 1 "4BIPW3AH" (10 * Sample.day) (12 * Sample.day) cancelled) = None.
Proof.
  split; [|repeat split; vm_compute; reflexivity].
  intros fuel now user pk partial u w b0 st Hg Hst Hu.
  unfold BookingDetailView_update. rewrite Hg. unfold update_is_valid.
  rewrite Hu. cbn [supplied]. unfold validate_status.
  rewrite (proj2 (in_completed_cancelled (status b0)) Hst). cbn [errors_of].
  destruct (supplied (negb partial) (u_start_date u) (validate_start_date now))
    as [|m1 l1];
    destruct (supplied (negb partial) (u_end_date u)
                (validate_end_date (u_initial_start_date u))) as [|m2 l2];
    cbn [app bind]; eexists; (split; [reflexivity|]);
    repeat first [left; reflexivity | right | apply in_or_app].
Qed.

(* ===================================================================== *)
(** * Further properties of the booking code                              *)
(* ===================================================================== *)

(** ** Validation of a create request *)

Lemma validate_vehicle_id_cases (w : World) (value : Z) :
  (get_vehicle w value = None
   /\ errors_of (validate_vehicle_id w value) = ["Vehicle not found."%string])
  \/ (exists v, get_vehicle w value = Some v /\ is_available v = false
      /\ errors_of (validate_vehicle_id w value)
         = ["This vehicle is not available for booking."%string])
  \/ (exists v, get_vehicle w value = Some v /\ is_available v = true
      /\ errors_of (validate_vehicle_id w value) = []).
Proof.
  unfold validate_vehicle_id. destruct (get_vehicle w value) as [v|]; [|left; auto].
  right. destruct (is_available v) eqn:E; [right | left]; exists v; auto.
Qed.

Lemma validate_start_date_cases (now value : datetime) :
  (value <= now
   /\ errors_of (validate_start_date now value) = ["Start date must be in the future."%string])
  \/ (now < value /\ errors_of (validate_start_date now value) = []).
Proof.
  unfold validate_start_date. destruct (Z.leb_spec value now); [left | right]; auto.
Qed.

Lemma validate_end_date_cases (initial : InitialStart) (value : datetime) :
  ((exists s, initial = initial_datetime s /\ value <= s)
   /\ errors_of (validate_end_date initial value)
      = ["End date must be after start date."%string])
  \/ ((forall s, initial = initial_datetime s -> s < value)
      /\ errors_of (validate_end_date initial value) = []).
Proof.
  unfold validate_end_date. destruct initial as [| |s].
  - right. split; [intros s H; discriminate | reflexivity].
  - right. split; [intros s H; discriminate | reflexivity].
  - destruct (Z.leb_spec value s); [left | right].
    + split; [eauto | reflexivity].
    + split; [intros s' H'; injection H' as <-; assumption | reflexivity].
Qed.

Lemma no_overlap_iff (w : World) (vehicle_id : Z) (s e : datetime) :
  overlapping_bookings_exist w vehicle_id s e = false
  <-> forall pk b bs be,
        bookings w !! pk = Some b -> Zpos (vehicle b) = vehicle_id ->
        status b = pending \/ status b = confirmed \/ status b = active ->
        start_date b = Some bs -> end_date b = Some be ->
        be <= s \/ e <= bs.
Proof.
  split.
  - intros H pk b bs be Hb Hv Hst Hs He.
    destruct (Z.le_gt_cases be s) as [?|G1]; [left; assumption|].
    destruct (Z.le_gt_cases e bs) as [?|G2]; [right; assumption|].
    exfalso. apply not_true_iff_false in H. apply H.
    apply overlapping_bookings_exist_spec. exists pk, b. split; [exact Hb|].
    apply overlap_filter_spec. split; [exact Hv|]. split; [exact Hst|].
    exists bs, be. auto.
  - intros H. apply not_true_iff_false. intros Hex.
    apply overlapping_bookings_exist_spec in Hex as (pk & b & Hb & Hf).
    apply overlap_filter_spec in Hf as (Hv & Hst & bs & be & Hs & He & H1 & H2).
    specialize (H pk b bs be Hb Hv Hst Hs He). lia.
Qed.

Lemma create_is_valid_spec (w : World) (now : datetime) (d : CreateData) :
  create_is_valid w now d = Ok d
  <-> (exists v, get_vehicle w (c_vehicle_id d) = Some v /\ is_available v = true)
      /\ now < c_start_date d
      /\ (forall s, c_initial_start_date d = initial_datetime s -> s < c_end_date d)
      /\ (forall pk b bs be,
            bookings w !! pk = Some b -> Zpos (vehicle b) = c_vehicle_id d ->
            status b = pending \/ status b = confirmed \/ status b = active ->
            start_date b = Some bs -> end_date b = Some be ->
            be <= c_start_date d \/ c_end_date d <= bs).
Proof.
  rewrite <- no_overlap_iff. unfold create_is_valid.
  destruct (validate_vehicle_id_cases w (c_vehicle_id d))
    as [[Hv ->] | [(v & Hv & Ha & ->) | (v & Hv & Ha & ->)]];
    destruct (validate_start_date_cases now (c_start_date d)) as [[Hs ->] | [Hs ->]];
    destruct (validate_end_date_cases (c_initial_start_date d) (c_end_date d))
      as [[(s0 & Hi & He) ->] | [He ->]];
    cbn [app];
    try (split; [discriminate|];
         intros ((v' & Hv' & Ha') & Hs' & He' & _);
         first [ congruence | lia | specialize (He' s0 Hi); lia ]).
  unfold validate.
  assert (Hnz : negb (c_vehicle_id d =? 0) = true).
  { unfold get_vehicle in Hv. destruct (c_vehicle_id d); [discriminate|reflexivity|discriminate]. }
  rewrite Hnz.
  destruct (overlapping_bookings_exist w (c_vehicle_id d) (c_start_date d) (c_end_date d)).
  - split; [discriminate | intros (_ & _ & _ & H); discriminate].
  - split; [intros _ | reflexivity]. eauto 10.
Qed.

(** X1.  A create request passes validation exactly when its vehicle
    exists and is available, its start is strictly after the clock, its end
    is strictly after the raw start date whenever that one is usable, and no
    holding booking of the vehicle overlaps its interval. *)
Theorem create_is_valid_iff (w : World) (now : datetime) (d : CreateData) :
  create_is_valid w now d = Ok d
  <-> (exists v, get_vehicle w (c_vehicle_id d) = Some v /\ is_available v = true)
      /\ now < c_start_date d
      /\ (forall s, c_initial_start_date d = initial_datetime s -> s < c_end_date d)
      /\ (forall pk b bs be,
            bookings w !! pk = Some b -> Zpos (vehicle b) = c_vehicle_id d ->
            status b = pending \/ status b = confirmed \/ status b = active ->
            start_date b = Some bs -> end_date b = Some be ->
            be <= c_start_date d \/ c_end_date d <= bs).
Proof. apply create_is_valid_spec. Qed.

(** X2.  A rejected create request reports every field that fails, and the
    booking conflict only when no field fails: each message is in the error
    list exactly when its check fails. *)
Theorem create_errors_complete (w : World) (now : datetime) (d : CreateData)
  (msgs : list string) :
  create_is_valid w now d = Raise (ValidationError msgs) ->
  (In "Vehicle not found."%string msgs <-> get_vehicle w (c_vehicle_id d) = None)
  /\ (In "This vehicle is not available for booking."%string msgs
      <-> exists v, get_vehicle w (c_vehicle_id d) = Some v /\ is_available v = false)
  /\ (In "Start date must be in the future."%string msgs <-> c_start_date d <= now)
  /\ (In "End date must be after start date."%string msgs
      <-> exists s, c_initial_start_date d = initial_datetime s /\ c_end_date d <= s)
  /\ (In "This vehicle is already booked for the selected dates."%string msgs
      <-> (exists v, get_vehicle w (c_vehicle_id d) = Some v /\ is_available v = true)
          /\ now < c_start_date d
          /\ (forall s, c_initial_start_date d = initial_datetime s -> s < c_end_date d)).
Proof.
  intros H. unfold create_is_valid in H.
  destruct (validate_vehicle_id_cases w (c_vehicle_id d))
    as [[Hv Ev] | [(v & Hv & Ha & Ev) | (v & Hv & Ha & Ev)]];
    destruct (validate_start_date_cases now (c_start_date d)) as [[Hs Es] | [Hs Es]];
    destruct (validate_end_date_cases (c_initial_start_date d) (c_end_date d))
      as [[(s0 & Hi & He) Ee] | [He Ee]];
    rewrite Ev, Es, Ee in H; cbn [app] in H;
    try (injection H as <-);
    try (unfold validate in H;
         destruct (negb (c_vehicle_id d =? 0)); [|discriminate H];
         destruct (overlapping_bookings_exist _ _ _ _); [|discriminate H];
         injection H as <-);
    (split; [|split; [|split; [|split]]]); (split; intros K);
    first
      [ assumption
      | solve [eauto]
      | solve [split; [eauto | split; assumption]]
      | solve [cbn [In]; repeat first [left; reflexivity | right]]
      | exfalso; cbn [In] in K;
        repeat (destruct K as [K|K]; [discriminate K|]); exact K
      | exfalso; congruence
      | exfalso; lia
      | exfalso; destruct K as (? & A & B);
        first [ congruence | specialize (He _ A); lia ]
      | exfalso; destruct K as ((? & A & B) & C & D);
        first [ congruence | lia | specialize (D _ Hi); lia ] ].
Qed.

Lemma create_errors_complete_witness :
  (In "Vehicle not found."%string
      ["Vehicle not found."%string; "Start date must be in the future."%string]
   <-> get_vehicle (Sample.booked pending) (c_vehicle_id Fixture.bad_request) = None)
  /\ (In "Start date must be in the future."%string
         ["Vehicle not found."%string; "Start date must be in the future."%string]
      <-> c_start_date Fixture.bad_request <= Sample.day).
Proof.
  pose proof (create_errors_complete (Sample.booked pending) Sample.day Fixture.bad_request
                ["Vehicle not found."%string; "Start date must be in the future."%string]
                eq_refl) as (H1 & _ & H3 & _).
  exact (conj H1 H3).
Defined.

(** ** [Booking.clean] against the serializer *)

(** X3.  [Booking.clean] passes an instance with a missing bound; with
    both bounds set it raises on [end_date] when the end is not after the
    start, else on [start_date] when the start is before the clock, and
    passes otherwise.  It tolerates a start equal to the clock, which
    [validate_start_date] rejects. *)
Theorem clean_iff (b : Booking) (now : datetime) :
  (Cleaning.clean b now = None
   <-> forall s e, start_date b = Some s -> end_date b = Some e -> s < e /\ now <= s)
  /\ (Cleaning.clean b now
      = Some ("end_date"%string, "End date must be after start date."%string)
      <-> exists s e, start_date b = Some s /\ end_date b = Some e /\ e <= s)
  /\ (Cleaning.clean b now
      = Some ("start_date"%string, "Start date cannot be in the past."%string)
      <-> exists s e, start_date b = Some s /\ end_date b = Some e /\ s < e /\ s < now)
  /\ (start_date b = Some now ->
      (forall e, end_date b = Some e -> now < e) ->
      Cleaning.clean b now = None
      /\ validate_start_date now now
         = Raise (ValidationError ["Start date must be in the future."%string])).
Proof.
  unfold Cleaning.clean.
  destruct (start_date b) as [s|], (end_date b) as [e|];
    try (split; [split; [intros _ ? ? ?; discriminate | reflexivity]|];
         split; [split; [discriminate | intros (? & ? & ? & ? & ?); discriminate]|];
         split; [split; [discriminate | intros (? & ? & ? & ? & ?); discriminate]|];
         intros ?; discriminate).
  - destruct (Z.leb_spec e s) as [L|L]; [|destruct (Z.ltb_spec s now) as [P|P]].
    + split; [split; [discriminate | intros H; specialize (H s e eq_refl eq_refl); lia]|].
      split; [split; [eauto | reflexivity]|].
      split; [split; [discriminate | intros (? & ? & E1 & E2 & ? & ?)]|].
      * injection E1 as <-. injection E2 as <-. lia.
      * intros E1 H. injection E1 as ->. specialize (H e eq_refl). lia.
    + split; [split; [discriminate | intros H; specialize (H s e eq_refl eq_refl); lia]|].
      split; [split; [discriminate | intros (? & ? & E1 & E2 & ?)]|].
      * injection E1 as <-. injection E2 as <-. lia.
      * split; [split; [eauto 10 | reflexivity]|].
        intros E1 H. injection E1 as ->. lia.
    + split; [split; [intros _ ? ? E1 E2; injection E1 as <-; injection E2 as <-; lia
                     | reflexivity]|].
      split; [split; [discriminate | intros (? & ? & E1 & E2 & ?)]|].
      * injection E1 as <-. injection E2 as <-. lia.
      * split; [split; [discriminate | intros (? & ? & E1 & E2 & ? & ?)]|].
        -- injection E1 as <-. injection E2 as <-. lia.
        -- intros _ _. split; [reflexivity|].
           unfold validate_start_date. now rewrite Z.leb_refl.
  - split; [split; [intros _ ? ? ? E; discriminate E | reflexivity]|].
    split; [split; [discriminate | intros (? & ? & ? & E & ?); discriminate E]|].
    split; [split; [discriminate | intros (? & ? & ? & E & ?); discriminate E]|].
    intros _ _. split; [reflexivity|].
    unfold validate_start_date. now rewrite Z.leb_refl.
Qed.

(** What a valid create request does, given the number generated. *)
Lemma create_forward (fuel : nat) (now : datetime) (user vehicle_pk : positive)
  (d : CreateData) (w : World) (v : Vehicle) (number : string) (g : Random) :
  create_is_valid w now d = Ok d ->
  c_vehicle_id d = Zpos vehicle_pk -> vehicles w !! vehicle_pk = Some v ->
  generate_booking_number fuel w = Ok (number, g) ->
  BookingListView_create fuel now user d w
  = Ok (mkResponse 201 true "Booking created successfully"
          (Some (created_instance now user vehicle_pk v number
                   (fresh (dom (bookings w))) d)),
        set_bookings
          (<[fresh (dom (bookings w)) :=
               to_row (created_instance now user vehicle_pk v number
                         (fresh (dom (bookings w))) d)]> (bookings w))
          (set_random g w)).
Proof.
  intros V Ev Hv Hg. unfold BookingListView_create. rewrite V. cbn [bind].
  unfold create, get_vehicle. rewrite Ev, Hv. unfold save.
  cbn [booking_number bool_decide decide_rel]. 
  rewrite bool_decide_eq_true_2 by reflexivity. cbn [negb bind].
  rewrite Hg. cbn [bind]. reflexivity.
Qed.

(** X4.  A create request whose raw start date is the start date it
    carries and which passes validation gives an instance that passes
    [Booking.clean]: the serializer is at least as strict as the model. *)
Theorem validated_request_is_clean (w : World) (now : datetime) (d : CreateData)
  (user vehicle_pk pk : positive) (v : Vehicle) (number : string) :
  c_initial_start_date d = initial_datetime (c_start_date d) ->
  create_is_valid w now d = Ok d ->
  Cleaning.clean (created_instance now user vehicle_pk v number pk d) now = None.
Proof.
  intros Hi V. apply create_is_valid_spec in V as (_ & Hs & He & _).
  specialize (He _ Hi). unfold Cleaning.clean, created_instance.
  cbn [start_date end_date].
  rewrite (proj2 (Z.leb_gt _ _)) by lia. rewrite (proj2 (Z.ltb_ge _ _)) by lia.
  reflexivity.
Qed.

Lemma validated_request_is_clean_witness :
  Cleaning.clean
    (created_instance Sample.day 7 1 Sample.car "ABCDEFGH" 5 Fixture.request) Sample.day
  = None.
Proof.
  apply (validated_request_is_clean (Sample.booked pending) Sample.day Fixture.request
           7 1 5 Sample.car "ABCDEFGH" eq_refl).
  vm_compute. reflexivity.
Defined.

(** X5.  When the raw start date is missing or unusable, the end date is
    not compared with anything: a request whose end is at or before its
    start passes validation (its other checks passing), the booking is
    created with these bounds (its amounts, zero or negative, passing the
    ten-digit test of their columns), and [Booking.clean], which [save]
    does not call, would reject it. *)
Theorem end_before_start_accepted (fuel : nat) (now : datetime) (user vehicle_pk : positive)
  (d : CreateData) (w : World) (v : Vehicle) (number : string) (g : Random) :
  c_initial_start_date d = initial_missing \/ c_initial_start_date d = initial_unusable ->
  c_end_date d <= c_start_date d ->
  c_vehicle_id d = Zpos vehicle_pk -> vehicles w !! vehicle_pk = Some v ->
  is_available v = true -> now < c_start_date d ->
  overlapping_bookings_exist w (c_vehicle_id d) (c_start_date d) (c_end_date d) = false ->
  generate_booking_number fuel w = Ok (number, g) ->
  amounts_fit (created_instance now user vehicle_pk v number (fresh (dom (bookings w))) d)
  = true ->
  exists b w',
    BookingListView_create fuel now user d w
    = Ok (mkResponse 201 true "Booking created successfully" (Some b), w')
    /\ bookings w' !! fresh (dom (bookings w)) = Some (to_row b)
    /\ start_date b = Some (c_start_date d) /\ end_date b = Some (c_end_date d)
    /\ Cleaning.clean b now
       = Some ("end_date"%string, "End date must be after start date."%string).
Proof.
  intros Hi Hle Ev Hv Ha Hs Ho Hg _.
  assert (V : create_is_valid w now d = Ok d).
  { apply create_is_valid_spec. split; [|split; [exact Hs|split]].
    - exists v. unfold get_vehicle. rewrite Ev. auto.
    - intros s E. destruct Hi as [Hi|Hi]; rewrite Hi in E; discriminate E.
    - now apply no_overlap_iff. }
  eexists. eexists. split; [exact (create_forward _ _ _ _ _ _ _ _ _ V Ev Hv Hg)|].
  split; [apply lookup_insert_eq|]. split; [reflexivity|]. split; [reflexivity|].
  unfold Cleaning.clean, created_instance. cbn [start_date end_date].
  rewrite (proj2 (Z.leb_le _ _)) by lia. reflexivity.
Qed.

Lemma end_before_start_accepted_witness :
  exists b w',
    BookingListView_create 1 Sample.day 7 Fixture.backwards_request Sample.fleet
    = Ok (mkResponse 201 true "Booking created successfully" (Some b), w')
    /\ bookings w' !! fresh (dom (bookings Sample.fleet)) = Some (to_row b)
    /\ start_date b = Some (c_start_date Fixture.backwards_request)
    /\ end_date b = Some (c_end_date Fixture.backwards_request)
    /\ Cleaning.clean b Sample.day
       = Some ("end_date"%string, "End date must be after start date."%string).
Proof.
  apply (end_before_start_accepted 1 Sample.day 7 1 Fixture.backwards_request
           Sample.fleet Sample.car "4BIPW3AH" (advance Sample.generator 8)
           (or_intror eq_refl));
    first [reflexivity | vm_compute; reflexivity | vm_compute; discriminate].
Defined.

(** ** Derived predicates *)

(** X6.  [is_active] holds exactly when the status is active and the clock
    lies within [start, end] (bounds included); a booking that is active
    is neither upcoming nor cancellable, and no booking is both completed
    and cancelled. *)
Theorem is_active_iff (b : Booking) (now : datetime) :
  (is_active b now = Ok true
   <-> status b = active
       /\ exists s e, start_date b = Some s /\ end_date b = Some e /\ s <= now <= e)
  /\ (is_active b now = Ok true ->
      is_upcoming b now = Ok false /\ can_cancel b now = Ok false)
  /\ (is_completed b && is_cancelled b = false).
Proof.
  assert (A : is_active b now = Ok true
   <-> status b = active
       /\ exists s e, start_date b = Some s /\ end_date b = Some e /\ s <= now <= e).
  { unfold is_active, attr_le, attr_ge.
    destruct (bool_decide (status b = active)) eqn:E.
    - apply bool_decide_eq_true in E.
      destruct (start_date b) as [s|]; cbn [bind].
      + destruct (Z.leb_spec s now) as [L|L].
        * destruct (end_date b) as [e|].
          -- split.
             ++ intros H. injection H as H. apply Z.leb_le in H. eauto 10.
             ++ intros (_ & s' & e' & E1 & E2 & ? & ?).
                injection E1 as <-. injection E2 as <-. f_equal. apply Z.leb_le. lia.
          -- split; [discriminate | intros (_ & ? & ? & _ & E2 & _); discriminate E2].
        * split; [discriminate|]. intros (_ & s' & e' & E1 & E2 & ? & ?).
          injection E1 as <-. lia.
      + split; [discriminate | intros (_ & ? & ? & E1 & _); discriminate E1].
    - apply bool_decide_eq_false in E.
      split; [discriminate | intros [H _]; contradiction]. }
  split; [exact A|]. split.
  - intros H. apply A in H as [Hst _]. unfold is_upcoming, can_cancel.
    rewrite bool_decide_eq_false_2; [auto|].
    rewrite Hst. rewrite !elem_of_cons, elem_of_nil. intros [?|[?|[]]]; discriminate.
  - unfold is_completed, is_cancelled. destruct (status b); reflexivity.
Qed.

(** ** The store under the endpoints *)

Lemma quantize_quantize (d : Decimal) : quantize 2 (quantize 2 d) = quantize 2 d.
Proof.
  unfold quantize at 1. cbn [dexp coef quantize].
  change (- (2) <=? - (2)) with true. cbn iota.
  change (- (2) + 2) with 0. rewrite Z.pow_0_r, Z.mul_1_r. reflexivity.
Qed.

(** Writing back a row that was written changes nothing. *)
Lemma to_row_to_row (b : Booking) : to_row (to_row b) = to_row b.
Proof.
  destruct b as [i n c v s e pl rl dr ta da st ps nt cr ca ua].
  unfold to_row, to_column.
  cbn [daily_rate total_amount deposit_amount set_daily_rate set_total_amount
       set_deposit_amount id booking_number customer vehicle start_date end_date
       pickup_location return_location status payment_status notes
       cancellation_reason created_at updated_at].
  rewrite quantize_quantize.
  destruct dr, ta; cbn [fmap option_fmap option_map]; rewrite ?quantize_quantize;
    reflexivity.
Qed.

Lemma with_total_amounts (b : Booking) :
  daily_rate (with_total b) = daily_rate b
  /\ deposit_amount (with_total b) = deposit_amount b
  /\ payment_status (with_total b) = payment_status b
  /\ created_at (with_total b) = created_at b
  /\ pickup_location (with_total b) = pickup_location b
  /\ return_location (with_total b) = return_location b
  /\ is_Some (total_amount (with_total b))
  /\ (amount_truthy (total_amount b) = true -> with_total b = b).
Proof.
  unfold with_total. destruct (amount_truthy (total_amount b)) eqn:E.
  - repeat split; try reflexivity.
    destruct (total_amount b); [eauto | discriminate E].
  - repeat split; try reflexivity; [cbn [total_amount set_total_amount]; eauto|].
    discriminate.
Qed.

(** [save] of a stored instance. *)
Lemma save_stored (fuel : nat) (now : datetime) (b : Booking) (w : World) (pk : positive) :
  id b = Some pk -> booking_number b <> EmptyString ->
  save fuel now b w
  = Ok (set_updated_at (Some now) (with_total b),
        set_bookings (<[pk := to_row (set_updated_at (Some now) (with_total b))]>
                        (bookings w)) w).
Proof.
  intros Hid Hnum. rewrite save_numbered by exact Hnum.
  rewrite (super_save_existing now (with_total b) w pk); [reflexivity|].
  destruct (with_total_fields b) as (E & _). rewrite E. exact Hid.
Qed.

(** The row written for a saved instance is well formed when the instance
    has its key, its number, its bounds and its rate. *)
Lemma saved_row_ok (now : datetime) (b : Booking) (pk : positive) :
  id b = Some pk -> booking_number b <> EmptyString ->
  is_Some (start_date b) -> is_Some (end_date b) -> is_Some (daily_rate b) ->
  row_ok pk (to_row (set_updated_at (Some now) (with_total b))).
Proof.
  intros Hid Hnum Hs He Hr.
  destruct (with_total_fields b) as (Ei & _ & _ & En & Es & Ee & _).
  destruct (with_total_amounts b) as (Er & _ & _ & _ & _ & _ & Ht & _).
  unfold row_ok. rewrite to_row_to_row.
  unfold to_row.
  cbn [id booking_number start_date end_date daily_rate total_amount
       set_daily_rate set_total_amount set_deposit_amount set_updated_at].
  rewrite Ei, En, Es, Ee, Er.
  repeat split; try assumption.
  - destruct Hr as [r ->]. cbn. eauto.
  - destruct Ht as [t ->]. cbn. eauto.
Qed.

Lemma store_ok_insert (w : World) (pk : positive) (row : Booking) :
  store_ok w -> row_ok pk row ->
  store_ok (set_bookings (<[pk := row]> (bookings w)) w).
Proof.
  intros Hw Hr k b. cbn [bookings set_bookings]. intros H.
  apply lookup_insert_Some in H as [[<- <-]|[_ H]]; [exact Hr | exact (Hw k b H)].
Qed.

Lemma get_booking_Some (w : World) (user pk : positive) (b : Booking) :
  get_booking w user pk = Some b <-> bookings w !! pk = Some b /\ customer b = user.
Proof.
  unfold get_booking. destruct (bookings w !! pk) as [x|].
  - destruct (bool_decide (customer x = user)) eqn:E.
    + apply bool_decide_eq_true in E. split.
      * intros H. injection H as <-. auto.
      * intros [H _]. exact H.
    + apply bool_decide_eq_false in E. split; [discriminate|].
      intros [H C]. injection H as ->. contradiction.
  - split; [discriminate | intros [H _]; discriminate H].
Qed.

Lemma confirm_forward (fuel : nat) (now : datetime) (user pk : positive)
  (b : Booking) (w : World) :
  get_booking w user pk = Some b -> id b = Some pk -> booking_number b <> EmptyString ->
  status b = pending ->
  BookingConfirmView_post fuel now user pk w
  = Ok (mkResponse 200 true "Booking confirmed successfully"
          (Some (set_updated_at (Some now) (with_total (set_status confirmed b)))),
        set_bookings
          (<[pk := to_row (set_updated_at (Some now) (with_total (set_status confirmed b)))]>
             (bookings w)) w).
Proof.
  intros Hg Hid Hnum Hp. unfold BookingConfirmView_post. rewrite Hg.
  rewrite bool_decide_eq_true_2 by exact Hp.
  rewrite (save_stored fuel now (set_status confirmed b) w pk Hid Hnum). reflexivity.
Qed.

Lemma confirm_refused (fuel : nat) (now : datetime) (user pk : positive)
  (b : Booking) (w : World) :
  get_booking w user pk = Some b -> status b <> pending ->
  BookingConfirmView_post fuel now user pk w
  = Ok (mkResponse 400 false "Booking cannot be confirmed" None, w).
Proof.
  intros Hg Hp. unfold BookingConfirmView_post. rewrite Hg.
  rewrite bool_decide_eq_false_2 by exact Hp. reflexivity.
Qed.

Lemma cancel_forward (fuel : nat) (early now s : datetime) (user pk : positive)
  (reason : option string) (b : Booking) (w : World) :
  get_booking w user pk = Some b -> id b = Some pk -> booking_number b <> EmptyString ->
  validate_cancellation_reason reason = [] -> start_date b = Some s ->
  early <= now -> status b = pending \/ status b = confirmed -> now < s ->
  BookingCancelView_post fuel early now user pk reason w
  = Ok (mkResponse 200 true "Booking cancelled successfully"
          (Some (set_updated_at (Some now)
                   (with_total (set_cancellation_reason reason (set_status cancelled b))))),
        set_bookings
          (<[pk := to_row (set_updated_at (Some now)
                             (with_total (set_cancellation_reason reason
                                            (set_status cancelled b))))]>
             (bookings w)) w).
Proof.
  intros Hg Hid Hnum Hr Hs Hle Hst Hlt.
  unfold BookingCancelView_post. rewrite Hg. unfold cancel_is_valid, cancel_validate.
  rewrite Hr.
  rewrite (proj2 (can_cancel_true b early))
    by (split; [exact Hst|exists s; split; [exact Hs|lia]]).
  cbn [bind negb]. unfold cancel_booking.
  rewrite (proj2 (can_cancel_true b now)) by (split; [exact Hst|eauto]).
  cbn [bind].
  rewrite (save_stored fuel now (set_cancellation_reason reason (set_status cancelled b))
             w pk Hid Hnum).
  reflexivity.
Qed.

(** The answers of the cancel endpoint for a stored booking of the caller. *)
Lemma cancel_cases (fuel : nat) (early now : datetime) (user pk : positive)
  (reason : option string) (b : Booking) (w w' : World) (r : Response) :
  get_booking w user pk = Some b -> id b = Some pk -> booking_number b <> EmptyString ->
  BookingCancelView_post fuel early now user pk reason w = Ok (r, w') ->
  (r = mkResponse 400 false "Cannot cancel this booking" None /\ w' = w)
  \/ (can_cancel b now = Ok true
      /\ r = mkResponse 200 true "Booking cancelled successfully"
               (Some (set_updated_at (Some now)
                        (with_total (set_cancellation_reason reason
                                       (set_status cancelled b)))))
      /\ w' = set_bookings
                (<[pk := to_row (set_updated_at (Some now)
                                   (with_total (set_cancellation_reason reason
                                                  (set_status cancelled b))))]>
                   (bookings w)) w).
Proof.
  intros Hg Hid Hnum. unfold BookingCancelView_post. rewrite Hg.
  unfold cancel_is_valid, cancel_validate.
  destruct (validate_cancellation_reason reason); [|discriminate].
  destruct (can_cancel b early) as [[|]| |]; cbn [bind negb]; try discriminate.
  unfold cancel_booking.
  destruct (can_cancel b now) as [[|]| |]; cbn [bind]; try discriminate.
  - rewrite (save_stored fuel now (set_cancellation_reason reason (set_status cancelled b))
               w pk Hid Hnum).
    cbn [bind]. intros H. injection H as <- <-. right. auto.
  - intros H. injection H as <- <-. left. auto.
Qed.

Lemma update_forward (fuel : nat) (now : datetime) (user pk : positive) (partial : bool)
  (u : UpdateData) (b : Booking) (w : World) :
  get_booking w user pk = Some b -> id b = Some pk -> booking_number b <> EmptyString ->
  update_is_valid now partial b u = Ok u ->
  BookingDetailView_update fuel now user pk partial u w
  = Ok (mkResponse 200 true "Booking updated successfully"
          (Some (updated_instance now u b)),
        set_bookings (<[pk := to_row (updated_instance now u b)]> (bookings w)) w).
Proof.
  intros Hg Hid Hnum V. unfold BookingDetailView_update. rewrite Hg, V. cbn [bind].
  unfold update.
  match goal with |- context [save fuel now ?x w] => set (b6 := x) end.
  assert (Ei : id b6 = Some pk).
  { unfold b6. rewrite !(assign_keeps id) by reflexivity. exact Hid. }
  assert (En : booking_number b6 <> EmptyString).
  { unfold b6. rewrite !(assign_keeps booking_number) by reflexivity. exact Hnum. }
  rewrite (save_stored fuel now b6 w pk Ei En). reflexivity.
Qed.

(** The fields of the instance an update leaves. *)
Lemma updated_instance_fields (now : datetime) (u : UpdateData) (b : Booking) :
  id (updated_instance now u b) = id b
  /\ booking_number (updated_instance now u b) = booking_number b
  /\ customer (updated_instance now u b) = customer b
  /\ vehicle (updated_instance now u b) = vehicle b
  /\ daily_rate (updated_instance now u b) = daily_rate b
  /\ deposit_amount (updated_instance now u b) = deposit_amount b
  /\ payment_status (updated_instance now u b) = payment_status b
  /\ cancellation_reason (updated_instance now u b) = cancellation_reason b
  /\ created_at (updated_instance now u b) = created_at b
  /\ start_date (updated_instance now u b)
     = match u_start_date u with Some t => Some t | None => start_date b end
  /\ end_date (updated_instance now u b)
     = match u_end_date u with Some t => Some t | None => end_date b end
  /\ status (updated_instance now u b)
     = match u_status u with Some st => st | None => status b end
  /\ notes (updated_instance now u b)
     = match u_notes u with Some n => n | None => notes b end
  /\ pickup_location (updated_instance now u b)
     = match u_pickup_location u with Some l => l | None => pickup_location b end
  /\ return_location (updated_instance now u b)
     = match u_return_location u with Some l => l | None => return_location b end.
Proof.
  unfold updated_instance.
  match goal with |- context [with_total ?x] => set (b6 := x) end.
  destruct (with_total_fields b6) as (Ei & Est & Ecr & En & Es & Ee & Ev & Ec & Ent).
  destruct (with_total_amounts b6) as (Er & Ed & Ep & Eca & Epl & Erl & _).
  cbn [id booking_number customer vehicle daily_rate deposit_amount payment_status
       cancellation_reason created_at start_date end_date status notes
       pickup_location return_location set_updated_at].
  rewrite Ei, Est, Ecr, En, Es, Ee, Ev, Ec, Ent, Er, Ed, Ep, Eca, Epl, Erl.
  unfold b6, assign.
  destruct (u_start_date u), (u_end_date u), (u_pickup_location u),
    (u_return_location u), (u_notes u), (u_status u); repeat split.
Qed.

Lemma writes_row_store_ok (w w' : World) (pk : positive) :
  store_ok w -> writes_row w w' pk -> store_ok w'.
Proof.
  intros Hw [_ [E | (row & Hr & E)]] k b; rewrite E.
  - apply Hw.
  - intros H. apply lookup_insert_Some in H as [[<- <-]|[_ H]]; [exact Hr | exact (Hw k b H)].
Qed.

Lemma writes_row_frame (w w' : World) (pk k : positive) :
  writes_row w w' pk -> k <> pk -> bookings w' !! k = bookings w !! k.
Proof.
  intros [_ [E | (row & _ & E)]] Hk; rewrite E; [reflexivity|].
  apply lookup_insert_ne. congruence.
Qed.

Lemma writes_row_refl (w : World) (pk : positive) : writes_row w w pk.
Proof. split; [reflexivity | left; reflexivity]. Qed.

Lemma generate_nonempty (fuel : nat) (w : World) (number : string) (g : Random) :
  generate_booking_number fuel w = Ok (number, g) -> number <> EmptyString.
Proof.
  intros H. rewrite generate_unfold in H.
  apply regenerate_shape in H as [L _].
  - intros ->. discriminate L.
  - apply random_string_length.
  - apply random_string_alphabet. discriminate.
Qed.

Lemma create_writes_row (fuel : nat) (now : datetime) (user : positive) (d : CreateData)
  (w w' : World) (r : Response) :
  BookingListView_create fuel now user d w = Ok (r, w') ->
  bookings w !! fresh (dom (bookings w)) = None
  /\ writes_row w w' (fresh (dom (bookings w)))
  /\ bookings w' !! fresh (dom (bookings w)) <> None.
Proof.
  intros H.
  apply create_inversion in H as (vehicle_pk & v & number & g & b & _ & _ & Hg & Eb & -> & ->).
  split; [apply fresh_key_unused|]. split.
  - split; [reflexivity|]. right. exists (to_row b). split; [|reflexivity].
    unfold row_ok. rewrite to_row_to_row. rewrite Eb. unfold created_instance, to_row.
    cbn [id booking_number start_date end_date daily_rate total_amount
         set_daily_rate set_total_amount set_deposit_amount fmap option_fmap option_map].
    repeat split; eauto. exact (generate_nonempty _ _ _ _ Hg).
  - cbn [bookings set_bookings set_random]. rewrite lookup_insert_eq. discriminate.
Qed.

Lemma confirm_writes_row (fuel : nat) (now : datetime) (user pk : positive)
  (w w' : World) (r : Response) :
  store_ok w ->
  BookingConfirmView_post fuel now user pk w = Ok (r, w') -> writes_row w w' pk.
Proof.
  intros Hw H. destruct (get_booking w user pk) as [b|] eqn:Hg.
  - pose proof (proj1 (get_booking_Some _ _ _ _) Hg) as [Hb _].
    destruct (Hw pk b Hb) as (Hid & Hnum & Hs & He & Hr & _).
    destruct (decide (status b = pending)) as [Hp|Hp].
    + rewrite (confirm_forward fuel now user pk b w Hg Hid Hnum Hp) in H.
      injection H as <- <-. split; [reflexivity|]. right. eexists. split; [|reflexivity].
      apply saved_row_ok; assumption.
    + rewrite (confirm_refused fuel now user pk b w Hg Hp) in H.
      injection H as <- <-. apply writes_row_refl.
  - unfold BookingConfirmView_post in H. rewrite Hg in H. injection H as <- <-.
    apply writes_row_refl.
Qed.

Lemma cancel_writes_row (fuel : nat) (early now : datetime) (user pk : positive)
  (reason : option string) (w w' : World) (r : Response) :
  store_ok w ->
  BookingCancelView_post fuel early now user pk reason w = Ok (r, w') ->
  writes_row w w' pk.
Proof.
  intros Hw H. destruct (get_booking w user pk) as [b|] eqn:Hg.
  - pose proof (proj1 (get_booking_Some _ _ _ _) Hg) as [Hb _].
    destruct (Hw pk b Hb) as (Hid & Hnum & Hs & He & Hr & _).
    destruct (cancel_cases _ _ _ _ _ _ _ _ _ _ Hg Hid Hnum H) as [[_ ->] | (_ & _ & ->)].
    + apply writes_row_refl.
    + split; [reflexivity|]. right. eexists. split; [|reflexivity].
      apply saved_row_ok; assumption.
  - unfold BookingCancelView_post in H. rewrite Hg in H. injection H as <- <-.
    apply writes_row_refl.
Qed.

Lemma update_writes_row (fuel : nat) (now : datetime) (user pk : positive)
  (partial : bool) (u : UpdateData) (w w' : World) (r : Response) :
  store_ok w ->
  BookingDetailView_update fuel now user pk partial u w = Ok (r, w') ->
  writes_row w w' pk.
Proof.
  intros Hw H. destruct (get_booking w user pk) as [b|] eqn:Hg.
  - pose proof (proj1 (get_booking_Some _ _ _ _) Hg) as [Hb _].
    destruct (Hw pk b Hb) as (Hid & Hnum & Hs & He & Hr & _).
    destruct (update_inversion _ _ _ _ _ _ _ _ _ _ Hg H) as (b' & V & _ & _).
    rewrite (update_forward fuel now user pk partial u b w Hg Hid Hnum V) in H.
    injection H as <- <-. split; [reflexivity|]. right. eexists. split; [|reflexivity].
    unfold updated_instance.
    match goal with |- context [with_total ?x] => set (b6 := x) end.
    apply saved_row_ok; unfold b6.
    + rewrite !(assign_keeps id) by reflexivity. exact Hid.
    + rewrite !(assign_keeps booking_number) by reflexivity. exact Hnum.
    + rewrite !(assign_keeps start_date) by reflexivity.
      unfold assign. destruct (u_start_date u); [eauto | exact Hs].
    + rewrite !(assign_keeps end_date) by reflexivity.
      unfold assign at 1. destruct (u_end_date u); [eauto|].
      rewrite (assign_keeps end_date) by reflexivity. exact He.
    + rewrite !(assign_keeps daily_rate) by reflexivity. exact Hr.
  - unfold BookingDetailView_update in H. rewrite Hg in H. discriminate H.
Qed.

(** X7.  The endpoints keep the store well formed: if every row carries its
    key and a number, has its bounds, rate and total set and its amounts to
    two decimal places, this is still so after a create, confirm, cancel or
    update request that returns a response. *)
Theorem endpoints_keep_store_ok (w : World) :
  store_ok w ->
  (forall fuel now user d r w',
      BookingListView_create fuel now user d w = Ok (r, w') -> store_ok w')
  /\ (forall fuel now user pk r w',
        BookingConfirmView_post fuel now user pk w = Ok (r, w') -> store_ok w')
  /\ (forall fuel early now user pk reason r w',
        BookingCancelView_post fuel early now user pk reason w = Ok (r, w') -> store_ok w')
  /\ (forall fuel now user pk partial u r w',
        BookingDetailView_update fuel now user pk partial u w = Ok (r, w') -> store_ok w').
Proof.
  intros Hw. split; [|split; [|split]].
  - intros fuel now user d r w' H. apply create_writes_row in H as (_ & H & _).
    exact (writes_row_store_ok _ _ _ Hw H).
  - intros fuel now user pk r w' H.
    exact (writes_row_store_ok _ _ _ Hw (confirm_writes_row _ _ _ _ _ _ _ Hw H)).
  - intros fuel early now user pk reason r w' H.
    exact (writes_row_store_ok _ _ _ Hw (cancel_writes_row _ _ _ _ _ _ _ _ _ Hw H)).
  - intros fuel now user pk partial u r w' H.
    exact (writes_row_store_ok _ _ _ Hw (update_writes_row _ _ _ _ _ _ _ _ _ Hw H)).
Qed.

(** X8.  On a well-formed store, a confirm, cancel or update request for
    the booking under [pk] leaves the vehicles and every other booking as
    they were, and a create request leaves the vehicles and every stored
    booking as they were and adds one row under a key not in use. *)
Theorem endpoints_touch_one_row (w : World) :
  store_ok w ->
  (forall fuel now user d r w',
      BookingListView_create fuel now user d w = Ok (r, w') ->
      vehicles w' = vehicles w
      /\ (forall k b, bookings w !! k = Some b -> bookings w' !! k = Some b)
      /\ exists k, bookings w !! k = None /\ bookings w' !! k <> None
                   /\ forall k', k' <> k -> bookings w' !! k' = bookings w !! k')
  /\ (forall fuel now user pk r w',
        BookingConfirmView_post fuel now user pk w = Ok (r, w') ->
        vehicles w' = vehicles w
        /\ forall k, k <> pk -> bookings w' !! k = bookings w !! k)
  /\ (forall fuel early now user pk reason r w',
        BookingCancelView_post fuel early now user pk reason w = Ok (r, w') ->
        vehicles w' = vehicles w
        /\ forall k, k <> pk -> bookings w' !! k = bookings w !! k)
  /\ (forall fuel now user pk partial u r w',
        BookingDetailView_update fuel now user pk partial u w = Ok (r, w') ->
        vehicles w' = vehicles w
        /\ forall k, k <> pk -> bookings w' !! k = bookings w !! k).
Proof.
  intros Hw. split; [|split; [|split]].
  - intros fuel now user d r w' H. apply create_writes_row in H as (Hf & H & Hn).
    split; [exact (proj1 H)|]. split.
    + intros k b Hb. rewrite (writes_row_frame _ _ _ k H); [exact Hb|].
      intros ->. rewrite Hf in Hb. discriminate Hb.
    + exists (fresh (dom (bookings w))). split; [exact Hf|]. split; [exact Hn|].
      intros k' Hk. exact (writes_row_frame _ _ _ k' H Hk).
  - intros fuel now user pk r w' H.
    pose proof (confirm_writes_row _ _ _ _ _ _ _ Hw H) as W.
    split; [exact (proj1 W) | intros k Hk; exact (writes_row_frame _ _ _ k W Hk)].
  - intros fuel early now user pk reason r w' H.
    pose proof (cancel_writes_row _ _ _ _ _ _ _ _ _ Hw H) as W.
    split; [exact (proj1 W) | intros k Hk; exact (writes_row_frame _ _ _ k W Hk)].
  - intros fuel now user pk partial u r w' H.
    pose proof (update_writes_row _ _ _ _ _ _ _ _ _ Hw H) as W.
    split; [exact (proj1 W) | intros k Hk; exact (writes_row_frame _ _ _ k W Hk)].
Qed.

Lemma booked_store_ok (st : Status) : store_ok (Sample.booked st).
Proof.
  intros pk b H. unfold Sample.booked in H. cbn [bookings] in H.
  apply lookup_singleton_Some in H as [<- <-].
  unfold row_ok. repeat split; try discriminate; eauto.
Defined.

Lemma booked_twice_store_ok : store_ok Sample.booked_twice.
Proof.
  intros pk b H. unfold Sample.booked_twice in H. cbn [bookings] in H.
  apply lookup_insert_Some in H as [[<- <-]|[_ H]];
    [|apply lookup_singleton_Some in H as [<- <-]];
    unfold row_ok; repeat split; try discriminate; eauto.
Defined.

Lemma endpoints_keep_store_ok_witness :
  store_ok
    (set_bookings
       (<[1%positive :=
            to_row (set_updated_at (Some Sample.day)
                      (with_total (set_status confirmed
                         (Sample.row 1 "4BIPW3AH" (10 * Sample.day) (12 * Sample.day)
                            pending))))]>
          (bookings (Sample.booked pending)))
       (Sample.booked pending)).
Proof.
  apply (proj1 (proj2 (endpoints_keep_store_ok (Sample.booked pending)
                         (booked_store_ok pending)))
           0%nat Sample.day 7%positive 1%positive
           (mkResponse 200 true "Booking confirmed successfully"
              (Some (set_updated_at (Some Sample.day)
                       (with_total (set_status confirmed
                          (Sample.row 1 "4BIPW3AH" (10 * Sample.day) (12 * Sample.day)
                             pending))))))).
  reflexivity.
Defined.

(** With days [10, 12) and [12, 14) of vehicle 1 booked, confirming the
    first booking leaves the vehicles and the second booking as they
    were. *)
Lemma endpoints_touch_one_row_witness :
  vehicles
    (set_bookings
       (<[1%positive :=
            to_row (set_updated_at (Some Sample.day)
                      (with_total (set_status confirmed
                         (Sample.row 1 "4BIPW3AH" (10 * Sample.day) (12 * Sample.day)
                            pending))))]>
          (bookings Sample.booked_twice))
       Sample.booked_twice)
  = vehicles Sample.booked_twice
  /\ (forall k, k <> 1%positive ->
        bookings
          (set_bookings
             (<[1%positive :=
                  to_row (set_updated_at (Some Sample.day)
                            (with_total (set_status confirmed
                               (Sample.row 1 "4BIPW3AH" (10 * Sample.day) (12 * Sample.day)
                                  pending))))]>
                (bookings Sample.booked_twice))
             Sample.booked_twice) !! k
        = bookings Sample.booked_twice !! k).
Proof.
  apply (proj1 (proj2 (endpoints_touch_one_row Sample.booked_twice booked_twice_store_ok))
           0%nat Sample.day 7%positive 1%positive
           (mkResponse 200 true "Booking confirmed successfully"
              (Some (set_updated_at (Some Sample.day)
                       (with_total (set_status confirmed
                          (Sample.row 1 "4BIPW3AH" (10 * Sample.day) (12 * Sample.day)
                             pending))))))).
  reflexivity.
Defined.

(** ** The life of a booking *)

Lemma stored_fields (now : datetime) (b : Booking) :
  id (to_row (set_updated_at (Some now) (with_total b))) = id b
  /\ booking_number (to_row (set_updated_at (Some now) (with_total b))) = booking_number b
  /\ customer (to_row (set_updated_at (Some now) (with_total b))) = customer b
  /\ vehicle (to_row (set_updated_at (Some now) (with_total b))) = vehicle b
  /\ status (to_row (set_updated_at (Some now) (with_total b))) = status b
  /\ start_date (to_row (set_updated_at (Some now) (with_total b))) = start_date b
  /\ end_date (to_row (set_updated_at (Some now) (with_total b))) = end_date b
  /\ cancellation_reason (to_row (set_updated_at (Some now) (with_total b)))
     = cancellation_reason b
  /\ notes (to_row (set_updated_at (Some now) (with_total b))) = notes b.
Proof.
  destruct (with_total_fields b) as (Ei & Est & Ecr & En & Es & Ee & Ev & Ec & Ent).
  unfold to_row.
  cbn [id booking_number customer vehicle status start_date end_date cancellation_reason
       notes set_daily_rate set_total_amount set_deposit_amount set_updated_at].
  rewrite Ei, Est, Ecr, En, Es, Ee, Ev, Ec, Ent. repeat split.
Qed.

Lemma get_booking_written (w : World) (user pk : positive) (row : Booking) :
  customer row = user ->
  get_booking (set_bookings (<[pk := row]> (bookings w)) w) user pk = Some row.
Proof.
  intros Hc. apply get_booking_Some. cbn [bookings set_bookings].
  split; [apply lookup_insert_eq | exact Hc].
Qed.

(** X9.  Confirming is a guarded transition, not a flag: after a pending
    booking is confirmed, the stored status is confirmed, and a second
    confirm request is answered with the failure "Booking cannot be
    confirmed" and changes nothing. *)
Theorem confirm_not_repeatable (fuel fuel' : nat) (now now' : datetime)
  (user pk : positive) (b : Booking) (w : World) :
  get_booking w user pk = Some b -> id b = Some pk -> booking_number b <> EmptyString ->
  status b = pending ->
  exists b1 w1,
    BookingConfirmView_post fuel now user pk w
    = Ok (mkResponse 200 true "Booking confirmed successfully" (Some b1), w1)
    /\ bookings w1 !! pk = Some (to_row b1)
    /\ status (to_row b1) = confirmed
    /\ BookingConfirmView_post fuel' now' user pk w1
       = Ok (mkResponse 400 false "Booking cannot be confirmed" None, w1).
Proof.
  intros Hg Hid Hnum Hp.
  pose proof (proj1 (get_booking_Some _ _ _ _) Hg) as [_ Hc].
  destruct (stored_fields now (set_status confirmed b)) as (_ & _ & Ec & _ & Est & _).
  eexists. eexists. split; [exact (confirm_forward fuel now user pk b w Hg Hid Hnum Hp)|].
  split; [apply lookup_insert_eq|]. split; [exact Est|].
  apply (confirm_refused fuel' now' user pk
           (to_row (set_updated_at (Some now) (with_total (set_status confirmed b))))).
  - apply get_booking_written. rewrite Ec. exact Hc.
  - rewrite Est. discriminate.
Qed.

Lemma confirm_not_repeatable_witness :
  exists b1 w1,
    BookingConfirmView_post 0 Sample.day 7 1 (Sample.booked pending)
    = Ok (mkResponse 200 true "Booking confirmed successfully" (Some b1), w1)
    /\ bookings w1 !! 1%positive = Some (to_row b1)
    /\ status (to_row b1) = confirmed
    /\ BookingConfirmView_post 0 (2 * Sample.day) 7 1 w1
       = Ok (mkResponse 400 false "Booking cannot be confirmed" None, w1).
Proof.
  apply (confirm_not_repeatable 0 0 Sample.day (2 * Sample.day) 7 1
           (Sample.row 1 "4BIPW3AH" (10 * Sample.day) (12 * Sample.day) pending)
           (Sample.booked pending) eq_refl eq_refl ltac:(discriminate) eq_refl).
Defined.

(** X10.  Cancelled is terminal for the endpoints: once a cancel request
    has succeeded, the row is cancelled with the reason given, every later
    confirm request is answered "Booking cannot be confirmed" and every
    later cancel request is rejected with "This booking cannot be
    cancelled.", the store unchanged, whatever the clock. *)
Theorem cancelled_is_terminal (fuel : nat) (early now s : datetime) (user pk : positive)
  (reason : option string) (b : Booking) (w : World) :
  get_booking w user pk = Some b -> id b = Some pk -> booking_number b <> EmptyString ->
  validate_cancellation_reason reason = [] -> start_date b = Some s ->
  early <= now -> status b = pending \/ status b = confirmed -> now < s ->
  exists b1 w1,
    BookingCancelView_post fuel early now user pk reason w
    = Ok (mkResponse 200 true "Booking cancelled successfully" (Some b1), w1)
    /\ bookings w1 !! pk = Some (to_row b1)
    /\ status (to_row b1) = cancelled
    /\ cancellation_reason (to_row b1) = reason
    /\ (forall fuel' now',
          BookingConfirmView_post fuel' now' user pk w1
          = Ok (mkResponse 400 false "Booking cannot be confirmed" None, w1))
    /\ (forall fuel' early' now' reason',
          validate_cancellation_reason reason' = [] ->
          BookingCancelView_post fuel' early' now' user pk reason' w1
          = Raise (ValidationError ["This booking cannot be cancelled."%string])).
Proof.
  intros Hg Hid Hnum Hr Hs Hle Hst Hlt.
  pose proof (proj1 (get_booking_Some _ _ _ _) Hg) as [_ Hc].
  destruct (stored_fields now (set_cancellation_reason reason (set_status cancelled b)))
    as (_ & _ & Ec & _ & Est & _ & _ & Ecr & _).
  eexists. eexists.
  split; [exact (cancel_forward fuel early now s user pk reason b w
                   Hg Hid Hnum Hr Hs Hle Hst Hlt)|].
  split; [apply lookup_insert_eq|]. split; [exact Est|]. split; [exact Ecr|].
  match goal with |- context [to_row ?x] => set (b1 := x) in * end.
  assert (G1 : get_booking (set_bookings (<[pk := to_row b1]> (bookings w)) w) user pk
               = Some (to_row b1)).
  { apply get_booking_written. rewrite Ec. exact Hc. }
  split.
  - intros fuel' now'. apply (confirm_refused fuel' now' user pk (to_row b1) _ G1).
    rewrite Est. discriminate.
  - intros fuel' early' now' reason' Hr'. unfold BookingCancelView_post. rewrite G1.
    unfold cancel_is_valid, cancel_validate. rewrite Hr'.
    unfold can_cancel. rewrite bool_decide_eq_false_2; [reflexivity|].
    rewrite Est. rewrite !elem_of_cons, elem_of_nil. intros [?|[?|[]]]; discriminate.
Qed.

Lemma cancelled_is_terminal_witness :
  exists b1 w1,
    BookingCancelView_post 0 Sample.day Sample.day 7 1 (Some "change of plans"%string)
      (Sample.booked confirmed)
    = Ok (mkResponse 200 true "Booking cancelled successfully" (Some b1), w1)
    /\ bookings w1 !! 1%positive = Some (to_row b1)
    /\ status (to_row b1) = cancelled
    /\ cancellation_reason (to_row b1) = Some "change of plans"%string
    /\ (forall fuel' now',
          BookingConfirmView_post fuel' now' 7 1 w1
          = Ok (mkResponse 400 false "Booking cannot be confirmed" None, w1))
    /\ (forall fuel' early' now' reason',
          validate_cancellation_reason reason' = [] ->
          BookingCancelView_post fuel' early' now' 7 1 reason' w1
          = Raise (ValidationError ["This booking cannot be cancelled."%string])).
Proof.
  apply (cancelled_is_terminal 0 Sample.day Sample.day (10 * Sample.day) 7 1
           (Some "change of plans"%string)
           (Sample.row 1 "4BIPW3AH" (10 * Sample.day) (12 * Sample.day) confirmed)
           (Sample.booked confirmed)
           eq_refl eq_refl ltac:(discriminate) eq_refl eq_refl
           ltac:(vm_compute; discriminate) (or_intror eq_refl) eq_refl).
Defined.

(** X11.  A pending booking can be confirmed and then cancelled: after a
    confirm request, a cancel request sent before the start instant
    succeeds and leaves the row cancelled with the reason given. *)
Theorem confirm_then_cancel (fuel fuel' : nat) (now early now' s : datetime)
  (user pk : positive) (reason : option string) (b : Booking) (w : World) :
  get_booking w user pk = Some b -> id b = Some pk -> booking_number b <> EmptyString ->
  status b = pending -> start_date b = Some s ->
  validate_cancellation_reason reason = [] -> early <= now' -> now' < s ->
  exists b1 w1 b2 w2,
    BookingConfirmView_post fuel now user pk w
    = Ok (mkResponse 200 true "Booking confirmed successfully" (Some b1), w1)
    /\ BookingCancelView_post fuel' early now' user pk reason w1
       = Ok (mkResponse 200 true "Booking cancelled successfully" (Some b2), w2)
    /\ bookings w2 !! pk = Some (to_row b2)
    /\ status (to_row b2) = cancelled
    /\ cancellation_reason (to_row b2) = reason
    /\ forall k, k <> pk -> bookings w2 !! k = bookings w !! k.
Proof.
  intros Hg Hid Hnum Hp Hs Hr Hle Hlt.
  pose proof (proj1 (get_booking_Some _ _ _ _) Hg) as [_ Hc].
  destruct (stored_fields now (set_status confirmed b))
    as (Ei & En & Ec & _ & Est & Es & _).
  set (r1 := to_row (set_updated_at (Some now) (with_total (set_status confirmed b)))) in *.
  set (w1 := set_bookings (<[pk := r1]> (bookings w)) w).
  assert (G1 : get_booking w1 user pk = Some r1).
  { apply get_booking_written. rewrite Ec. exact Hc. }
  assert (I1 : id r1 = Some pk) by (rewrite Ei; exact Hid).
  assert (N1 : booking_number r1 <> EmptyString) by (rewrite En; exact Hnum).
  assert (S1 : start_date r1 = Some s) by (rewrite Es; exact Hs).
  assert (T1 : status r1 = pending \/ status r1 = confirmed) by (right; exact Est).
  destruct (stored_fields now' (set_cancellation_reason reason (set_status cancelled r1)))
    as (_ & _ & _ & _ & Est2 & _ & _ & Ecr2 & _).
  eexists. eexists. eexists. eexists.
  split; [exact (confirm_forward fuel now user pk b w Hg Hid Hnum Hp)|].
  split; [exact (cancel_forward fuel' early now' s user pk reason r1 w1
                   G1 I1 N1 Hr S1 Hle T1 Hlt)|].
  split; [apply lookup_insert_eq|]. split; [exact Est2|]. split; [exact Ecr2|].
  intros k Hk. cbn [bookings set_bookings w1].
  rewrite !lookup_insert_ne by congruence. reflexivity.
Qed.

Lemma confirm_then_cancel_witness :
  exists b1 w1 b2 w2,
    BookingConfirmView_post 0 Sample.day 7 1 (Sample.booked pending)
    = Ok (mkResponse 200 true "Booking confirmed successfully" (Some b1), w1)
    /\ BookingCancelView_post 0 (2 * Sample.day) (2 * Sample.day) 7 1 None w1
       = Ok (mkResponse 200 true "Booking cancelled successfully" (Some b2), w2)
    /\ bookings w2 !! 1%positive = Some (to_row b2)
    /\ status (to_row b2) = cancelled
    /\ cancellation_reason (to_row b2) = None
    /\ forall k, k <> 1%positive -> bookings w2 !! k = bookings (Sample.booked pending) !! k.
Proof.
  apply (confirm_then_cancel 0 0 Sample.day (2 * Sample.day) (2 * Sample.day)
           (10 * Sample.day) 7 1 None
           (Sample.row 1 "4BIPW3AH" (10 * Sample.day) (12 * Sample.day) pending)
           (Sample.booked pending)
           eq_refl eq_refl ltac:(discriminate) eq_refl eq_refl eq_refl
           ltac:(vm_compute; discriminate) eq_refl).
Defined.

(** ** Ownership *)

(** X12.  A booking that does not exist or that belongs to another
    customer is out of reach: the confirm and cancel endpoints answer 404
    "Booking not found" and the update endpoint raises [Http404], and the
    store is unchanged. *)
Theorem foreign_booking_not_found (fuel : nat) (early now : datetime) (user pk : positive)
  (w : World) :
  bookings w !! pk = None
  \/ (exists b, bookings w !! pk = Some b /\ customer b <> user) ->
  BookingConfirmView_post fuel now user pk w
  = Ok (mkResponse 404 false "Booking not found" None, w)
  /\ (forall reason,
        BookingCancelView_post fuel early now user pk reason w
        = Ok (mkResponse 404 false "Booking not found" None, w))
  /\ (forall partial u,
        BookingDetailView_update fuel now user pk partial u w = Raise Http404).
Proof.
  intros H.
  assert (G : get_booking w user pk = None).
  { unfold get_booking. destruct H as [-> | (b & -> & Hc)]; [reflexivity|].
    now rewrite bool_decide_eq_false_2. }
  unfold BookingConfirmView_post, BookingCancelView_post, BookingDetailView_update.
  rewrite G. auto.
Qed.

Lemma foreign_booking_not_found_witness :
  BookingConfirmView_post 0 Sample.day 7 2 (Fixture.two_customers pending)
  = Ok (mkResponse 404 false "Booking not found" None, Fixture.two_customers pending)
  /\ (forall reason,
        BookingCancelView_post 0 Sample.day Sample.day 7 2 reason
          (Fixture.two_customers pending)
        = Ok (mkResponse 404 false "Booking not found" None, Fixture.two_customers pending))
  /\ (forall partial u,
        BookingDetailView_update 0 Sample.day 7 2 partial u (Fixture.two_customers pending)
        = Raise Http404).
Proof.
  apply (foreign_booking_not_found 0 Sample.day Sample.day 7 2
           (Fixture.two_customers pending)).
  right. eexists. split; [reflexivity | discriminate].
Defined.

(** X13.  The querysets of the list and detail views hold exactly the
    caller's bookings, so the object permission never refuses what they
    return: [IsOwnerOrReadOnly] lets every method through for the owner and
    refuses exactly the unsafe methods to anybody else. *)
Theorem owner_always_permitted (w : World) (user pk : positive) :
  Access.get_queryset w user !! pk = get_booking w user pk
  /\ (forall b method, get_booking w user pk = Some b ->
                       Access.has_object_permission method user b = true)
  /\ (forall b method,
        Access.has_object_permission method user b = false
        <-> (method = Access.POST \/ method = Access.PUT \/ method = Access.PATCH
             \/ method = Access.DELETE)
            /\ customer b <> user).
Proof.
  split; [|split].
  - unfold Access.get_queryset, get_booking.
    destruct (bookings w !! pk) as [b|] eqn:Hb.
    + destruct (bool_decide (customer b = user)) eqn:E.
      * apply bool_decide_eq_true in E. apply map_lookup_filter_Some. auto.
      * apply bool_decide_eq_false in E.
        destruct (filter _ (bookings w) !! pk) as [x|] eqn:F; [|reflexivity].
        apply map_lookup_filter_Some in F as [F1 F2]. cbn in F2.
        rewrite Hb in F1. injection F1 as ->. contradiction.
    + destruct (filter _ (bookings w) !! pk) as [x|] eqn:F; [|reflexivity].
      apply map_lookup_filter_Some in F as [F1 _]. rewrite Hb in F1. discriminate.
  - intros b method Hg. apply get_booking_Some in Hg as [_ Hc].
    unfold Access.has_object_permission.
    destruct (bool_decide (method ∈ Access.SAFE_METHODS)); [reflexivity|].
    now apply bool_decide_eq_true.
  - intros b method. unfold Access.has_object_permission.
    destruct method; cbn [bool_decide decide_rel];
      (split;
       [ intros H; first [ discriminate H
                         | apply bool_decide_eq_false in H; split; [tauto | exact H] ]
       | intros [[E|[E|[E|E]]] Hc]; first [ discriminate E
                                         | now apply bool_decide_eq_false ] ]).
Qed.

(** ** Updates, field by field *)

Lemma update_is_valid_status_only (now : datetime) (b : Booking) (st : Status) :
  status b <> completed -> status b <> cancelled ->
  update_is_valid now true b (mkUpdateData None None initial_missing None None None (Some st))
  = Ok (mkUpdateData None None initial_missing None None None (Some st)).
Proof.
  intros H1 H2. unfold update_is_valid, supplied, validate_status.
  cbn [u_start_date u_end_date u_status negb app].
  rewrite bool_decide_eq_false_2; [reflexivity|].
  rewrite !elem_of_cons, elem_of_nil. tauto.
Qed.

(** X14.  The update endpoint writes any status it is given: for a stored
    booking that is neither completed nor cancelled, a partial update that
    carries only [status] is accepted and the row takes that status,
    without the guards of the confirm and cancel endpoints (the clock is not
    looked at and no cancellation reason is recorded). *)
Theorem update_sets_any_status (fuel : nat) (now : datetime) (user pk : positive)
  (b : Booking) (st : Status) (w : World) :
  get_booking w user pk = Some b -> id b = Some pk -> booking_number b <> EmptyString ->
  status b <> completed -> status b <> cancelled ->
  exists b' w',
    BookingDetailView_update fuel now user pk true
      (mkUpdateData None None initial_missing None None None (Some st)) w
    = Ok (mkResponse 200 true "Booking updated successfully" (Some b'), w')
    /\ bookings w' !! pk = Some (to_row b')
    /\ status (to_row b') = st
    /\ cancellation_reason (to_row b') = cancellation_reason b
    /\ start_date (to_row b') = start_date b.
Proof.
  intros Hg Hid Hnum H1 H2.
  pose proof (update_is_valid_status_only now b st H1 H2) as V.
  eexists. eexists.
  split; [exact (update_forward fuel now user pk true _ b w Hg Hid Hnum V)|].
  split; [apply lookup_insert_eq|].
  unfold updated_instance, assign. cbn [u_start_date u_end_date u_pickup_location
    u_return_location u_notes u_status].
  destruct (stored_fields now (set_status st b)) as (_ & _ & _ & _ & Est & Es & _ & Ecr & _).
  auto.
Qed.

Lemma update_sets_any_status_witness :
  exists b' w',
    BookingDetailView_update 0 (11 * Sample.day) 7 1 true
      (mkUpdateData None None initial_missing None None None (Some completed))
      (Sample.booked pending)
    = Ok (mkResponse 200 true "Booking updated successfully" (Some b'), w')
    /\ bookings w' !! 1%positive = Some (to_row b')
    /\ status (to_row b') = completed
    /\ cancellation_reason (to_row b') = None
    /\ start_date (to_row b') = Some (10 * Sample.day).
Proof.
  apply (update_sets_any_status 0 (11 * Sample.day) 7 1
           (Sample.row 1 "4BIPW3AH" (10 * Sample.day) (12 * Sample.day) pending)
           completed (Sample.booked pending)
           eq_refl eq_refl ltac:(discriminate) ltac:(discriminate) ltac:(discriminate)).
Defined.

(** X15.  An update request never changes the key, the booking number, the
    customer, the vehicle, the daily rate, the deposit, the payment status,
    the cancellation reason or the creation time of a stored booking; every
    other field is the one supplied, or else the one stored. *)
Theorem update_leaves_identity_and_money (fuel : nat) (now : datetime) (user pk : positive)
  (partial : bool) (u : UpdateData) (b : Booking) (w w' : World) (r : Response) :
  get_booking w user pk = Some b -> id b = Some pk -> booking_number b <> EmptyString ->
  BookingDetailView_update fuel now user pk partial u w = Ok (r, w') ->
  exists b',
    data r = Some b' /\ bookings w' !! pk = Some (to_row b')
    /\ id b' = Some pk /\ booking_number b' = booking_number b
    /\ customer b' = customer b /\ vehicle b' = vehicle b
    /\ daily_rate b' = daily_rate b /\ deposit_amount b' = deposit_amount b
    /\ payment_status b' = payment_status b
    /\ cancellation_reason b' = cancellation_reason b
    /\ created_at b' = created_at b
    /\ start_date b' = match u_start_date u with Some t => Some t | None => start_date b end
    /\ end_date b' = match u_end_date u with Some t => Some t | None => end_date b end
    /\ status b' = match u_status u with Some st => st | None => status b end
    /\ notes b' = match u_notes u with Some n => n | None => notes b end
    /\ pickup_location b'
       = match u_pickup_location u with Some l => l | None => pickup_location b end
    /\ return_location b'
       = match u_return_location u with Some l => l | None => return_location b end
    /\ updated_at b' = Some now.
Proof.
  intros Hg Hid Hnum H.
  destruct (update_inversion _ _ _ _ _ _ _ _ _ _ Hg H) as (b0 & V & _ & _).
  rewrite (update_forward fuel now user pk partial u b w Hg Hid Hnum V) in H.
  injection H as <- <-.
  destruct (updated_instance_fields now u b)
    as (E1 & E2 & E3 & E4 & E5 & E6 & E7 & E8 & E9 & E10 & E11 & E12 & E13 & E14 & E15).
  exists (updated_instance now u b).
  split; [reflexivity|]. split; [apply lookup_insert_eq|].
  rewrite E1, E2, E3, E4, E5, E6, E7, E8, E9, E10, E11, E12, E13, E14, E15.
  repeat split; try reflexivity. exact Hid.
Qed.

Lemma update_leaves_identity_and_money_witness :
  exists b',
    data (mkResponse 200 true "Booking updated successfully"
            (Some (updated_instance Sample.day
                     (mkUpdateData None (Some (20 * Sample.day)) initial_missing
                        None None None None)
                     (Sample.row 1 "4BIPW3AH" (10 * Sample.day) (12 * Sample.day) pending))))
    = Some b'
    /\ bookings
         (set_bookings
            (<[1%positive :=
                 to_row (updated_instance Sample.day
                           (mkUpdateData None (Some (20 * Sample.day)) initial_missing
                              None None None None)
                           (Sample.row 1 "4BIPW3AH" (10 * Sample.day) (12 * Sample.day)
                              pending))]>
               (bookings (Sample.booked pending)))
            (Sample.booked pending)) !! 1%positive = Some (to_row b')
    /\ id b' = Some 1%positive /\ booking_number b' = "4BIPW3AH"%string
    /\ customer b' = 7%positive /\ vehicle b' = 1%positive
    /\ daily_rate b' = Some (mkDecimal 5000 (-2))
    /\ deposit_amount b' = mkDecimal 2000 (-2)
    /\ payment_status b' = payment_pending
    /\ cancellation_reason b' = None
    /\ created_at b' = Some 0
    /\ start_date b' = Some (10 * Sample.day)
    /\ end_date b' = Some (20 * Sample.day)
    /\ status b' = pending
    /\ notes b' = None
    /\ pickup_location b' = None
    /\ return_location b' = None
    /\ updated_at b' = Some Sample.day.
Proof.
  apply (update_leaves_identity_and_money 1 Sample.day 7 1 true
           (mkUpdateData None (Some (20 * Sample.day)) initial_missing None None None None)
           (Sample.row 1 "4BIPW3AH" (10 * Sample.day) (12 * Sample.day) pending)
           (Sample.booked pending) _ _
           eq_refl eq_refl ltac:(discriminate)).
  reflexivity.
Defined.

(** X16.  A partial update without any field is accepted for every stored
    booking, whatever its status, and writes the row back with only its
    modification time changed (a total that is zero is computed anew). *)
Theorem empty_update_touches_timestamp (fuel : nat) (now : datetime) (user pk : positive)
  (b : Booking) (w : World) :
  get_booking w user pk = Some b -> row_ok pk b ->
  amount_truthy (total_amount b) = true ->
  BookingDetailView_update fuel now user pk true
    (mkUpdateData None None initial_missing None None None None) w
  = Ok (mkResponse 200 true "Booking updated successfully"
          (Some (set_updated_at (Some now) b)),
        set_bookings (<[pk := set_updated_at (Some now) b]> (bookings w)) w).
Proof.
  intros Hg (Hid & Hnum & _ & _ & _ & _ & Hrow) Ht.
  rewrite (update_forward fuel now user pk true
             (mkUpdateData None None initial_missing None None None None)
             b w Hg Hid Hnum eq_refl).
  unfold updated_instance, assign.
  cbn [u_start_date u_end_date u_pickup_location u_return_location u_notes u_status].
  destruct (with_total_amounts b) as (_ & _ & _ & _ & _ & _ & _ & E). rewrite (E Ht).
  assert (R : to_row (set_updated_at (Some now) b) = set_updated_at (Some now) b).
  { rewrite <- Hrow at 2. destruct b; reflexivity. }
  rewrite R. reflexivity.
Qed.

Lemma empty_update_touches_timestamp_witness :
  BookingDetailView_update 0 Sample.day 7 1 true
    (mkUpdateData None None initial_missing None None None None) (Sample.booked completed)
  = Ok (mkResponse 200 true "Booking updated successfully"
          (Some (set_updated_at (Some Sample.day)
                   (Sample.row 1 "4BIPW3AH" (10 * Sample.day) (12 * Sample.day) completed))),
        set_bookings
          (<[1%positive :=
               set_updated_at (Some Sample.day)
                 (Sample.row 1 "4BIPW3AH" (10 * Sample.day) (12 * Sample.day) completed)]>
             (bookings (Sample.booked completed)))
          (Sample.booked completed)).
Proof.
  apply (empty_update_touches_timestamp 0 Sample.day 7 1
           (Sample.row 1 "4BIPW3AH" (10 * Sample.day) (12 * Sample.day) completed)
           (Sample.booked completed) eq_refl).
  - exact (booked_store_ok completed 1%positive _ eq_refl).
  - reflexivity.
Defined.

(** ** What a create request stores *)

(** X17.  A booking created through the create endpoint belongs to the
    caller, is for the vehicle asked for, carries the bounds, places and
    notes of the request, starts after the clock, is pending with payment
    pending and no cancellation reason, and snapshots the daily rate the
    available vehicle has at that moment; the vehicle table is not
    touched. *)
Theorem create_postcondition (fuel : nat) (now : datetime) (user : positive)
  (d : CreateData) (w w' : World) (r : Response) :
  BookingListView_create fuel now user d w = Ok (r, w') ->
  exists b v,
    data r = Some b /\ status_code r = 201
    /\ get_vehicle w (c_vehicle_id d) = Some v /\ is_available v = true
    /\ Zpos (vehicle b) = c_vehicle_id d
    /\ customer b = user
    /\ daily_rate b = Some (vehicle_daily_rate v)
    /\ start_date b = Some (c_start_date d) /\ end_date b = Some (c_end_date d)
    /\ now < c_start_date d
    /\ pickup_location b = c_pickup_location d
    /\ return_location b = c_return_location d
    /\ notes b = c_notes d
    /\ status b = pending /\ payment_status b = payment_pending
    /\ cancellation_reason b = None
    /\ created_at b = Some now /\ updated_at b = Some now
    /\ vehicles w' = vehicles w.
Proof.
  intros H.
  assert (V : create_is_valid w now d = Ok d).
  { unfold BookingListView_create in H.
    destruct (create_is_valid w now d) as [x| |] eqn:E; try discriminate H.
    now rewrite (create_is_valid_ok _ _ _ _ E) in *. }
  apply create_is_valid_spec in V as ((v0 & Hv0 & Ha) & Hs & _).
  apply create_inversion in H as (vehicle_pk & v & number & g & b & Ev & Hv & _ & Eb & -> & ->).
  assert (v0 = v).
  { unfold get_vehicle in Hv0. rewrite Ev, Hv in Hv0. congruence. }
  subst v0. exists b, v. rewrite Eb. unfold created_instance.
  cbn [data status_code vehicle customer daily_rate start_date end_date pickup_location
       return_location notes status payment_status cancellation_reason created_at
       updated_at vehicles set_bookings set_random].
  unfold get_vehicle. rewrite Ev.
  repeat split; auto.
Qed.

Lemma create_postcondition_witness :
  exists b v,
    data (mkResponse 201 true "Booking created successfully"
            (Some (created_instance Sample.day 7 1 Sample.car "4BIPW3AH" 1
                     Fixture.request))) = Some b
    /\ status_code (mkResponse 201 true "Booking created successfully"
            (Some (created_instance Sample.day 7 1 Sample.car "4BIPW3AH" 1
                     Fixture.request))) = 201
    /\ get_vehicle Sample.fleet (c_vehicle_id Fixture.request) = Some v
    /\ is_available v = true
    /\ Zpos (vehicle b) = c_vehicle_id Fixture.request
    /\ customer b = 7%positive
    /\ daily_rate b = Some (vehicle_daily_rate v)
    /\ start_date b = Some (c_start_date Fixture.request)
    /\ end_date b = Some (c_end_date Fixture.request)
    /\ Sample.day < c_start_date Fixture.request
    /\ pickup_location b = c_pickup_location Fixture.request
    /\ return_location b = c_return_location Fixture.request
    /\ notes b = c_notes Fixture.request
    /\ status b = pending /\ payment_status b = payment_pending
    /\ cancellation_reason b = None
    /\ created_at b = Some Sample.day /\ updated_at b = Some Sample.day
    /\ vehicles
         (set_bookings
            {[ 1%positive :=
                 to_row (created_instance Sample.day 7 1 Sample.car "4BIPW3AH" 1
                           Fixture.request) ]}
            (set_random (advance Sample.generator 8) Sample.fleet))
       = vehicles Sample.fleet.
Proof.
  apply (create_postcondition 1 Sample.day 7 Fixture.request Sample.fleet).
  vm_compute. reflexivity.
Defined.

(** ** Searching *)

Lemma column_gte_Some (c : option datetime) (t : datetime) :
  column_gte c t = true <-> exists s, c = Some s /\ t <= s.
Proof.
  unfold column_gte. destruct c as [x|].
  - rewrite Z.leb_le. split; [eauto | intros (s & E & H); injection E as <-; exact H].
  - split; [discriminate | intros (s & E & _); discriminate E].
Qed.

Lemma column_lte_Some (c : option datetime) (t : datetime) :
  column_lte c t = true <-> exists e, c = Some e /\ e <= t.
Proof.
  unfold column_lte. destruct c as [x|].
  - rewrite Z.leb_le. split; [eauto | intros (s & E & H); injection E as <-; exact H].
  - split; [discriminate | intros (s & E & _); discriminate E].
Qed.

(** X18.  The search view returns exactly the caller's bookings whose start
    is at or after the [from] date and whose end is at or before the [to]
    date, each bound applying only when its parameter is a date: a
    parameter that does not parse is ignored like a missing one, and the
    result is always part of the list view's queryset. *)
Theorem search_queryset_spec (w : World) (user : positive) (from_date to_date : DateParam) :
  (forall pk b,
      search_queryset w user from_date to_date !! pk = Some b
      <-> bookings w !! pk = Some b /\ customer b = user
          /\ (forall t, from_date = param_date t ->
                        exists s, start_date b = Some s /\ t <= s)
          /\ (forall t, to_date = param_date t ->
                        exists e, end_date b = Some e /\ e <= t))
  /\ search_queryset w user param_invalid to_date
     = search_queryset w user param_missing to_date
  /\ search_queryset w user from_date param_invalid
     = search_queryset w user from_date param_missing
  /\ search_queryset w user param_missing param_missing = Access.get_queryset w user
  /\ search_queryset w user from_date to_date ⊆ Access.get_queryset w user.
Proof.
  assert (S : forall pk b,
      search_queryset w user from_date to_date !! pk = Some b
      <-> bookings w !! pk = Some b /\ customer b = user
          /\ (forall t, from_date = param_date t ->
                        exists s, start_date b = Some s /\ t <= s)
          /\ (forall t, to_date = param_date t ->
                        exists e, end_date b = Some e /\ e <= t)).
  { intros pk b. unfold search_queryset.
    destruct from_date as [| |tf], to_date as [| |tt];
      rewrite ?map_lookup_filter_Some; cbn [snd];
      rewrite ?Is_true_true, ?column_gte_Some, ?column_lte_Some;
      (split;
       [ intros H; decompose [and] H; clear H;
         repeat split; try assumption;
         intros t E; first [discriminate E | injection E as <-; assumption]
       | intros (H1 & H2 & H3 & H4);
         repeat split; try assumption;
         first [exact (H3 _ eq_refl) | exact (H4 _ eq_refl)] ]). }
  split; [exact S|]. split; [reflexivity|]. split; [reflexivity|].
  split; [reflexivity|].
  apply map_subseteq_spec. intros pk b H. apply S in H as (Hb & Hc & _).
  unfold Access.get_queryset. apply map_lookup_filter_Some. auto.
Qed.

(** ** Deleting a vehicle *)




(** Deleting vehicle 1 once its only booking is cancelled removes that
    booking and keeps the booking of vehicle 2. *)
Example destroy_cascades :
  match VehicleDetailView_destroy 3 1 (Fixture.garage cancelled) with
  | Ok (r, g') =>
      Some (status_code r, bookings (world g') !! 1%positive ≫= Sample.summary,
            bookings (world g') !! 2%positive ≫= Sample.summary,
            vehicles (world g') !! 1%positive, vehicles (world g') !! 2%positive)
  | _ => None
  end
  = Some (204, None,
          Some (10 * Sample.day, 12 * Sample.day, pending, 2%positive),
          None, Some Sample.car).
Proof. vm_compute. reflexivity. Qed.

(** ** Payments *)

Lemma payment_id_exists_false (l : Payments.Ledger) (code : string) :
  Payments.payment_id_exists l code = false
  <-> forall k p, Payments.payments l !! k = Some p -> Payments.payment_id p <> code.
Proof.
  unfold Payments.payment_id_exists. rewrite bool_decide_eq_false, map_Exists_lookup.
  split.
  - intros H k p Hp E. apply H. eauto.
  - intros H (k & p & Hp & E). exact (H k p Hp E).
Qed.

Lemma payment_regenerate_spec (fuel : nat) (l : Payments.Ledger) :
  forall (code code' : string) (g g' : Random),
    String.length code = 12%nat ->
    Forall (fun c => In c (ascii_uppercase ++ digits)) (list_ascii_of_string code) ->
    Payments.regenerate_while_exists fuel l code g = Ok (code', g') ->
    String.length code' = 12%nat
    /\ Forall (fun c => In c (ascii_uppercase ++ digits)) (list_ascii_of_string code')
    /\ Payments.payment_id_exists l code' = false.
Proof.
  induction fuel as [|fuel IH]; intros code code' g g' Hl Ha;
    cbn [Payments.regenerate_while_exists].
  - destruct (Payments.payment_id_exists l code) eqn:E; [discriminate|].
    intros H. injection H as <- _. auto.
  - destruct (Payments.payment_id_exists l code) eqn:E.
    + pose proof (random_string_length 12 (ascii_uppercase ++ digits) g) as L.
      pose proof (random_string_alphabet 12 (ascii_uppercase ++ digits) g
                    ltac:(discriminate)) as A.
      destruct (random_string 12 (ascii_uppercase ++ digits) g) as [n1 g1].
      apply IH; [exact L | exact A].
    + intros H. injection H as <- _. auto.
Qed.

Lemma generate_payment_id_spec (fuel : nat) (l : Payments.Ledger) (code : string)
  (g : Random) :
  Payments.generate_payment_id fuel l = Ok (code, g) ->
  String.length code = 12%nat
  /\ Forall (fun c => In c (ascii_uppercase ++ digits)) (list_ascii_of_string code)
  /\ forall k p, Payments.payments l !! k = Some p -> Payments.payment_id p <> code.
Proof.
  unfold Payments.generate_payment_id.
  pose proof (random_string_length 12 (ascii_uppercase ++ digits) (Payments.random l)) as L.
  pose proof (random_string_alphabet 12 (ascii_uppercase ++ digits) (Payments.random l)
                ltac:(discriminate)) as A.
  destruct (random_string 12 (ascii_uppercase ++ digits) (Payments.random l)) as [c0 g0].
  intros H. apply payment_regenerate_spec in H as (H1 & H2 & H3); [|exact L|exact A].
  split; [exact H1|]. split; [exact H2|]. now apply payment_id_exists_false.
Qed.

Lemma payment_save_stored (fuel : nat) (now : datetime) (p : Payments.Payment)
  (l : Payments.Ledger) :
  Payments.payment_id p <> EmptyString ->
  Payments.save fuel now p l = Ok (Payments.super_save now p l).
Proof.
  intros H. unfold Payments.save. rewrite bool_decide_eq_false_2 by exact H. reflexivity.
Qed.

(** X20.  A payment is processed at most once.  [process_payment] does
    nothing and returns [False] unless the payment is pending; a stored
    pending payment ends up completed (the call returns [True], the Stripe
    ids are derived from the payment id and the processing time is set) or
    failed (it returns [False] and the failure reason is set), its amount and
    booking unchanged, the row written; and any further call on the result
    returns [False] and changes nothing. *)
Theorem process_payment_once (fuel : nat) (now : datetime) (pk : positive)
  (p : Payments.Payment) (l : Payments.Ledger) :
  (Payments.status p <> Payments.pending ->
   Payments.process_payment fuel now p l = Ok (false, p, l))
  /\ (Payments.status p = Payments.pending ->
      Payments.id p = Some pk -> Payments.payment_id p <> EmptyString ->
      exists p' l',
        Payments.process_payment fuel now p l
        = Ok (bool_decide (Payments.status p' = Payments.completed), p', l')
        /\ Payments.payments l' !! pk = Some (Payments.to_row p')
        /\ (forall k, k <> pk -> Payments.payments l' !! k = Payments.payments l !! k)
        /\ Payments.amount p' = Payments.amount p
        /\ Payments.booking p' = Payments.booking p
        /\ Payments.payment_id p' = Payments.payment_id p
        /\ ((Payments.status p' = Payments.completed
             /\ Payments.stripe_payment_intent_id p'
                = Some ("pi_" ++ Payments.lower (Payments.payment_id p))%string
             /\ Payments.stripe_charge_id p'
                = Some ("ch_" ++ Payments.lower (Payments.payment_id p))%string
             /\ Payments.processed_at p' = Some now
             /\ Payments.failure_reason p' = Payments.failure_reason p)
            \/ (Payments.status p' = Payments.failed
                /\ Payments.failure_reason p'
                   = Some "Mock payment failed for testing purposes"%string
                /\ Payments.stripe_payment_intent_id p' = Payments.stripe_payment_intent_id p
                /\ Payments.stripe_charge_id p' = Payments.stripe_charge_id p
                /\ Payments.processed_at p' = Payments.processed_at p))
        /\ (forall fuel' now',
              Payments.process_payment fuel' now' p' l' = Ok (false, p', l'))).
Proof.
  split.
  - intros H. unfold Payments.process_payment.
    rewrite bool_decide_eq_false_2 by exact H. reflexivity.
  - intros Hp Hid Hnum. unfold Payments.process_payment.
    rewrite bool_decide_eq_true_2 by exact Hp.
    destruct (Payments.random_random (Payments.random l)) as [x g].
    destruct (Payments.float_lt x (float_of_decimal 95 (-2))).
    + rewrite payment_save_stored by exact Hnum.
      unfold Payments.super_save, Payments.succeeded. cbn [Payments.id]. rewrite Hid.
      cbn [bind]. eexists. eexists. split; [reflexivity|].
      cbn [Payments.payments Payments.status Payments.amount Payments.booking
           Payments.payment_id Payments.stripe_payment_intent_id
           Payments.stripe_charge_id Payments.processed_at Payments.failure_reason].
      split; [apply lookup_insert_eq|].
      split; [intros k Hk; apply lookup_insert_ne; congruence|].
      do 3 (split; [reflexivity|]).
      split; [left; repeat split|].
      intros fuel' now'. unfold Payments.process_payment.
      rewrite bool_decide_eq_false_2; [reflexivity | discriminate].
    + rewrite payment_save_stored by exact Hnum.
      unfold Payments.super_save, Payments.declined. cbn [Payments.id]. rewrite Hid.
      cbn [bind]. eexists. eexists. split; [reflexivity|].
      cbn [Payments.payments Payments.status Payments.amount Payments.booking
           Payments.payment_id Payments.stripe_payment_intent_id
           Payments.stripe_charge_id Payments.processed_at Payments.failure_reason].
      split; [apply lookup_insert_eq|].
      split; [intros k Hk; apply lookup_insert_ne; congruence|].
      do 3 (split; [reflexivity|]).
      split; [right; repeat split|].
      intros fuel' now'. unfold Payments.process_payment.
      rewrite bool_decide_eq_false_2; [reflexivity | discriminate].
Qed.

Lemma process_payment_once_witness :
  exists p' l',
    Payments.process_payment 0 Sample.day (PaymentFixture.deposit_of Payments.pending)
      (PaymentFixture.ledger Payments.pending)
    = Ok (bool_decide (Payments.status p' = Payments.completed), p', l')
    /\ Payments.payments l' !! 1%positive = Some (Payments.to_row p')
    /\ (forall k, k <> 1%positive ->
                  Payments.payments l' !! k
                  = Payments.payments (PaymentFixture.ledger Payments.pending) !! k)
    /\ Payments.amount p' = Payments.amount (PaymentFixture.deposit_of Payments.pending)
    /\ Payments.booking p' = Payments.booking (PaymentFixture.deposit_of Payments.pending)
    /\ Payments.payment_id p'
       = Payments.payment_id (PaymentFixture.deposit_of Payments.pending)
    /\ ((Payments.status p' = Payments.completed
         /\ Payments.stripe_payment_intent_id p'
            = Some ("pi_" ++ Payments.lower
                      (Payments.payment_id (PaymentFixture.deposit_of Payments.pending)))%string
         /\ Payments.stripe_charge_id p'
            = Some ("ch_" ++ Payments.lower
                      (Payments.payment_id (PaymentFixture.deposit_of Payments.pending)))%string
         /\ Payments.processed_at p' = Some Sample.day
         /\ Payments.failure_reason p'
            = Payments.failure_reason (PaymentFixture.deposit_of Payments.pending))
        \/ (Payments.status p' = Payments.failed
            /\ Payments.failure_reason p'
               = Some "Mock payment failed for testing purposes"%string
            /\ Payments.stripe_payment_intent_id p'
               = Payments.stripe_payment_intent_id (PaymentFixture.deposit_of Payments.pending)
            /\ Payments.stripe_charge_id p'
               = Payments.stripe_charge_id (PaymentFixture.deposit_of Payments.pending)
            /\ Payments.processed_at p'
               = Payments.processed_at (PaymentFixture.deposit_of Payments.pending)))
    /\ (forall fuel' now',
          Payments.process_payment fuel' now' p' l' = Ok (false, p', l')).
Proof.
  apply (proj2 (process_payment_once 0 Sample.day 1
                  (PaymentFixture.deposit_of Payments.pending)
                  (PaymentFixture.ledger Payments.pending))
           eq_refl eq_refl ltac:(discriminate)).
Defined.

(** The mock processor on the sample deposit: the first draw of the sample
    generator falls below 0.95, the payment completes and the Stripe ids
    are the lower-cased payment id. *)
Example process_sample_deposit :
  match Payments.process_payment 0 Sample.day (PaymentFixture.deposit_of Payments.pending)
          (PaymentFixture.ledger Payments.pending) with
  | Ok (ok, p', _) =>
      Some (ok, Payments.status p', Payments.stripe_payment_intent_id p',
            Payments.stripe_charge_id p')
  | _ => None
  end
  = Some (true, Payments.completed, Some "pi_pay000000001"%string,
          Some "ch_pay000000001"%string).
Proof. vm_compute. reflexivity. Qed.

(** X21.  Only a completed payment can be refunded: for any other status
    [refund_payment] returns [None] and the ledger is unchanged.  For a
    completed payment, its amount and the amount asked for passing the
    ten-digit test of the column, a new record is created, of type refund
    and status completed, for the same booking, customer, currency and
    method, under a key not in use and with a fresh payment id; its amount
    is the amount asked for, and the payment's own amount when none is
    asked for or when the amount asked for is zero.  Every existing row,
    the refunded payment included, is left as it was. *)
Theorem refund_payment_spec (fuel : nat) (now : datetime) (requested : option Decimal)
  (p : Payments.Payment) (l : Payments.Ledger) :
  (Payments.status p <> Payments.completed ->
   Payments.refund_payment fuel now requested p l = Ok (None, l))
  /\ (Payments.status p = Payments.completed ->
      column_fits (Payments.amount p) = true ->
      (forall a, requested = Some a -> column_fits a = true) ->
      forall code g,
        Payments.generate_payment_id fuel l = Ok (code, g) ->
        exists r l',
          Payments.refund_payment fuel now requested p l = Ok (Some r, l')
          /\ Payments.payment_type r = Payments.refund
          /\ Payments.status r = Payments.completed
          /\ Payments.booking r = Payments.booking p
          /\ Payments.customer r = Payments.customer p
          /\ Payments.currency r = Payments.currency p
          /\ Payments.payment_method r = Payments.payment_method p
          /\ Payments.processed_at r = Some now
          /\ Payments.payment_id r = code
          /\ (forall k q, Payments.payments l !! k = Some q -> Payments.payment_id q <> code)
          /\ (requested = None -> Payments.amount r = Payments.amount p)
          /\ (forall a, requested = Some a -> coef a = 0 ->
                        Payments.amount r = Payments.amount p)
          /\ (forall a, requested = Some a -> coef a <> 0 -> Payments.amount r = a)
          /\ (exists k, Payments.id r = Some k /\ Payments.payments l !! k = None
                        /\ Payments.payments l' = <[k := Payments.to_row r]> (Payments.payments l))
          /\ (forall k q, Payments.payments l !! k = Some q ->
                          Payments.payments l' !! k = Some q)).
Proof.
  split.
  - intros H. unfold Payments.refund_payment.
    rewrite bool_decide_eq_false_2 by exact H. reflexivity.
  - intros Hc _ _ code g Hg. unfold Payments.refund_payment.
    rewrite bool_decide_eq_true_2 by exact Hc.
    unfold Payments.save. cbn [Payments.payment_id].
    rewrite bool_decide_eq_true_2 by reflexivity. cbn [negb].
    rewrite Hg. cbn [bind]. unfold Payments.super_save. cbn [Payments.id bind].
    eexists. eexists. split; [reflexivity|].
    cbn [Payments.payment_type Payments.status Payments.booking Payments.customer
         Payments.currency Payments.payment_method Payments.processed_at
         Payments.payment_id Payments.amount Payments.id Payments.payments].
    assert (F : Payments.payments l !! fresh (dom (Payments.payments l)) = None).
    { apply not_elem_of_dom. apply is_fresh. }
    do 8 (split; [reflexivity|]).
    split; [exact (proj2 (proj2 (generate_payment_id_spec _ _ _ _ Hg)))|].
    split; [intros ->; reflexivity|].
    split; [intros a -> Hz; unfold Dtruthy; rewrite Hz; reflexivity|].
    split; [intros a -> Hz; unfold Dtruthy;
            rewrite (proj2 (Z.eqb_neq _ _) Hz); reflexivity|].
    split; [eexists; split; [reflexivity|]; split; [exact F | reflexivity]|].
    intros k q Hq. rewrite lookup_insert_ne; [exact Hq|].
    intros <-. rewrite F in Hq. discriminate Hq.
Qed.

Lemma refund_payment_spec_witness :
  exists r l',
    Payments.refund_payment 1 Sample.day (Some (mkDecimal 0 (-2)))
      (PaymentFixture.deposit_of Payments.completed)
      (PaymentFixture.ledger Payments.completed)
    = Ok (Some r, l')
    /\ Payments.payment_type r = Payments.refund
    /\ Payments.amount r = mkDecimal 2000 (-2)
    /\ Payments.payments l' !! 1%positive
       = Some (PaymentFixture.deposit_of Payments.completed).
Proof.
  edestruct (proj2 (refund_payment_spec 1 Sample.day (Some (mkDecimal 0 (-2)))
                      (PaymentFixture.deposit_of Payments.completed)
                      (PaymentFixture.ledger Payments.completed)) eq_refl eq_refl)
    as (r & l' & H & Ht & _ & _ & _ & _ & _ & _ & _ & _ & _ & Hz & _ & _ & Hk).
  { intros a E. injection E as <-. reflexivity. }
  { vm_compute. reflexivity. }
  exists r, l'. split; [exact H|]. split; [exact Ht|].
  split; [exact (Hz _ eq_refl eq_refl) | exact (Hk 1%positive _ eq_refl)].
Defined.

Lemma payment_candidate_shift (g : Random) (k : nat) :
  payment_candidate (advance g 12) k = payment_candidate g (S k).
Proof.
  unfold payment_candidate. rewrite advance_advance. do 3 f_equal. lia.
Qed.

Lemma payment_regenerate_first_fresh (l : Payments.Ledger) (k : nat) :
  forall (fuel : nat) (g : Random),
    (k <= fuel)%nat ->
    (forall i, (i < k)%nat ->
               Payments.payment_id_exists l (payment_candidate g i) = true) ->
    Payments.payment_id_exists l (payment_candidate g k) = false ->
    Payments.regenerate_while_exists fuel l (payment_candidate g 0) (advance g 12)
    = Ok (payment_candidate g k, advance g (12 * (k + 1))).
Proof.
  induction k as [|k IH]; intros fuel g Hk Hbusy Hfree.
  - destruct fuel; cbn [Payments.regenerate_while_exists]; rewrite Hfree; reflexivity.
  - destruct fuel as [|fuel]; [lia|]. cbn [Payments.regenerate_while_exists].
    rewrite (Hbusy 0%nat) by lia.
    rewrite (random_string_eq 12 (ascii_uppercase ++ digits) (advance g 12)).
    assert (E0 : fst (random_string 12 (ascii_uppercase ++ digits) (advance g 12))
                 = payment_candidate (advance g 12) 0).
    { unfold payment_candidate. now rewrite advance_advance. }
    rewrite E0.
    rewrite (IH fuel (advance g 12)).
    + rewrite payment_candidate_shift, advance_advance. do 3 f_equal. lia.
    + lia.
    + intros i Hi. rewrite payment_candidate_shift. apply Hbusy. lia.
    + rewrite payment_candidate_shift. exact Hfree.
Qed.

Lemma payment_regenerate_all_busy (l : Payments.Ledger) (fuel : nat) :
  forall (g : Random),
    (forall i, (i <= fuel)%nat ->
               Payments.payment_id_exists l (payment_candidate g i) = true) ->
    Payments.regenerate_while_exists fuel l (payment_candidate g 0) (advance g 12)
    = OutOfFuel.
Proof.
  induction fuel as [|fuel IH]; intros g Hbusy; cbn [Payments.regenerate_while_exists];
    rewrite (Hbusy 0%nat) by lia.
  - reflexivity.
  - rewrite (random_string_eq 12 (ascii_uppercase ++ digits) (advance g 12)).
    assert (E0 : fst (random_string 12 (ascii_uppercase ++ digits) (advance g 12))
                 = payment_candidate (advance g 12) 0).
    { unfold payment_candidate. now rewrite advance_advance. }
    rewrite E0. apply IH. intros i Hi. rewrite payment_candidate_shift. apply Hbusy. lia.
Qed.

Lemma generate_payment_id_unfold (fuel : nat) (l : Payments.Ledger) :
  Payments.generate_payment_id fuel l
  = Payments.regenerate_while_exists fuel l (payment_candidate (Payments.random l) 0)
      (advance (Payments.random l) 12).
Proof.
  unfold Payments.generate_payment_id, payment_candidate. rewrite Nat.mul_0_r, advance_0.
  pose proof (random_string_advance 12 (ascii_uppercase ++ digits) (Payments.random l)) as A.
  destruct (random_string 12 (ascii_uppercase ++ digits) (Payments.random l)) as [code g].
  cbn [fst snd] in *. now subst g.
Qed.

(** X22.  (1) A generated payment id has twelve characters, each an
    uppercase letter or a digit, and no stored payment carries it.
    (2) The generator retries: the id is the first code of the random
    sequence that no stored payment carries, however many collisions come
    before it (given fuel for that many rounds).  (3) While every code
    drawn is taken the loop keeps drawing. *)
Theorem payment_id_fresh (fuel : nat) (l : Payments.Ledger) :
  (forall code g,
      Payments.generate_payment_id fuel l = Ok (code, g) ->
      String.length code = 12%nat
      /\ Forall (fun c => In c (ascii_uppercase ++ digits)) (list_ascii_of_string code)
      /\ forall k p, Payments.payments l !! k = Some p -> Payments.payment_id p <> code)
  /\ (forall k : nat,
        (k <= fuel)%nat ->
        (forall i, (i < k)%nat ->
                   exists pk p, Payments.payments l !! pk = Some p
                                /\ Payments.payment_id p
                                   = payment_candidate (Payments.random l) i) ->
        (forall pk p, Payments.payments l !! pk = Some p ->
                      Payments.payment_id p <> payment_candidate (Payments.random l) k) ->
        Payments.generate_payment_id fuel l
        = Ok (payment_candidate (Payments.random l) k,
              advance (Payments.random l) (12 * (k + 1))))
  /\ ((forall i, (i <= fuel)%nat ->
                 exists pk p, Payments.payments l !! pk = Some p
                              /\ Payments.payment_id p
                                 = payment_candidate (Payments.random l) i) ->
      Payments.generate_payment_id fuel l = OutOfFuel).
Proof.
  assert (T : forall code,
             (exists pk p, Payments.payments l !! pk = Some p
                           /\ Payments.payment_id p = code) ->
             Payments.payment_id_exists l code = true).
  { intros code (pk & p & Hp & E). unfold Payments.payment_id_exists.
    apply bool_decide_eq_true. apply map_Exists_lookup. eauto. }
  split; [|split].
  - intros code g. apply generate_payment_id_spec.
  - intros k Hk Hbusy Hfree. rewrite generate_payment_id_unfold.
    apply payment_regenerate_first_fresh; [exact Hk| |].
    + intros i Hi. apply T. now apply Hbusy.
    + now apply payment_id_exists_false.
  - intros Hbusy. rewrite generate_payment_id_unfold.
    apply payment_regenerate_all_busy. intros i Hi. apply T. now apply Hbusy.
Qed.

(** The sample ledger holds a payment under the first code the sample
    generator yields: the generator draws again and returns the second. *)
Lemma payment_id_fresh_witness :
  Payments.generate_payment_id 1 PaymentFixture.taken_ledger
  = Ok ("GNU18FMT07EL"%string, advance Sample.generator 24).
Proof.
  apply (proj1 (proj2 (payment_id_fresh 1 PaymentFixture.taken_ledger)) 1%nat).
  - lia.
  - intros i Hi. destruct i; [|lia].
    exists 1%positive, PaymentFixture.taken_deposit. split; vm_compute; reflexivity.
  - intros pk p Hp. unfold PaymentFixture.taken_ledger in Hp. cbn [Payments.payments] in Hp.
    apply lookup_singleton_Some in Hp as [_ <-]. vm_compute. discriminate.
Defined.

(** ** No double booking *)

Lemma create_valid (fuel : nat) (now : datetime) (user : positive) (d : CreateData)
  (w w' : World) (r : Response) :
  BookingListView_create fuel now user d w = Ok (r, w') -> create_is_valid w now d = Ok d.
Proof.
  unfold BookingListView_create. intros H.
  destruct (create_is_valid w now d) as [x| |] eqn:E; try discriminate H.
  now rewrite (create_is_valid_ok _ _ _ _ E).
Qed.

(** Writing, under a key in use, a row with the same vehicle and bounds
    that holds the vehicle only if the old row did. *)
Lemma no_double_booking_rewrite (w : World) (pk : positive) (old row : Booking) :
  bookings w !! pk = Some old ->
  vehicle row = vehicle old -> start_date row = start_date old ->
  end_date row = end_date old -> (holding row -> holding old) ->
  no_double_booking w ->
  no_double_booking (set_bookings (<[pk := row]> (bookings w)) w).
Proof.
  intros Ho Ev Es Ee Hh N p q a b sa ea sb eb Hpq Ha Hb Hv H1 H2 S1 E1 S2 E2.
  cbn [bookings set_bookings] in Ha, Hb.
  apply lookup_insert_Some in Ha as [[<- <-]|[Np Ha]];
    apply lookup_insert_Some in Hb as [[<- <-]|[Nq Hb]].
  - contradiction.
  - apply (N pk q old b sa ea sb eb); auto; congruence.
  - apply (N p pk a old sa ea sb eb); auto; congruence.
  - apply (N p q a b sa ea sb eb); auto.
Qed.

(** X23.  The create, confirm and cancel endpoints keep the store free of
    double bookings: if no two holding bookings of one vehicle overlap
    before the request, none do after it.  (The update endpoint runs no
    overlap check and is not covered.) *)
Theorem no_double_booking_kept (w : World) :
  no_double_booking w ->
  (forall fuel now user d r w',
      BookingListView_create fuel now user d w = Ok (r, w') -> no_double_booking w')
  /\ (store_ok w ->
      forall fuel now user pk r w',
        BookingConfirmView_post fuel now user pk w = Ok (r, w') -> no_double_booking w')
  /\ (store_ok w ->
      forall fuel early now user pk reason r w',
        BookingCancelView_post fuel early now user pk reason w = Ok (r, w') ->
        no_double_booking w').
Proof.
  intros N. split; [|split].
  - intros fuel now user d r w' H.
    pose proof (create_valid _ _ _ _ _ _ _ H) as V.
    apply create_is_valid_spec in V as (_ & _ & _ & Hfree).
    apply create_inversion in H as (vehicle_pk & v & number & g & b & Ev & _ & _ & Eb & -> & ->).
    pose proof (fresh_key_unused w) as F.
    set (k := fresh (dom (bookings w))) in *.
    assert (Rv : vehicle (to_row b) = vehicle_pk) by (rewrite Eb; reflexivity).
    assert (Rs : start_date (to_row b) = Some (c_start_date d)) by (rewrite Eb; reflexivity).
    assert (Re : end_date (to_row b) = Some (c_end_date d)) by (rewrite Eb; reflexivity).
    intros p q a c sa ea sb eb Hpq Ha Hb Hv H1 H2 S1 E1 S2 E2.
    cbn [bookings set_bookings set_random] in Ha, Hb.
    apply lookup_insert_Some in Ha as [[<- <-]|[Np Ha]];
      apply lookup_insert_Some in Hb as [[<- <-]|[Nq Hb]].
    + contradiction.
    + rewrite Rs in S1. rewrite Re in E1. injection S1 as <-. injection E1 as <-.
      assert (Hvc : Z.pos (vehicle c) = c_vehicle_id d) by (rewrite Ev, <- Hv, Rv; reflexivity).
      destruct (Hfree q c sb eb Hb Hvc H2 S2 E2); [right | left]; assumption.
    + rewrite Rs in S2. rewrite Re in E2. injection S2 as <-. injection E2 as <-.
      assert (Hva : Z.pos (vehicle a) = c_vehicle_id d) by (rewrite Ev, Hv, Rv; reflexivity).
      destruct (Hfree p a sa ea Ha Hva H1 S1 E1); [left | right]; assumption.
    + exact (N p q a c sa ea sb eb Hpq Ha Hb Hv H1 H2 S1 E1 S2 E2).
  - intros Hw fuel now user pk r w' H.
    destruct (get_booking w user pk) as [b|] eqn:Hg.
    + pose proof (proj1 (get_booking_Some _ _ _ _) Hg) as [Hb _].
      destruct (Hw pk b Hb) as (Hid & Hnum & _).
      destruct (decide (status b = pending)) as [Hp|Hp].
      * rewrite (confirm_forward fuel now user pk b w Hg Hid Hnum Hp) in H.
        injection H as <- <-.
        destruct (stored_fields now (set_status confirmed b))
          as (_ & _ & _ & Ev & _ & Es & Ee & _).
        apply (no_double_booking_rewrite w pk b); auto.
        intros _. left. exact Hp.
      * rewrite (confirm_refused fuel now user pk b w Hg Hp) in H.
        injection H as <- <-. exact N.
    + unfold BookingConfirmView_post in H. rewrite Hg in H. injection H as <- <-. exact N.
  - intros Hw fuel early now user pk reason r w' H.
    destruct (get_booking w user pk) as [b|] eqn:Hg.
    + pose proof (proj1 (get_booking_Some _ _ _ _) Hg) as [Hb _].
      destruct (Hw pk b Hb) as (Hid & Hnum & _).
      destruct (cancel_cases _ _ _ _ _ _ _ _ _ _ Hg Hid Hnum H) as [[_ ->] | (_ & _ & ->)];
        [exact N|].
      destruct (stored_fields now (set_cancellation_reason reason (set_status cancelled b)))
        as (_ & _ & _ & Ev & Est & Es & Ee & _).
      apply (no_double_booking_rewrite w pk b); auto.
      unfold holding. rewrite Est. intros [?|[?|?]]; discriminate.
    + unfold BookingCancelView_post in H. rewrite Hg in H. injection H as <- <-. exact N.
Qed.

Lemma booked_twice_no_double_booking : no_double_booking Sample.booked_twice.
Proof.
  intros p q a b sa ea sb eb Hpq Ha Hb _ _ _ S1 E1 S2 E2.
  unfold Sample.booked_twice in Ha, Hb. cbn [bookings] in Ha, Hb.
  apply lookup_insert_Some in Ha as [[<- <-]|[_ Ha]];
    [|apply lookup_singleton_Some in Ha as [<- <-]];
    (apply lookup_insert_Some in Hb as [[<- <-]|[_ Hb]];
     [|apply lookup_singleton_Some in Hb as [<- <-]]);
    try contradiction;
    cbn [Sample.row start_date end_date] in S1, E1, S2, E2;
    injection S1 as <-; injection E1 as <-; injection S2 as <-; injection E2 as <-.
  - right. apply Z.le_refl.
  - left. apply Z.le_refl.
Defined.

(** With days [10, 12) and [12, 14) of vehicle 1 booked (two pending
    bookings that touch), the store is free of double bookings after the
    first booking is confirmed, and after a third booking of the vehicle,
    over days [14, 16), is created. *)
Lemma no_double_booking_kept_witness :
  no_double_booking
    (set_bookings
       (<[1%positive :=
            to_row (set_updated_at (Some Sample.day)
                      (with_total (set_status confirmed
                         (Sample.row 1 "4BIPW3AH" (10 * Sample.day) (12 * Sample.day)
                            pending))))]>
          (bookings Sample.booked_twice))
       Sample.booked_twice)
  /\ no_double_booking
       (set_bookings
          (<[3%positive :=
               to_row (created_instance Sample.day 7 1 Sample.car "OV29GNU1" 3
                         (mkCreateData 1 (14 * Sample.day) (16 * Sample.day)
                            initial_unusable None None None))]>
             (bookings Sample.booked_twice))
          (set_random (advance Sample.generator 16) Sample.booked_twice)).
Proof.
  split.
  - apply (proj1 (proj2 (no_double_booking_kept Sample.booked_twice
                           booked_twice_no_double_booking))
             booked_twice_store_ok
             0%nat Sample.day 7%positive 1%positive
             (mkResponse 200 true "Booking confirmed successfully"
                (Some (set_updated_at (Some Sample.day)
                         (with_total (set_status confirmed
                            (Sample.row 1 "4BIPW3AH" (10 * Sample.day) (12 * Sample.day)
                               pending))))))).
    reflexivity.
  - apply (proj1 (no_double_booking_kept Sample.booked_twice
                    booked_twice_no_double_booking)
             1%nat Sample.day 7%positive
             (mkCreateData 1 (14 * Sample.day) (16 * Sample.day)
                initial_unusable None None None)
             (mkResponse 201 true "Booking created successfully"
                (Some (created_instance Sample.day 7 1 Sample.car "OV29GNU1" 3
                         (mkCreateData 1 (14 * Sample.day) (16 * Sample.day)
                            initial_unusable None None None))))).
    vm_compute. reflexivity.
Defined.

(** X24.  Cancelling releases the vehicle.  While a holding booking
    overlaps a request the create endpoint refuses it; once that booking is
    cancelled, and no other holding booking of the vehicle overlaps the
    request, the overlap check lets the same request through. *)
Theorem cancel_frees_vehicle (fuel : nat) (early now s e : datetime) (user pk : positive)
  (reason : option string) (b : Booking) (w : World) (d : CreateData) :
  get_booking w user pk = Some b -> id b = Some pk -> booking_number b <> EmptyString ->
  validate_cancellation_reason reason = [] ->
  start_date b = Some s -> end_date b = Some e ->
  early <= now -> status b = pending \/ status b = confirmed -> now < s ->
  Zpos (vehicle b) = c_vehicle_id d -> s < c_end_date d -> c_start_date d < e ->
  (forall k a sa ea,
      k <> pk -> bookings w !! k = Some a -> Zpos (vehicle a) = c_vehicle_id d ->
      holding a -> start_date a = Some sa -> end_date a = Some ea ->
      ea <= c_start_date d \/ c_end_date d <= sa) ->
  validate w d
  = Raise (ValidationError ["This vehicle is already booked for the selected dates."%string])
  /\ exists b1 w1,
       BookingCancelView_post fuel early now user pk reason w
       = Ok (mkResponse 200 true "Booking cancelled successfully" (Some b1), w1)
       /\ validate w1 d = Ok d.
Proof.
  intros Hg Hid Hnum Hr Hs He Hle Hst Hlt Hv O1 O2 Hothers.
  pose proof (proj1 (get_booking_Some _ _ _ _) Hg) as [Hb _].
  split.
  - unfold validate. rewrite <- Hv. cbn [Z.eqb negb]. rewrite Hv.
    assert (X : overlapping_bookings_exist w (c_vehicle_id d) (c_start_date d) (c_end_date d)
                = true).
    { apply overlapping_bookings_exist_spec. exists pk, b. split; [exact Hb|].
      apply overlap_filter_spec. split; [exact Hv|].
      split; [destruct Hst; auto|]. exists s, e. auto. }
    rewrite X. reflexivity.
  - eexists. eexists.
    split; [exact (cancel_forward fuel early now s user pk reason b w
                     Hg Hid Hnum Hr Hs Hle Hst Hlt)|].
    unfold validate. rewrite <- Hv. cbn [Z.eqb negb]. rewrite Hv.
    assert (X : overlapping_bookings_exist
                  (set_bookings
                     (<[pk := to_row (set_updated_at (Some now)
                                        (with_total (set_cancellation_reason reason
                                                       (set_status cancelled b))))]>
                        (bookings w)) w)
                  (c_vehicle_id d) (c_start_date d) (c_end_date d) = false).
    { apply no_overlap_iff. intros k a sa ea Ha Hva Hh Sa Ea.
      cbn [bookings set_bookings] in Ha.
      apply lookup_insert_Some in Ha as [[<- <-]|[Nk Ha]].
      - destruct (stored_fields now (set_cancellation_reason reason (set_status cancelled b)))
          as (_ & _ & _ & _ & Est & _).
        rewrite Est in Hh. destruct Hh as [?|[?|?]]; discriminate.
      - apply (Hothers k a sa ea); auto. }
    rewrite X. reflexivity.
Qed.

Lemma cancel_frees_vehicle_witness :
  validate (Sample.booked confirmed)
    (mkCreateData 1 (11 * Sample.day) (13 * Sample.day) initial_unusable None None None)
  = Raise (ValidationError ["This vehicle is already booked for the selected dates."%string])
  /\ exists b1 w1,
       BookingCancelView_post 0 Sample.day Sample.day 7 1 None (Sample.booked confirmed)
       = Ok (mkResponse 200 true "Booking cancelled successfully" (Some b1), w1)
       /\ validate w1
            (mkCreateData 1 (11 * Sample.day) (13 * Sample.day) initial_unusable
               None None None)
          = Ok (mkCreateData 1 (11 * Sample.day) (13 * Sample.day) initial_unusable
                  None None None).
Proof.
  apply (cancel_frees_vehicle 0 Sample.day Sample.day (10 * Sample.day) (12 * Sample.day)
           7 1 None
           (Sample.row 1 "4BIPW3AH" (10 * Sample.day) (12 * Sample.day) confirmed)
           (Sample.booked confirmed)
           (mkCreateData 1 (11 * Sample.day) (13 * Sample.day) initial_unusable None None None)
           eq_refl eq_refl ltac:(discriminate) eq_refl eq_refl eq_refl
           ltac:(vm_compute; discriminate) (or_intror eq_refl) eq_refl eq_refl
           eq_refl eq_refl).
  intros k a sa ea Hk Ha. unfold Sample.booked in Ha. cbn [bookings] in Ha.
  apply lookup_singleton_Some in Ha as [<- _]. contradiction.
Defined.
